(** * A static file server with cross-origin isolation headers

    Verification development for [server.py]: the request handler
    [SecurityHeaderHandler], which overrides [end_headers] of
    [http.server.SimpleHTTPRequestHandler], and the script body under
    [if __name__ == '__main__'].

    The two definitions of [server.py] are embedded line by line.  They run
    inside the request handling of the Python standard library
    ([http.server], [socketserver]); the methods of those classes that the
    server inherits are embedded from the library's source, and what lies
    outside these two modules (URL unquoting, date formatting, MIME types,
    the operating system) is collected in the records [Library] and [os]
    and left arbitrary: every theorem holds for all of them. *)

From Stdlib Require Import String Ascii List Bool Arith ZArith Lia.
Import ListNotations.
Open Scope string_scope.

(** ** Python strings

    A Python [str] whose code points are below 256 (the request line is
    decoded as ISO-8859-1, and header lines are encoded as latin-1) and a
    Python [bytes] are both a [string] here. *)
Module Py.

Definition chr (n : nat) : string := String (ascii_of_nat n) "".

Definition CR : string := chr 13.
Definition LF : string := chr 10.
Definition CRLF : string := CR ++ LF.
Definition dquote : string := chr 34.

(** [s.startswith(p)] *)
Definition startswith (s p : string) : bool := String.prefix p s.

(** [s.endswith(p)] *)
Fixpoint endswith (s p : string) : bool :=
  (s =? p) ||
  match s with
  | EmptyString => false
  | String _ s' => endswith s' p
  end.

Fixpoint map_chars (f : ascii -> ascii) (s : string) : string :=
  match s with
  | EmptyString => EmptyString
  | String c s' => String (f c) (map_chars f s')
  end.

(** [str.lower] on code points below 256: A-Z and the accented capitals
    192..222 (except the multiplication sign 215) move up by 32. *)
Definition lower_char (c : ascii) : ascii :=
  let n := nat_of_ascii c in
  if (((65 <=? n) && (n <=? 90)) ||
      ((192 <=? n) && (n <=? 222) && negb (n =? 215)))%nat
  then ascii_of_nat (n + 32) else c.

Definition lower : string -> string := map_chars lower_char.

(** [str.isspace] on code points below 256. *)
Definition isspace (c : ascii) : bool :=
  let n := nat_of_ascii c in
  (((9 <=? n) && (n <=? 13)) || ((28 <=? n) && (n <=? 32)) ||
   (n =? 133) || (n =? 160))%nat.

(** [s.rstrip(chars)], the characters given by a predicate. *)
Fixpoint rstrip_if (f : ascii -> bool) (s : string) : string :=
  match s with
  | EmptyString => EmptyString
  | String c s' =>
      match rstrip_if f s' with
      | EmptyString => if f c then EmptyString else String c EmptyString
      | r => String c r
      end
  end.

Fixpoint lstrip_if (f : ascii -> bool) (s : string) : string :=
  match s with
  | EmptyString => EmptyString
  | String c s' => if f c then lstrip_if f s' else s
  end.

Definition is_char (c : ascii) : ascii -> bool := Ascii.eqb c.

Definition rstrip_crlf : string -> string :=
  rstrip_if (fun c => is_char "013" c || is_char "010" c).

Definition rstrip : string -> string := rstrip_if isspace.

(** [s.split(sep)] for a one-character separator: never an empty list. *)
Fixpoint split_on (sep : ascii) (s : string) : list string :=
  match s with
  | EmptyString => [EmptyString]
  | String c s' =>
      if Ascii.eqb c sep then EmptyString :: split_on sep s'
      else match split_on sep s' with
           | w :: ws => String c w :: ws
           | [] => [String c EmptyString]
           end
  end.

(** [s.split(sep, 1)[0]] *)
Fixpoint before (sep : ascii) (s : string) : string :=
  match s with
  | EmptyString => EmptyString
  | String c s' => if Ascii.eqb c sep then EmptyString else String c (before sep s')
  end.

(** [s.split()]: the maximal runs of non-whitespace characters. *)
Fixpoint split_ws_aux (cur : option string) (s : string) : list string :=
  match s with
  | EmptyString => match cur with Some w => [w] | None => [] end
  | String c s' =>
      if isspace c
      then match cur with
           | Some w => w :: split_ws_aux None s'
           | None => split_ws_aux None s'
           end
      else split_ws_aux
             (Some (match cur with Some w => w ++ String c "" | None => String c "" end))
             s'
  end.

Definition split_ws : string -> list string := split_ws_aux None.

(** [str(n)] for a natural number. *)
Fixpoint digits (fuel n : nat) (acc : string) : string :=
  match fuel with
  | O => acc
  | S fuel' =>
      let acc' := String (ascii_of_nat (48 + n mod 10)) acc in
      if (n <? 10)%nat then acc' else digits fuel' (n / 10) acc'
  end.

Definition str (n : nat) : string := digits (S n) n "".

(** [sep.join(parts)] *)
Definition join_with (sep : string) (parts : list string) : string :=
  String.concat sep parts.

(** [s.replace(c, by)] for a one-character pattern. *)
Fixpoint replace_char (c : ascii) (by_ : string) (s : string) : string :=
  match s with
  | EmptyString => EmptyString
  | String d s' =>
      if Ascii.eqb d c then by_ ++ replace_char c by_ s'
      else String d (replace_char c by_ s')
  end.

(** [html.escape(s, quote=False)] *)
Definition html_escape (s : string) : string :=
  replace_char ">" "&gt;" (replace_char "<" "&lt;" (replace_char "&" "&amp;" s)).

(** [s.encode('UTF-8', 'replace')] of a string of code points below 256:
    two bytes for each code point from 128 on. *)
Fixpoint utf8 (s : string) : string :=
  match s with
  | EmptyString => EmptyString
  | String c s' =>
      let n := nat_of_ascii c in
      if (n <? 128)%nat then String c (utf8 s')
      else String (ascii_of_nat (192 + n / 64))
             (String (ascii_of_nat (128 + n mod 64)) (utf8 s'))
  end.

(** Lexicographic comparison of strings by code point: [a >= b]. *)
Definition ge (a b : string) : bool := String.leb b a.

(** [os.path.join(a, b)] on POSIX. *)
Definition path_join (a b : string) : string :=
  if startswith b "/" then b
  else if (a =? "") || endswith a "/" then a ++ b
  else a ++ "/" ++ b.

(** [os.path.dirname(p)] on POSIX: the part up to the last slash, without
    its trailing slashes unless it is made of slashes only. *)
Fixpoint upto_last (sep : ascii) (s : string) : string :=
  match s with
  | EmptyString => EmptyString
  | String c s' =>
      match upto_last sep s' with
      | EmptyString => if Ascii.eqb c sep then String c EmptyString else EmptyString
      | r => String c r
      end
  end.

Definition dirname (p : string) : string :=
  let head := upto_last "/" p in
  match rstrip_if (is_char "/") head with
  | EmptyString => head
  | stripped => stripped
  end.

End Py.

(** ** The request handler classes of [http.server] *)
Module Http.
Import Py.

(** The members of [http.HTTPStatus] the handler refers to. *)
Inductive HTTPStatus : Type :=
| CONTINUE | OK | NO_CONTENT | RESET_CONTENT | MOVED_PERMANENTLY
| NOT_MODIFIED | BAD_REQUEST | NOT_FOUND | REQUEST_URI_TOO_LONG
| REQUEST_HEADER_FIELDS_TOO_LARGE | NOT_IMPLEMENTED
| HTTP_VERSION_NOT_SUPPORTED.

Definition value (c : HTTPStatus) : nat :=
  match c with
  | CONTINUE => 100 | OK => 200 | NO_CONTENT => 204 | RESET_CONTENT => 205
  | MOVED_PERMANENTLY => 301 | NOT_MODIFIED => 304 | BAD_REQUEST => 400
  | NOT_FOUND => 404 | REQUEST_URI_TOO_LONG => 414
  | REQUEST_HEADER_FIELDS_TOO_LARGE => 431 | NOT_IMPLEMENTED => 501
  | HTTP_VERSION_NOT_SUPPORTED => 505
  end.

(** [BaseHTTPRequestHandler.responses]: phrase and description. *)
Definition responses (c : HTTPStatus) : string * string :=
  match c with
  | CONTINUE => ("Continue", "Request received, please continue")
  | OK => ("OK", "Request fulfilled, document follows")
  | NO_CONTENT => ("No Content", "Request fulfilled, nothing follows")
  | RESET_CONTENT => ("Reset Content", "Clear input form for further input")
  | MOVED_PERMANENTLY =>
      ("Moved Permanently", "Object moved permanently -- see URI list")
  | NOT_MODIFIED => ("Not Modified", "Document has not changed since given time")
  | BAD_REQUEST => ("Bad Request", "Bad request syntax or unsupported method")
  | NOT_FOUND => ("Not Found", "Nothing matches the given URI")
  | REQUEST_URI_TOO_LONG => ("Request-URI Too Long", "URI is too long")
  | REQUEST_HEADER_FIELDS_TOO_LARGE =>
      ("Request Header Fields Too Large",
       "The server is unwilling to process the request because its header fields are too large")
  | NOT_IMPLEMENTED => ("Not Implemented", "Server does not support this operation")
  | HTTP_VERSION_NOT_SUPPORTED => ("HTTP Version Not Supported", "Cannot fulfill request")
  end.

Definition is_status (a b : HTTPStatus) : bool := (value a =? value b)%nat.

(** Class constants. *)
Definition protocol_version : string := "HTTP/1.0".
Definition default_request_version : string := "HTTP/0.9".
Definition server_version : string := "SimpleHTTP/0.6".
Definition error_content_type : string := "text/html;charset=utf-8".

(** [DEFAULT_ERROR_MESSAGE % {'code': ..., 'message': ..., 'explain': ...}] *)
Definition error_message (code : nat) (message explain : string) : string :=
  "<!DOCTYPE HTML>" ++ LF ++
  "<html lang=" ++ dquote ++ "en" ++ dquote ++ ">" ++ LF ++
  "    <head>" ++ LF ++
  "        <meta charset=" ++ dquote ++ "utf-8" ++ dquote ++ ">" ++ LF ++
  "        <title>Error response</title>" ++ LF ++
  "    </head>" ++ LF ++
  "    <body>" ++ LF ++
  "        <h1>Error response</h1>" ++ LF ++
  "        <p>Error code: " ++ str code ++ "</p>" ++ LF ++
  "        <p>Message: " ++ message ++ ".</p>" ++ LF ++
  "        <p>Error code explanation: " ++ str code ++ " - " ++ explain ++ ".</p>" ++ LF ++
  "    </body>" ++ LF ++
  "</html>" ++ LF.

(** *** What the handler takes from outside [http.server] *)

Inductive tzinfo : Type := Naive | Utc | Other_zone.

(** A [datetime]: seconds since the epoch (for a naive one, reading its
    fields as UTC) and the kind of its time zone. *)
Record datetime : Type := { dt_seconds : Z; dt_tz : tzinfo }.

(** [urllib.parse.SplitResult] *)
Record url_parts : Type :=
  { scheme : string; netloc : string; upath : string; query : string;
    fragment : string }.

(** Functions of other modules of the standard library, left arbitrary. *)
Record Library : Type := {
  (** the [try] block of [parse_request] that reads the version word:
      [None] for [ValueError] or [IndexError], otherwise the two numbers and
      [base_version_number] *)
  version_number : string -> option (Z * Z * string);
  (** ['%r' % s] *)
  repr : string -> string;
  (** [message.translate(self._control_char_table)] *)
  escape_control : string -> string;
  (** [sys.version.split()[0]] *)
  python_version : string;
  (** [email.utils.formatdate(timestamp, usegmt=True)] *)
  formatdate : Z -> string;
  (** the date and time of a log line, from [time.localtime] *)
  log_date : Z -> string;
  (** [urllib.parse.unquote] as [translate_path] calls it, with its fallback *)
  unquote : string -> string;
  (** [urllib.parse.unquote] as [list_directory] calls it, with its fallback
      on the file-system path *)
  unquote_display : string -> string -> string;
  (** [urllib.parse.quote(s, errors='surrogatepass')] *)
  quote : string -> string;
  normpath : string -> string;
  urlsplit : string -> url_parts;
  urlunsplit : url_parts -> string;
  (** [SimpleHTTPRequestHandler.guess_type], which consults [mimetypes] *)
  guess_type : string -> string;
  (** [email.utils.parsedate_to_datetime]: [None] when it raises *)
  parsedate_to_datetime : string -> option datetime;
  (** [sys.getfilesystemencoding()] and encoding a page with it *)
  filesystem_encoding : string;
  encode_page : string -> string;
  (** [list.sort(key=lambda a: a.lower())] *)
  sort_names : list string -> list string
}.

(** An open file: what [read] returns up to the end, and the fields of
    [os.fstat] the handler uses. *)
Record file : Type := { contents : string; st_size : nat; st_mtime : Z }.

(** The operating system as the handler sees it while it serves one
    connection.  [clock n] is what the [n]-th call of [time.time()]
    returns, in whole seconds. *)
Record os : Type := {
  isdir : string -> bool;
  isfile : string -> bool;
  islink : string -> bool;
  open_rb : string -> option file;
  listdir : string -> option (list string);
  clock : nat -> Z
}.

(** *** The handler instance *)

(** The attributes of the instance that [parse_request] and the response
    methods assign and read. *)
Record attrs : Type := {
  command : option string;
  path : string;
  request_version : string;
  requestline : string;
  headers : list (string * string);
  close_connection : bool
}.

(** The instance: its attributes, and [_headers_buffer], which is absent
    ([None]) until the first header line is buffered. *)
Record self : Type := { attr : attrs; _headers_buffer : option (list string) }.

Definition set_command (v : option string) (a : attrs) : attrs :=
  {| command := v; path := path a; request_version := request_version a;
     requestline := requestline a; headers := headers a;
     close_connection := close_connection a |}.
Definition set_path (v : string) (a : attrs) : attrs :=
  {| command := command a; path := v; request_version := request_version a;
     requestline := requestline a; headers := headers a;
     close_connection := close_connection a |}.
Definition set_request_version (v : string) (a : attrs) : attrs :=
  {| command := command a; path := path a; request_version := v;
     requestline := requestline a; headers := headers a;
     close_connection := close_connection a |}.
Definition set_requestline (v : string) (a : attrs) : attrs :=
  {| command := command a; path := path a; request_version := request_version a;
     requestline := v; headers := headers a;
     close_connection := close_connection a |}.
Definition set_headers (v : list (string * string)) (a : attrs) : attrs :=
  {| command := command a; path := path a; request_version := request_version a;
     requestline := requestline a; headers := v;
     close_connection := close_connection a |}.
Definition set_close_connection (v : bool) (a : attrs) : attrs :=
  {| command := command a; path := path a; request_version := request_version a;
     requestline := requestline a; headers := headers a;
     close_connection := v |}.

(** A write on [wfile]: the header lines that [flush_headers] joins into
    one [bytes] object, or other data. *)
Inductive write : Type :=
| Header_block (lines : list string)
| Body (data : string).

(** The bytes of a write. *)
Definition bytes_of (w : write) : string :=
  match w with
  | Header_block lines => String.concat "" lines
  | Body data => data
  end.

Definition buffered (s : self) : list string :=
  match _headers_buffer s with Some b => b | None => [] end.

(** [BaseHTTPRequestHandler.send_response_only] *)
Definition send_response_only (code : HTTPStatus) (message : option string)
    (s : self) : self :=
  if negb (request_version (attr s) =? "HTTP/0.9") then
    let message :=
      match message with Some m => m | None => fst (responses code) end in
    {| attr := attr s;
       _headers_buffer :=
         Some (app (buffered s)
                 [protocol_version ++ " " ++ str (value code) ++ " " ++ message ++ CRLF]) |}
  else s.

(** [BaseHTTPRequestHandler.send_header] *)
Definition send_header (keyword value_ : string) (s : self) : self :=
  let s :=
    if negb (request_version (attr s) =? "HTTP/0.9") then
      {| attr := attr s;
         _headers_buffer :=
           Some (app (buffered s) [keyword ++ ": " ++ value_ ++ CRLF]) |}
    else s in
  if lower keyword =? "connection" then
    if lower value_ =? "close" then
      {| attr := set_close_connection true (attr s);
         _headers_buffer := _headers_buffer s |}
    else if lower value_ =? "keep-alive" then
      {| attr := set_close_connection false (attr s);
         _headers_buffer := _headers_buffer s |}
    else s
  else s.

Inductive exn : Type :=
| AttributeError | OSError | KeyboardInterrupt.

(** What a call of [end_headers] does: it raises, or it returns with the
    instance updated and some writes on [wfile] made. *)
Definition method : Type := self -> exn + self * list write.

(** [BaseHTTPRequestHandler.flush_headers] *)
Definition flush_headers (s : self) : self * list write :=
  match _headers_buffer s with
  | Some b => ({| attr := attr s; _headers_buffer := Some [] |}, [Header_block b])
  | None => (s, [])
  end.

(** [BaseHTTPRequestHandler.end_headers], which [SimpleHTTPRequestHandler]
    inherits.  Appending to a buffer that does not exist raises. *)
Definition SimpleHTTPRequestHandler_end_headers : method := fun s =>
  if negb (request_version (attr s) =? "HTTP/0.9") then
    match _headers_buffer s with
    | None => inl AttributeError
    | Some b =>
        inr (flush_headers
               {| attr := attr s; _headers_buffer := Some (app b [CRLF]) |})
    end
  else inr (s, []).

(** *** Request handling as programs

    The methods of the base classes that handle a request are programs over
    the operations below.  [End_headers] is the call [self.end_headers()]:
    which method it runs depends on the class of the instance.  The header
    buffer is reached through [send_response_only], [send_header] and
    [end_headers] only, as in [http.server]. *)
Inductive prog (A : Type) : Type :=
| Ret (a : A)
| Get (k : attrs -> prog A)
| Put (a : attrs) (k : prog A)
| Send_response_only (code : HTTPStatus) (message : option string) (k : prog A)
| Send_header (keyword value_ : string) (k : prog A)
| End_headers (k : prog A)
| Wfile_write (data : string) (k : prog A)
| Stderr_write (line : string) (k : prog A)
| Time (k : Z -> prog A)
| Isdir (p : string) (k : bool -> prog A)
| Isfile (p : string) (k : bool -> prog A)
| Islink (p : string) (k : bool -> prog A)
| Open (p : string) (k : option file -> prog A)
| Listdir (p : string) (k : option (list string) -> prog A).

Arguments Ret {A} a.
Arguments Get {A} k.
Arguments Put {A} a k.
Arguments Send_response_only {A} code message k.
Arguments Send_header {A} keyword value_ k.
Arguments End_headers {A} k.
Arguments Wfile_write {A} data k.
Arguments Stderr_write {A} line k.
Arguments Time {A} k.
Arguments Isdir {A} p k.
Arguments Isfile {A} p k.
Arguments Islink {A} p k.
Arguments Open {A} p k.
Arguments Listdir {A} p k.

Fixpoint bind {A B : Type} (m : prog A) (f : A -> prog B) : prog B :=
  match m with
  | Ret a => f a
  | Get k => Get (fun a => bind (k a) f)
  | Put a k => Put a (bind k f)
  | Send_response_only c msg k => Send_response_only c msg (bind k f)
  | Send_header kw v k => Send_header kw v (bind k f)
  | End_headers k => End_headers (bind k f)
  | Wfile_write d k => Wfile_write d (bind k f)
  | Stderr_write l k => Stderr_write l (bind k f)
  | Time k => Time (fun t => bind (k t) f)
  | Isdir p k => Isdir p (fun b => bind (k b) f)
  | Isfile p k => Isfile p (fun b => bind (k b) f)
  | Islink p k => Islink p (fun b => bind (k b) f)
  | Open p k => Open p (fun r => bind (k r) f)
  | Listdir p k => Listdir p (fun r => bind (k r) f)
  end.

Declare Scope prog_scope.
Delimit Scope prog_scope with prog.
Bind Scope prog_scope with prog.
Notation "x <- m ;; k" := (bind m (fun x => k))
  (at level 61, m at next level, right associativity) : prog_scope.
Notation "m ;; k" := (bind m (fun _ => k))
  (at level 61, right associativity) : prog_scope.
Open Scope prog_scope.

Definition ret {A : Type} (a : A) : prog A := Ret a.
Definition get : prog attrs := Get (fun a => Ret a).
Definition modify (f : attrs -> attrs) : prog unit := Get (fun a => Put (f a) (Ret tt)).
Definition self_end_headers : prog unit := End_headers (Ret tt).
Definition wfile_write (data : string) : prog unit := Wfile_write data (Ret tt).
Definition time : prog Z := Time (fun t => Ret t).

(** [self.headers.get(name, failobj)] and [name in self.headers]: header
    names compare without case. *)
Definition header_get (name failobj : string) (hs : list (string * string)) : string :=
  match find (fun kv => lower (fst kv) =? lower name) hs with
  | Some kv => snd kv
  | None => failobj
  end.

Definition header_in (name : string) (hs : list (string * string)) : bool :=
  existsb (fun kv => lower (fst kv) =? lower name) hs.

(** Comparison of version tuples: [(a, b) >= (c, d)]. *)
Definition tuple_ge (v w : Z * Z) : bool :=
  (fst w <? fst v)%Z || ((fst v =? fst w)%Z && (snd w <=? snd v)%Z).

(** What [http.client.parse_headers] makes of the lines that follow the
    request line. *)
Inductive header_lines : Type :=
| Parsed (hs : list (string * string))
| Line_too_long
| Too_many_headers.

(** One request as the handler reads it from [rfile]: the result of
    [readline(65537)], and the lines after it. *)
Record request : Type :=
  { raw_requestline : string; following : header_lines }.

Section Handler.

Variable L : Library.
(** [self.directory]: [os.getcwd()] when the instance is made. *)
Variable directory : string.
(** [self.client_address[0]] *)
Variable client_address : string.

(** [BaseHTTPRequestHandler.log_message], given [format % args]. *)
Definition log_message (message : string) : prog unit :=
  now <- time ;;
  Stderr_write
    (client_address ++ " - - [" ++ log_date L now ++ "] " ++
     escape_control L message ++ LF)
    (Ret tt).

Definition log_request (code : HTTPStatus) : prog unit :=
  a <- get ;;
  log_message (dquote ++ requestline a ++ dquote ++ " " ++ str (value code) ++ " -").

Definition log_error (message : string) : prog unit := log_message message.

Definition version_string : string :=
  server_version ++ " " ++ "Python/" ++ python_version L.

(** [date_time_string()] without a timestamp: the current time. *)
Definition date_time_string : prog string :=
  timestamp <- time ;; ret (formatdate L timestamp).

(** [BaseHTTPRequestHandler.send_response] *)
Definition send_response (code : HTTPStatus) (message : option string) : prog unit :=
  log_request code ;;
  Send_response_only code message
   (Send_header "Server" version_string
     (date <- date_time_string ;;
      Send_header "Date" date (Ret tt))).

(** [BaseHTTPRequestHandler.send_error] *)
Definition send_error (code : HTTPStatus) (message explain : option string) : prog unit :=
  let (shortmsg, longmsg) := responses code in
  let message := match message with Some m => m | None => shortmsg end in
  let explain := match explain with Some e => e | None => longmsg end in
  log_error ("code " ++ str (value code) ++ ", message " ++ message) ;;
  send_response code (Some message) ;;
  Send_header "Connection" "close"
   (let body :=
      if (200 <=? value code)%nat &&
         negb (is_status code NO_CONTENT || is_status code RESET_CONTENT ||
               is_status code NOT_MODIFIED)
      then Some (utf8 (error_message (value code) (html_escape message)
                         (html_escape explain)))
      else None in
    match body with
    | Some b =>
        Send_header "Content-Type" error_content_type
          (Send_header "Content-Length" (str (String.length b)) (Ret tt))
    | None => Ret tt
    end ;;
    self_end_headers ;;
    a <- get ;;
    match body with
    | Some b =>
        if negb (match command a with Some c => c =? "HEAD" | None => false end) &&
           negb (b =? "")
        then wfile_write b else ret tt
    | None => ret tt
    end).

(** [BaseHTTPRequestHandler.handle_expect_100] *)
Definition handle_expect_100 : prog bool :=
  Send_response_only CONTINUE None (self_end_headers ;; ret true).

(** [parse_request], the part that reads the version word when the request
    line has three words or more; [k] is the rest of the method. *)
Definition parse_version (words : list string) (k : prog bool) : prog bool :=
  if (3 <=? length words)%nat then
    let version := last words "" in
    match version_number L version with
    | None =>
        send_error BAD_REQUEST
          (Some ("Bad request version (" ++ repr L version ++ ")")) None ;;
        ret false
    | Some (major, minor, base_version_number) =>
        (if tuple_ge (major, minor) (1, 1)%Z && ge protocol_version "HTTP/1.1"
         then modify (set_close_connection false) else ret tt) ;;
        if tuple_ge (major, minor) (2, 0)%Z then
          send_error HTTP_VERSION_NOT_SUPPORTED
            (Some ("Invalid HTTP version (" ++ base_version_number ++ ")")) None ;;
          ret false
        else
          modify (set_request_version version) ;; k
    end
  else k.

(** [parse_request], from the header lines on. *)
Definition parse_headers_and_directives (r : request) : prog bool :=
  match following r with
  | Line_too_long =>
      send_error REQUEST_HEADER_FIELDS_TOO_LARGE (Some "Line too long")
        (Some "got more than 65536 bytes when reading header line") ;;
      ret false
  | Too_many_headers =>
      send_error REQUEST_HEADER_FIELDS_TOO_LARGE (Some "Too many headers")
        (Some "got more than 100 headers") ;;
      ret false
  | Parsed hs =>
      modify (set_headers hs) ;;
      let conntype := header_get "Connection" "" hs in
      (if lower conntype =? "close" then modify (set_close_connection true)
       else if (lower conntype =? "keep-alive") && ge protocol_version "HTTP/1.1"
       then modify (set_close_connection false)
       else ret tt) ;;
      let expect := header_get "Expect" "" hs in
      a <- get ;;
      if (lower expect =? "100-continue") && ge protocol_version "HTTP/1.1" &&
         ge (request_version a) "HTTP/1.1"
      then ok <- handle_expect_100 ;; if ok then ret true else ret false
      else ret true
  end.

(** [BaseHTTPRequestHandler.parse_request] *)
Definition parse_request (r : request) : prog bool :=
  modify (set_command None) ;;
  modify (set_request_version default_request_version) ;;
  modify (set_close_connection true) ;;
  let requestline := rstrip_crlf (raw_requestline r) in
  modify (set_requestline requestline) ;;
  let words := split_ws requestline in
  if (length words =? 0)%nat then ret false
  else
    parse_version words
      (if negb ((2 <=? length words)%nat && (length words <=? 3)%nat) then
         send_error BAD_REQUEST
           (Some ("Bad request syntax (" ++ repr L requestline ++ ")")) None ;;
         ret false
       else
         let command_ := nth 0 words "" in
         let path_ := nth 1 words "" in
         (if (length words =? 2)%nat then modify (set_close_connection true)
          else ret tt) ;;
         if (length words =? 2)%nat && negb (command_ =? "GET") then
           send_error BAD_REQUEST
             (Some ("Bad HTTP/0.9 request type (" ++ repr L command_ ++ ")")) None ;;
           ret false
         else
           modify (set_command (Some command_)) ;;
           modify (set_path path_) ;;
           (if startswith path_ "//"
            then modify (set_path ("/" ++ lstrip_if (is_char "/") path_))
            else ret tt) ;;
           parse_headers_and_directives r).

(** [SimpleHTTPRequestHandler.translate_path] *)
Definition translate_path (path_ : string) : string :=
  let path_ := before "?" path_ in
  let path_ := before "#" path_ in
  let trailing_slash := endswith (rstrip path_) "/" in
  let path_ := unquote L path_ in
  let path_ := normpath L path_ in
  let words := split_on "/" path_ in
  let words := filter (fun w => negb (w =? "")) words in
  let path_ :=
    fold_left
      (fun path_ word =>
         if negb (dirname word =? "") || (word =? ".") || (word =? "..")
         then path_ else path_join path_ word)
      words directory in
  if trailing_slash then path_ ++ "/" else path_.

(** [SimpleHTTPRequestHandler.list_directory], the loop over the names. *)
Fixpoint listing_items (path_ : string) (names : list string) : prog (list string) :=
  match names with
  | [] => ret []
  | name :: rest =>
      let fullname := path_join path_ name in
      d <- Isdir fullname (fun b => Ret b) ;;
      l <- Islink fullname (fun b => Ret b) ;;
      let linkname := if d then name ++ "/" else name in
      let displayname := if l then name ++ "@" else linkname in
      items <- listing_items path_ rest ;;
      ret (("<li><a href=" ++ dquote ++ quote L linkname ++ dquote ++ ">" ++
            html_escape displayname ++ "</a></li>") :: items)
  end.

(** [SimpleHTTPRequestHandler.list_directory]: the page, or [None] after
    an error response. *)
Definition list_directory (path_ : string) : prog (option string) :=
  Listdir path_ (fun listing =>
    match listing with
    | None =>
        send_error NOT_FOUND (Some "No permission to list directory") None ;;
        ret None
    | Some names =>
        let names := sort_names L names in
        a <- get ;;
        let displaypath := html_escape (unquote_display L (path a) path_) in
        let enc := filesystem_encoding L in
        let title := "Directory listing for " ++ displaypath in
        items <- listing_items path_ names ;;
        let r :=
          app ["<!DOCTYPE HTML>";
            "<html lang=" ++ dquote ++ "en" ++ dquote ++ ">";
            "<head>";
            "<meta charset=" ++ dquote ++ enc ++ dquote ++ ">";
            "<title>" ++ title ++ "</title>" ++ LF ++ "</head>";
            "<body>" ++ LF ++ "<h1>" ++ title ++ "</h1>";
            "<hr>" ++ LF ++ "<ul>"]
           (app items
             ["</ul>" ++ LF ++ "<hr>" ++ LF ++ "</body>" ++ LF ++ "</html>" ++ LF]) in
        let encoded := encode_page L (join_with LF r) in
        send_response OK None ;;
        Send_header "Content-type" ("text/html; charset=" ++ enc)
          (Send_header "Content-Length" (str (String.length encoded))
            (self_end_headers ;; ret (Some encoded)))
    end).

(** Whether [send_head] answers 304: the [If-Modified-Since] test. *)
Definition not_modified (hs : list (string * string)) (f : file) : bool :=
  if header_in "If-Modified-Since" hs && negb (header_in "If-None-Match" hs) then
    match parsedate_to_datetime L (header_get "If-Modified-Since" "" hs) with
    | None => false
    | Some ims =>
        match dt_tz ims with
        | Naive | Utc => (st_mtime f <=? dt_seconds ims)%Z
        | Other_zone => false
        end
    end
  else false.

(** [send_head], from [ctype = self.guess_type(path)] on. *)
Definition send_file (path_ : string) : prog (option string) :=
  let ctype := guess_type L path_ in
  if endswith path_ "/" then
    send_error NOT_FOUND (Some "File not found") None ;; ret None
  else
    Open path_ (fun opened =>
      match opened with
      | None => send_error NOT_FOUND (Some "File not found") None ;; ret None
      | Some f =>
          a <- get ;;
          if not_modified (headers a) f then
            send_response NOT_MODIFIED None ;; self_end_headers ;; ret None
          else
            send_response OK None ;;
            Send_header "Content-type" ctype
              (Send_header "Content-Length" (str (st_size f))
                (Send_header "Last-Modified" (formatdate L (st_mtime f))
                  (self_end_headers ;; ret (Some (contents f)))))
      end).

(** [SimpleHTTPRequestHandler.send_head]: what is left to copy to [wfile],
    or [None]. *)
Definition send_head : prog (option string) :=
  a <- get ;;
  let path_ := translate_path (path a) in
  Isdir path_ (fun is_dir =>
    if is_dir then
      let parts := urlsplit L (path a) in
      if negb (endswith (upath parts) "/") then
        send_response MOVED_PERMANENTLY None ;;
        let new_parts :=
          {| scheme := scheme parts; netloc := netloc parts;
             upath := upath parts ++ "/"; query := query parts;
             fragment := fragment parts |} in
        Send_header "Location" (urlunsplit L new_parts)
          (Send_header "Content-Length" "0" (self_end_headers ;; ret None))
      else
        Isfile (path_join path_ "index.html") (fun found =>
          if found then send_file (path_join path_ "index.html")
          else
            Isfile (path_join path_ "index.htm") (fun found =>
              if found then send_file (path_join path_ "index.htm")
              else list_directory path_))
    else send_file path_).

(** [SimpleHTTPRequestHandler.copyfile]: [shutil.copyfileobj] writes the
    data in chunks; the chunks are one write here, and no write is made
    when there is nothing to copy. *)
Definition copyfile (data : string) : prog unit :=
  if data =? "" then ret tt else wfile_write data.

Definition do_GET : prog unit :=
  f <- send_head ;;
  match f with
  | Some data => copyfile data
  | None => ret tt
  end.

Definition do_HEAD : prog unit :=
  f <- send_head ;; ret tt.

(** [BaseHTTPRequestHandler.handle_one_request].  No timeout is set on the
    socket, so the [TimeoutError] branch is left out. *)
Definition handle_one_request (r : request) : prog unit :=
  if (65536 <? N.of_nat (String.length (raw_requestline r)))%N then
    modify (set_requestline "") ;;
    modify (set_request_version "") ;;
    modify (set_command (Some "")) ;;
    send_error REQUEST_URI_TOO_LONG None None
  else if raw_requestline r =? "" then
    modify (set_close_connection true)
  else
    ok <- parse_request r ;;
    if negb ok then ret tt
    else
      a <- get ;;
      match command a with
      | Some c =>
          if c =? "GET" then do_GET
          else if c =? "HEAD" then do_HEAD
          else
            send_error NOT_IMPLEMENTED
              (Some ("Unsupported method (" ++ repr L c ++ ")")) None
      | None => ret tt
      end.

(** What [readline] returns at the end of the input. *)
Definition end_of_input : request := {| raw_requestline := ""; following := Parsed [] |}.

(** [BaseHTTPRequestHandler.handle]: the requests of one connection, while
    [close_connection] is false. *)
Fixpoint handle_more (pending : list request) : prog unit :=
  a <- get ;;
  if close_connection a then ret tt
  else
    match pending with
    | [] => handle_one_request end_of_input
    | r :: rest => handle_one_request r ;; handle_more rest
    end.

Definition handle (pending : list request) : prog unit :=
  modify (set_close_connection true) ;;
  match pending with
  | [] => handle_one_request end_of_input
  | r :: rest => handle_one_request r ;; handle_more rest
  end.

End Handler.

(** *** Running a program *)

Record world : Type := {
  me : self;
  wfile : list write;
  stderr : list string;
  (** the number of calls of [time.time()] made so far *)
  ticks : nat;
  (** the paths given to [open] and [os.listdir] so far *)
  reads : list string
}.

Inductive outcome (A : Type) : Type :=
| Returned (a : A) (w : world)
| Raised (e : exn) (w : world).

Arguments Returned {A} a w.
Arguments Raised {A} e w.

(** [run eh o p w] runs [p] from [w] for an instance whose class has the
    method [eh] as [end_headers]. *)
Fixpoint run {A : Type} (eh : method) (o : os) (p : prog A) (w : world) : outcome A :=
  match p with
  | Ret a => Returned a w
  | Get k => run eh o (k (attr (me w))) w
  | Put a k =>
      run eh o k
        {| me := {| attr := a; _headers_buffer := _headers_buffer (me w) |};
           wfile := wfile w; stderr := stderr w; ticks := ticks w; reads := reads w |}
  | Send_response_only c msg k =>
      run eh o k
        {| me := send_response_only c msg (me w);
           wfile := wfile w; stderr := stderr w; ticks := ticks w; reads := reads w |}
  | Send_header kw v k =>
      run eh o k
        {| me := send_header kw v (me w);
           wfile := wfile w; stderr := stderr w; ticks := ticks w; reads := reads w |}
  | End_headers k =>
      match eh (me w) with
      | inl e => Raised e w
      | inr (s, ws) =>
          run eh o k
            {| me := s; wfile := app (wfile w) ws; stderr := stderr w;
               ticks := ticks w; reads := reads w |}
      end
  | Wfile_write d k =>
      run eh o k
        {| me := me w; wfile := app (wfile w) [Body d]; stderr := stderr w;
           ticks := ticks w; reads := reads w |}
  | Stderr_write l k =>
      run eh o k
        {| me := me w; wfile := wfile w; stderr := app (stderr w) [l];
           ticks := ticks w; reads := reads w |}
  | Time k =>
      run eh o (k (clock o (ticks w)))
        {| me := me w; wfile := wfile w; stderr := stderr w;
           ticks := S (ticks w); reads := reads w |}
  | Isdir p k => run eh o (k (isdir o p)) w
  | Isfile p k => run eh o (k (isfile o p)) w
  | Islink p k => run eh o (k (islink o p)) w
  | Open p k =>
      run eh o (k (open_rb o p))
        {| me := me w; wfile := wfile w; stderr := stderr w;
           ticks := ticks w; reads := app (reads w) [p] |}
  | Listdir p k =>
      run eh o (k (listdir o p))
        {| me := me w; wfile := wfile w; stderr := stderr w;
           ticks := ticks w; reads := app (reads w) [p] |}
  end.

(** A new instance, before [handle] runs: no attribute of a request is set
    yet (the values below are never read), and there is no header buffer. *)
Definition new_self : self :=
  {| attr := {| command := None; path := ""; request_version := "";
                requestline := ""; headers := []; close_connection := true |};
     _headers_buffer := None |}.

Definition new_world (stderr_ : list string) (ticks_ : nat) : world :=
  {| me := new_self; wfile := []; stderr := stderr_; ticks := ticks_; reads := [] |}.

(** *** The server: [socketserver.TCPServer] and [HTTPServer] *)

Inductive syscall : Type :=
| Sys_socket
| Sys_setsockopt_reuseaddr
| Sys_bind (address : string) (port_ : nat)
| Sys_listen (backlog : nat)
| Sys_close.

(** What reaches the process while it serves. *)
Inductive arrival : Type :=
| Connection (client : string) (pending : list request)
| Interrupt.

(** The machine the script runs on.  [gethostbyname] is the IPv4 address the
    resolver gives for a host name; [bind_error] is what binding an address
    and a port raises, if anything. *)
Record machine : Type := {
  argv : list string;
  environ : list (string * string);
  getcwd : string;
  library : Library;
  system : os;
  gethostbyname : string -> string;
  bind_error : string -> nat -> option exn;
  traceback : exn -> string;
  arrivals : list arrival
}.

Inductive status : Type :=
| Executing
| Serving
| Exited (code : Z).

(** The process as seen from outside. *)
Record process : Type := {
  stdout : list string;
  errors : list string;
  syscalls : list syscall;
  replies : list (string * list write);
  time_calls : nat;
  state : status
}.

Definition started : process :=
  {| stdout := []; errors := []; syscalls := []; replies := []; time_calls := 0;
     state := Executing |}.

(** [print(line)] *)
Definition print (line : string) (p : process) : process :=
  {| stdout := app (stdout p) [line ++ LF]; errors := errors p;
     syscalls := syscalls p; replies := replies p; time_calls := time_calls p;
     state := state p |}.

Definition sys (calls : list syscall) (p : process) : process :=
  {| stdout := stdout p; errors := errors p;
     syscalls := app (syscalls p) calls; replies := replies p;
     time_calls := time_calls p; state := state p |}.

(** [HTTPServer(server_address, RequestHandlerClass)]: the constructor of
    [TCPServer] makes the socket, binds it ([server_bind] sets
    [SO_REUSEADDR] first, as [allow_reuse_address] is set) and listens; when
    binding raises, it closes the socket and raises again. *)
Definition HTTPServer (m : machine) (server_address : string * nat) (p : process)
    : exn * process + process :=
  let (host, port_) := server_address in
  let address := gethostbyname m host in
  let p := sys [Sys_socket; Sys_setsockopt_reuseaddr; Sys_bind address port_] p in
  match bind_error m address port_ with
  | Some e => inl (e, sys [Sys_close] p)
  | None => inr (sys [Sys_listen 5] p)
  end.

(** [finish_request]: an instance of the handler class is made for the
    connection and handles it.  An exception of the handler is reported by
    [handle_error] on standard error, and the server goes on. *)
Definition finish_request (m : machine) (RequestHandlerClass : method)
    (client : string) (pending : list request) (p : process) : process :=
  let w0 := new_world (errors p) (time_calls p) in
  match run RequestHandlerClass (system m)
          (handle (library m) (getcwd m) client pending) w0 with
  | Returned _ w =>
      {| stdout := stdout p; errors := stderr w; syscalls := syscalls p;
         replies := app (replies p) [(client, wfile w)];
         time_calls := ticks w; state := state p |}
  | Raised e w =>
      {| stdout := stdout p;
         errors := app (stderr w)
                     ["----------------------------------------" ++ LF;
                      "Exception occurred during processing of request from " ++
                      client ++ LF;
                      traceback m e;
                      "----------------------------------------" ++ LF];
         syscalls := syscalls p;
         replies := app (replies p) [(client, wfile w)];
         time_calls := ticks w; state := state p |}
  end.

(** [serve_forever]: one connection after the other.  Nothing calls
    [shutdown], so the loop is left by an exception only; when nothing more
    arrives the server is waiting in [select]. *)
Fixpoint serve_forever (m : machine) (RequestHandlerClass : method)
    (incoming : list arrival) (p : process) : exn * process + process :=
  match incoming with
  | [] => inr p
  | Connection client pending :: rest =>
      serve_forever m RequestHandlerClass rest
        (finish_request m RequestHandlerClass client pending p)
  | Interrupt :: _ => inl (KeyboardInterrupt, p)
  end.

(** An exception that nothing catches: the interpreter prints the traceback
    on standard error and the process ends, with status 1, or for
    [KeyboardInterrupt] killed by the interrupt signal, which a shell
    reports as 130. *)
Definition uncaught (m : machine) (e : exn) (p : process) : process :=
  {| stdout := stdout p; errors := app (errors p) [traceback m e];
     syscalls := syscalls p; replies := replies p; time_calls := time_calls p;
     state := Exited (match e with KeyboardInterrupt => 130 | _ => 1 end) |}.

Definition with_state (st : status) (p : process) : process :=
  {| stdout := stdout p; errors := errors p; syscalls := syscalls p;
     replies := replies p; time_calls := time_calls p; state := st |}.

End Http.

(** ** [server.py] *)

Module SecurityHeaderHandler.

(** [SecurityHeaderHandler.end_headers] *)
Definition end_headers : Http.method := fun self =>
  (* These two headers enable SharedArrayBuffer *)
  let self := Http.send_header "Cross-Origin-Embedder-Policy" "require-corp" self in
  let self := Http.send_header "Cross-Origin-Opener-Policy" "same-origin" self in
  Http.SimpleHTTPRequestHandler_end_headers self.

End SecurityHeaderHandler.

Definition port : nat := 3000.

(** The statements under [if __name__ == '__main__'], run as a script. *)
Definition main (m : Http.machine) : Http.process :=
  let p := Http.started in
  let p := Http.print ("Serving on http://localhost:" ++ Py.str port ++
                       " (With Secure Headers)") p in
  match Http.HTTPServer m ("localhost", port) p with
  | inl (e, p) => Http.uncaught m e p
  | inr p =>
      match Http.serve_forever m SecurityHeaderHandler.end_headers
              (Http.arrivals m) (Http.with_state Http.Serving p) with
      | inl (e, p) => Http.uncaught m e p
      | inr p => p
      end
  end.

(** ** Notions the statements use *)

Import Http.

Definition coep_line : string :=
  "Cross-Origin-Embedder-Policy: require-corp" ++ Py.CRLF.
Definition coop_line : string :=
  "Cross-Origin-Opener-Policy: same-origin" ++ Py.CRLF.

(** A buffered line is a header with the given name (names compare without
    case). *)
Definition names (name line : string) : bool :=
  Py.startswith (Py.lower line) (Py.lower name ++ ":").

Definition injected (line : string) : bool :=
  names "Cross-Origin-Embedder-Policy" line ||
  names "Cross-Origin-Opener-Policy" line.

(** The header lines and the body of what was written on [wfile]. *)
Definition header_lines_of (out : list write) : list string :=
  flat_map (fun w => match w with Header_block ls => ls | Body _ => [] end) out.

Definition body_of (out : list write) : string :=
  String.concat "" (flat_map (fun w => match w with
                                        | Header_block _ => []
                                        | Body d => [d]
                                        end) out).

(** The response with the two headers added where its header block is
    finished: before the last line of the block, the blank line that ends
    it.  This follows the specification's words, for the comparison with the
    base handler. *)
Definition with_security_headers (w : write) : write :=
  match w with
  | Header_block ls =>
      Header_block (app (removelast ls) [coep_line; coop_line; last ls ""])
  | Body d => Body d
  end.

Definition no_date (l : string) : bool := negb (names "Date" l).

(** A write without its [Date] header lines. *)
Definition without_date (w : write) : write :=
  match w with
  | Header_block ls => Header_block (filter no_date ls)
  | Body d => Body d
  end.

(** The same system at other times. *)
Definition at_times (o : os) (c : nat -> Z) : os :=
  {| isdir := isdir o; isfile := isfile o; islink := islink o;
     open_rb := open_rb o; listdir := listdir o; clock := c |}.

(** [p] lies in the tree under [root]: it is [root] followed, from a
    component boundary on, by components none of which is the parent
    directory.  (Symbolic links are not followed by this notion.) *)
Definition confined (root p : string) : Prop :=
  exists rest,
    p = root ++ rest /\
    (rest = "" \/ root = "" \/ Py.endswith root "/" = true \/
     Py.startswith rest "/" = true) /\
    ~ In ".." (Py.split_on "/" rest).

(** The path of the request line as [parse_request] stores it. *)
Definition stored_path (p : string) : string :=
  if Py.startswith p "//" then "/" ++ Py.lstrip_if (Py.is_char "/") p else p.

(** ** A machine to run the server on

    The functions of [example_library] follow CPython on the inputs the
    examples give them: request lines in printable ASCII, without
    [If-Modified-Since]. *)
Module Sample.

Definition hex_value (c : ascii) : option nat :=
  let n := nat_of_ascii c in
  if ((48 <=? n) && (n <=? 57))%nat then Some (n - 48)
  else if ((65 <=? n) && (n <=? 70))%nat then Some (n - 55)
  else if ((97 <=? n) && (n <=? 102))%nat then Some (n - 87)
  else None.

(** [urllib.parse.unquote], for escapes of ASCII characters. *)
Fixpoint unquote (s : string) : string :=
  match s with
  | String "%" (String a (String b rest as after_a) as after_percent) =>
      match hex_value a, hex_value b with
      | Some x, Some y => String (ascii_of_nat (16 * x + y)) (unquote rest)
      | _, _ => String "%" (unquote after_percent)
      end
  | String c rest => String c (unquote rest)
  | EmptyString => EmptyString
  end.

Fixpoint normpath_comps (initial_slashes : nat) (comps new_comps : list string)
    : list string :=
  match comps with
  | [] => rev new_comps
  | comp :: rest =>
      if (comp =? "") || (comp =? ".") then normpath_comps initial_slashes rest new_comps
      else if negb (comp =? "..") ||
              ((initial_slashes =? 0)%nat && match new_comps with [] => true | _ => false end) ||
              match new_comps with last_ :: _ => last_ =? ".." | [] => false end
      then normpath_comps initial_slashes rest (comp :: new_comps)
      else normpath_comps initial_slashes rest (tl new_comps)
  end.

(** [posixpath.normpath] *)
Definition normpath (path_ : string) : string :=
  if path_ =? "" then "."
  else
    let initial_slashes :=
      if Py.startswith path_ "/" then
        if Py.startswith path_ "//" && negb (Py.startswith path_ "///") then 2 else 1
      else 0 in
    let comps := normpath_comps initial_slashes (Py.split_on "/" path_) [] in
    let joined := Py.join_with "/" comps in
    let path_ :=
      match initial_slashes with
      | 0 => joined
      | 1 => "/" ++ joined
      | _ => "//" ++ joined
      end in
    if path_ =? "" then "." else path_.

Definition is_digit (c : ascii) : bool :=
  let n := nat_of_ascii c in ((48 <=? n) && (n <=? 57))%nat.

Fixpoint all_chars (f : ascii -> bool) (s : string) : bool :=
  match s with
  | EmptyString => true
  | String c s' => f c && all_chars f s'
  end.

Fixpoint number (acc : Z) (s : string) : Z :=
  match s with
  | EmptyString => acc
  | String c s' => number (10 * acc + Z.of_nat (nat_of_ascii c - 48)) s'
  end.

(** The version word: [HTTP/], digits, a dot, digits. *)
Definition version_number (version : string) : option (Z * Z * string) :=
  if Py.startswith version "HTTP/" then
    let base := substring 5 (String.length version - 5) version in
    match Py.split_on "." base with
    | [a; b] =>
        if all_chars is_digit a && all_chars is_digit b &&
           negb (a =? "") && negb (b =? "")
        then Some (number 0 a, number 0 b, base) else None
    | _ => None
    end
  else None.

Definition two_digits (n : Z) : string :=
  let s := Py.str (Z.to_nat n) in
  if (n <? 10)%Z then "0" ++ s else s.

Definition four_digits (n : Z) : string :=
  let s := Py.str (Z.to_nat n) in
  if (n <? 10)%Z then "000" ++ s
  else if (n <? 100)%Z then "00" ++ s
  else if (n <? 1000)%Z then "0" ++ s else s.

(** Year, month and day of a day number counted from 1970-01-01. *)
Definition civil (days : Z) : Z * Z * Z :=
  let z := (days + 719468)%Z in
  let era := (z / 146097)%Z in
  let doe := (z - era * 146097)%Z in
  let yoe := ((doe - doe / 1460 + doe / 36524 - doe / 146096) / 365)%Z in
  let doy := (doe - (365 * yoe + yoe / 4 - yoe / 100))%Z in
  let mp := ((5 * doy + 2) / 153)%Z in
  let d := (doy - (153 * mp + 2) / 5 + 1)%Z in
  let m := if (mp <? 10)%Z then (mp + 3)%Z else (mp - 9)%Z in
  let y := (yoe + era * 400 + (if (m <=? 2)%Z then 1 else 0))%Z in
  (y, m, d).

Definition monthname (m : Z) : string :=
  nth (Z.to_nat m)
    [""; "Jan"; "Feb"; "Mar"; "Apr"; "May"; "Jun"; "Jul"; "Aug"; "Sep"; "Oct";
     "Nov"; "Dec"] "".

Definition weekdayname (days : Z) : string :=
  nth (Z.to_nat ((days + 3) mod 7))
    ["Mon"; "Tue"; "Wed"; "Thu"; "Fri"; "Sat"; "Sun"] "".

Definition clock_time (t : Z) : string :=
  let s := (t mod 86400)%Z in
  two_digits (s / 3600) ++ ":" ++ two_digits (s / 60 mod 60) ++ ":" ++
  two_digits (s mod 60).

(** [email.utils.formatdate(t, usegmt=True)] *)
Definition formatdate (t : Z) : string :=
  let days := (t / 86400)%Z in
  let '(y, m, d) := civil days in
  weekdayname days ++ ", " ++ two_digits d ++ " " ++ monthname m ++ " " ++
  four_digits y ++ " " ++ clock_time t ++ " GMT".

(** [log_date_time_string] on a machine whose local time is UTC. *)
Definition log_date (t : Z) : string :=
  let days := (t / 86400)%Z in
  let '(y, m, d) := civil days in
  two_digits d ++ "/" ++ monthname m ++ "/" ++ four_digits y ++ " " ++ clock_time t.

(** [urllib.parse.urlsplit] of a path without scheme and host. *)
Definition urlsplit (url : string) : url_parts :=
  let before_fragment := Py.before "#" url in
  let frag :=
    substring (S (String.length before_fragment))
      (String.length url - S (String.length before_fragment)) url in
  let path_ := Py.before "?" before_fragment in
  let q :=
    substring (S (String.length path_))
      (String.length before_fragment - S (String.length path_)) before_fragment in
  {| scheme := ""; netloc := ""; upath := path_; query := q; fragment := frag |}.

Definition urlunsplit (parts : url_parts) : string :=
  upath parts ++
  (if query parts =? "" then "" else "?" ++ query parts) ++
  (if fragment parts =? "" then "" else "#" ++ fragment parts).

Definition guess_type (path_ : string) : string :=
  let p := Py.lower path_ in
  if Py.endswith p ".html" || Py.endswith p ".htm" then "text/html"
  else if Py.endswith p ".txt" then "text/plain"
  else if Py.endswith p ".js" then "text/javascript"
  else if Py.endswith p ".css" then "text/css"
  else "application/octet-stream".

Fixpoint insert_name (name : string) (sorted : list string) : list string :=
  match sorted with
  | [] => [name]
  | x :: rest =>
      if String.ltb (Py.lower name) (Py.lower x) then name :: sorted
      else x :: insert_name name rest
  end.

Definition sort_names (l : list string) : list string :=
  fold_left (fun acc name => insert_name name acc) l [].

Definition example_library : Library :=
  {| Http.version_number := version_number;
     repr := fun s => "'" ++ s ++ "'";
     escape_control := fun s => s;
     python_version := "3.11.2";
     Http.formatdate := formatdate;
     Http.log_date := log_date;
     Http.unquote := unquote;
     unquote_display := fun p _ => unquote p;
     quote := fun s => s;
     Http.normpath := normpath;
     Http.urlsplit := urlsplit;
     Http.urlunsplit := urlunsplit;
     Http.guess_type := guess_type;
     parsedate_to_datetime := fun _ => None;
     filesystem_encoding := "utf-8";
     encode_page := Py.utf8;
     Http.sort_names := sort_names |}.

Definition index_html : file :=
  {| contents := "<h1>Bezier</h1>"; st_size := 15; st_mtime := 86400 |}.

Definition passwd : file :=
  {| contents := "root:x:0:0"; st_size := 10; st_mtime := 0 |}.

(** The served directory [/srv/www] holds [index.html] and the directory
    [static] with [a.txt]; [/etc/passwd] lies outside. *)
Definition example_os : os :=
  {| isdir := fun p => (p =? "/srv/www") || (p =? "/srv/www/") ||
                       (p =? "/srv/www/static") || (p =? "/srv/www/static/") ||
                       (p =? "/etc");
     isfile := fun p => (p =? "/srv/www/index.html") ||
                        (p =? "/srv/www/static/a.txt") || (p =? "/etc/passwd");
     islink := fun _ => false;
     open_rb := fun p =>
       if p =? "/srv/www/index.html" then Some index_html
       else if p =? "/srv/www/static/a.txt"
       then Some {| contents := "a"; st_size := 1; st_mtime := 0 |}
       else if p =? "/etc/passwd" then Some passwd
       else None;
     listdir := fun p =>
       if (p =? "/srv/www") || (p =? "/srv/www/") then Some ["static"; "index.html"]
       else if (p =? "/srv/www/static") || (p =? "/srv/www/static/") then Some ["a.txt"]
       else None;
     clock := fun n => (1000000000 + Z.of_nat n)%Z |}.

Definition request_of (line : string) : request :=
  {| raw_requestline := line ++ Py.CRLF; following := Parsed [("Host", "localhost:3000")] |}.

(** A machine on which the port is free and [localhost] is the usual
    loopback address. *)
Definition machine_with (incoming : list arrival) : machine :=
  {| argv := ["server.py"]; environ := [];
     getcwd := "/srv/www";
     library := example_library;
     system := example_os;
     gethostbyname := fun host => if host =? "localhost" then "127.0.0.1" else host;
     bind_error := fun _ _ => None;
     traceback := fun e =>
       "Traceback (most recent call last):" ++ Py.LF ++
       match e with
       | AttributeError => "AttributeError"
       | OSError => "OSError: [Errno 98] Address already in use"
       | KeyboardInterrupt => "KeyboardInterrupt"
       end ++ Py.LF;
     arrivals := incoming |}.

(** The same with the port taken by another process. *)
Definition machine_port_taken : machine :=
  {| argv := ["server.py"]; environ := [];
     getcwd := "/srv/www";
     library := example_library;
     system := example_os;
     gethostbyname := gethostbyname (machine_with []);
     bind_error := fun _ port_ => if (port_ =? 3000)%nat then Some OSError else None;
     traceback := traceback (machine_with []);
     arrivals := [Connection "127.0.0.1" [request_of "GET / HTTP/1.1"]] |}.

(** The same with a hosts file that gives [localhost] another loopback
    address. *)
Definition machine_other_loopback : machine :=
  {| argv := ["server.py"]; environ := [];
     getcwd := "/srv/www";
     library := example_library;
     system := example_os;
     gethostbyname := fun host => if host =? "localhost" then "127.0.1.1" else host;
     bind_error := fun _ _ => None;
     traceback := traceback (machine_with []);
     arrivals := [] |}.

(** What the server writes back for one request line. *)
Definition reply_to (line : string) : outcome unit :=
  run SecurityHeaderHandler.end_headers example_os
    (handle_one_request example_library "/srv/www" "127.0.0.1" (request_of line))
    (new_world [] 0).

Definition base_reply_to (line : string) : outcome unit :=
  run SimpleHTTPRequestHandler_end_headers example_os
    (handle_one_request example_library "/srv/www" "127.0.0.1" (request_of line))
    (new_world [] 0).

End Sample.

(** ** Two disciplines of the base classes

    [obeys root p sent Q] says how a program uses the response methods and
    the file system: no header it sends bears one of the two injected names;
    [end_headers] is called only after a status or header line was sent
    ([sent]) with no attribute assigned in between; what it opens or lists
    lies under [root].  [Q] is what holds when the program returns. *)
Fixpoint obeys (root : string) {A : Type} (p : prog A) (sent : bool)
    (Q : A -> bool -> Prop) : Prop :=
  match p with
  | Ret a => Q a sent
  | Get k => forall a, obeys root (k a) sent Q
  | Put _ k => obeys root k false Q
  | Send_response_only _ _ k => obeys root k true Q
  | Send_header kw v k =>
      injected (kw ++ ": " ++ v ++ Py.CRLF) = false /\ obeys root k true Q
  | End_headers k => sent = true /\ obeys root k true Q
  | Wfile_write _ k => obeys root k sent Q
  | Stderr_write _ k => obeys root k sent Q
  | Time k => forall t, obeys root (k t) sent Q
  | Isdir _ k => forall b, obeys root (k b) sent Q
  | Isfile _ k => forall b, obeys root (k b) sent Q
  | Islink _ k => forall b, obeys root (k b) sent Q
  | Open p' k => confined root p' /\ forall f, obeys root (k f) sent Q
  | Listdir p' k => confined root p' /\ forall l, obeys root (k l) sent Q
  end.

(** [alike p1 p2 Q]: the two programs do the same, whatever the clock
    shows them, except for the value of the [Date] header and for what they
    log.  [Q] relates what they return. *)
Fixpoint alike {A : Type} (p1 p2 : prog A) (Q : A -> A -> Prop) : Prop :=
  match p1, p2 with
  | Ret a1, Ret a2 => Q a1 a2
  | Get k1, Get k2 => forall a, alike (k1 a) (k2 a) Q
  | Put a1 k1, Put a2 k2 => a1 = a2 /\ alike k1 k2 Q
  | Send_response_only c1 m1 k1, Send_response_only c2 m2 k2 =>
      c1 = c2 /\ m1 = m2 /\ alike k1 k2 Q
  | Send_header kw1 v1 k1, Send_header kw2 v2 k2 =>
      kw1 = kw2 /\ (v1 = v2 \/ kw1 = "Date") /\ alike k1 k2 Q
  | End_headers k1, End_headers k2 => alike k1 k2 Q
  | Wfile_write d1 k1, Wfile_write d2 k2 => d1 = d2 /\ alike k1 k2 Q
  | Stderr_write _ k1, Stderr_write _ k2 => alike k1 k2 Q
  | Time k1, Time k2 => forall t1 t2, alike (k1 t1) (k2 t2) Q
  | Isdir q1 k1, Isdir q2 k2 => q1 = q2 /\ forall b, alike (k1 b) (k2 b) Q
  | Isfile q1 k1, Isfile q2 k2 => q1 = q2 /\ forall b, alike (k1 b) (k2 b) Q
  | Islink q1 k1, Islink q2 k2 => q1 = q2 /\ forall b, alike (k1 b) (k2 b) Q
  | Open q1 k1, Open q2 k2 => q1 = q2 /\ forall f, alike (k1 f) (k2 f) Q
  | Listdir q1 k1, Listdir q2 k2 => q1 = q2 /\ forall l, alike (k1 l) (k2 l) Q
  | _, _ => False
  end.

(** The same world with the two headers in every header block written. *)
Definition secured (w : world) : world :=
  {| me := me w; wfile := map with_security_headers (wfile w);
     stderr := stderr w; ticks := ticks w; reads := reads w |}.

(** What holds of a world while a program that [obeys] runs under the
    handler of [server.py]: no buffered line bears an injected name, every
    header block written has each of the two headers once, and all that was
    opened or listed lies under [root]. *)
Definition once_each (ls : list string) : Prop :=
  filter (names "Cross-Origin-Embedder-Policy") ls = [coep_line] /\
  filter (names "Cross-Origin-Opener-Policy") ls = [coop_line].

Definition clean (root : string) (w : world) : Prop :=
  Forall (fun l => injected l = false) (buffered (me w)) /\
  (forall ls, In (Header_block ls) (wfile w) -> once_each ls) /\
  Forall (confined root) (reads w).

(** [end_headers] of the base class can run: the buffer exists, or the
    request is in the HTTP/0.9 form. *)
Definition ready (sent : bool) (s : self) : Prop :=
  sent = true ->
  (request_version (attr s) =? "HTTP/0.9") = true \/ _headers_buffer s <> None.

Definition same_self (s1 s2 : self) : Prop :=
  attr s1 = attr s2 /\
  option_map (filter no_date) (_headers_buffer s1) =
  option_map (filter no_date) (_headers_buffer s2).

(** Two worlds that differ in [Date] header lines, in the log and in the
    clock only. *)
Definition same_but_date (w1 w2 : world) : Prop :=
  same_self (me w1) (me w2) /\
  map without_date (wfile w1) = map without_date (wfile w2) /\
  reads w1 = reads w2.

(** What [send_header] does to the attributes of the instance. *)
Definition connection_directive (kw v : string) (a : attrs) : attrs :=
  if Py.lower kw =? "connection" then
    if Py.lower v =? "close" then set_close_connection true a
    else if Py.lower v =? "keep-alive" then set_close_connection false a
    else a
  else a.

(** What a new instance of a handler class does with one request.  [log]
    and [t] are what was logged and how often the clock was read before. *)
Definition serve_one (RequestHandlerClass : method) (L : Library)
    (root client : string) (o : os) (r : request) (log : list string) (t : nat)
    : outcome unit :=
  run RequestHandlerClass o (handle_one_request L root client r) (new_world log t).

(** Every header block of a reply has each of the two headers once. *)
Definition headers_once_each (out : list write) : Prop :=
  forall ls, In (Header_block ls) out -> once_each ls.

(** Every header block of a reply is what the base classes buffered,
    then the two headers, then the blank line. *)
Definition headers_injected_last (out : list write) : Prop :=
  forall ls, In (Header_block ls) out ->
    exists base_lines, ls = app base_lines [coep_line; coop_line; Py.CRLF].

Definition is_connection (a : arrival) : bool :=
  match a with Connection _ _ => true | Interrupt => false end.

(** The machine with other arguments and another environment. *)
Definition with_arguments (m : machine) (args : list string)
    (env : list (string * string)) : machine :=
  {| argv := args; environ := env; getcwd := getcwd m; library := library m;
     system := system m; gethostbyname := gethostbyname m;
     bind_error := bind_error m; traceback := traceback m; arrivals := arrivals m |}.

Definition banner : string :=
  "Serving on http://localhost:3000 (With Secure Headers)".

(** What was written on [wfile] when a run ended. *)
Definition written {A : Type} (r : outcome A) : list write :=
  match r with Returned _ w => wfile w | Raised _ w => wfile w end.


(** ** Notions of the further properties *)

(** The connections the serve loop takes up: those that arrive before the
    first interrupt, in the order they arrive. *)
Fixpoint served (incoming : list arrival) : list (string * list request) :=
  match incoming with
  | Connection client pending :: rest => (client, pending) :: served rest
  | _ => []
  end.

(** What the first [readline] of a connection gives. *)
Definition first_request (pending : list request) : request :=
  match pending with
  | r :: _ => r
  | [] => end_of_input
  end.

(** How far the answer to a request has got. *)
Inductive progress : Type :=
| Nothing_sent
| Headers_ended
| Body_written.

(** [orderly p st Q] says in which order a program finishes the header block
    and writes the body, and what it does to [close_connection]: it calls
    [end_headers] once at most, writes on [wfile] once at most and after
    that call only, and never sets [close_connection] to false, be it by
    assignment or by a [Connection: keep-alive] header.  What is read of the
    attributes has [close_connection] set. *)
Fixpoint orderly {A : Type} (p : prog A) (st : progress)
    (Q : A -> progress -> Prop) : Prop :=
  match p with
  | Ret a => Q a st
  | Get k => forall a, close_connection a = true -> orderly (k a) st Q
  | Put a k => close_connection a = true /\ orderly k st Q
  | Send_response_only _ _ k => orderly k st Q
  | Send_header kw v k =>
      (Py.lower kw =? "connection") && (Py.lower v =? "keep-alive") = false /\
      orderly k st Q
  | End_headers k => st = Nothing_sent /\ orderly k Headers_ended Q
  | Wfile_write _ k => st = Headers_ended /\ orderly k Body_written Q
  | Stderr_write _ k => orderly k st Q
  | Time k => forall t, orderly (k t) st Q
  | Isdir _ k => forall b, orderly (k b) st Q
  | Isfile _ k => forall b, orderly (k b) st Q
  | Islink _ k => forall b, orderly (k b) st Q
  | Open _ k => forall f, orderly (k f) st Q
  | Listdir _ k => forall l, orderly (k l) st Q
  end.

(** A reply is one header block at most, then one write of a body at
    most. *)
Definition framed (out : list write) : bool :=
  match out with
  | [] | [Header_block _] | [Body _] | [Header_block _; Body _] => true
  | _ => false
  end.

(** What was written at each point of the answer. *)
Definition written_so_far (st : progress) (out : list write) : Prop :=
  match st with
  | Nothing_sent => out = []
  | Headers_ended => out = [] \/ exists ls, out = [Header_block ls]
  | Body_written =>
      (exists d, out = [Body d]) \/ exists ls d, out = [Header_block ls; Body d]
  end.

(** A reply without the [Date] header lines. *)
Definition undated (out : list write) : list write := map without_date out.

(** The reply to a connection as a new server gives it, to the first
    request of the connection alone, with nothing logged before and the
    clock not yet read; without the [Date] header lines. *)
Definition reply_alone (m : machine) (c : string * list request) : string * list write :=
  (fst c,
   undated (written (serve_one SecurityHeaderHandler.end_headers (library m) (getcwd m)
                       (fst c) (system m) (first_request (snd c)) [] 0))).

Definition undated_reply (reply : string * list write) : string * list write :=
  (fst reply, undated (snd reply)).

(** A machine on which two connections arrive, then an interrupt, then a
    third connection. *)
Definition three_connections : machine :=
  Sample.machine_with
    [Connection "127.0.0.1" [Sample.request_of "GET /index.html HTTP/1.1";
                             Sample.request_of "GET /static/a.txt HTTP/1.1"];
     Connection "127.0.0.2" [Sample.request_of "GET /missing HTTP/1.1"];
     Interrupt;
     Connection "127.0.0.3" [Sample.request_of "GET / HTTP/1.1"]].

(** The page of an error response, as [send_error] makes it. *)
Definition error_page (code : nat) (message explain : string) : string :=
  Py.utf8 (error_message code (Py.html_escape message) (Py.html_escape explain)).

(** What [parse_request] finds wrong with the version word of a request
    line, if anything: its syntax, or a major version from 2 on. *)
Definition version_error (L : Library) (version : string)
    : option (HTTPStatus * string) :=
  match version_number L version with
  | None => Some (BAD_REQUEST, "Bad request version (" ++ repr L version ++ ")")
  | Some (major, minor, base_version_number) =>
      if tuple_ge (major, minor) (2, 0)%Z
      then Some (HTTP_VERSION_NOT_SUPPORTED,
                 "Invalid HTTP version (" ++ base_version_number ++ ")")
      else None
  end.

(** The library of the examples, reading one date. *)
Definition library_with_dates : Library :=
  {| Http.version_number := Sample.version_number;
     repr := repr Sample.example_library;
     escape_control := escape_control Sample.example_library;
     python_version := python_version Sample.example_library;
     Http.formatdate := Sample.formatdate;
     Http.log_date := Sample.log_date;
     Http.unquote := Sample.unquote;
     unquote_display := unquote_display Sample.example_library;
     quote := quote Sample.example_library;
     Http.normpath := Sample.normpath;
     Http.urlsplit := Sample.urlsplit;
     Http.urlunsplit := Sample.urlunsplit;
     Http.guess_type := Sample.guess_type;
     parsedate_to_datetime := fun s =>
       if s =? "Fri, 02 Jan 1970 00:00:00 GMT"
       then Some {| dt_seconds := 86400; dt_tz := Utc |}
       else None;
     filesystem_encoding := filesystem_encoding Sample.example_library;
     encode_page := encode_page Sample.example_library;
     Http.sort_names := Sample.sort_names |}.

(** A request for [/index.html] that has the copy of 1970-01-02. *)
Definition conditional_request : request :=
  {| raw_requestline := "GET /index.html HTTP/1.1" ++ Py.CRLF;
     following :=
       Parsed [("Host", "localhost:3000");
               ("If-Modified-Since", "Fri, 02 Jan 1970 00:00:00 GMT")] |}.

(** The bytes of every header block of a reply end with the two header
    lines and the blank line. *)
Definition blocks_end_with_security_headers (out : list write) : Prop :=
  forall ls, In (Header_block ls) out ->
    Py.endswith (bytes_of (Header_block ls)) (coep_line ++ coop_line ++ Py.CRLF) = true.

(** * Properties *)

(** ** Strings and paths *)

Lemma eqb_false_of_neq (a b : string) : a <> b -> (a =? b) = false.
Proof. intro H. now apply String.eqb_neq. Qed.

(** ** The two [end_headers] methods *)

Lemma base_end_headers_eq (s : self) :
  SimpleHTTPRequestHandler_end_headers s =
  if request_version (attr s) =? "HTTP/0.9" then inr (s, [])
  else match _headers_buffer s with
       | None => inl AttributeError
       | Some b =>
           inr ({| attr := attr s; _headers_buffer := Some [] |},
                [Header_block (app b [Py.CRLF])])
       end.
Proof.
  unfold SimpleHTTPRequestHandler_end_headers.
  destruct (request_version (attr s) =? "HTTP/0.9"); simpl; [reflexivity|].
  destruct (_headers_buffer s); reflexivity.
Qed.

Lemma send_header_plain (kw v : string) (s : self) :
  (Py.lower kw =? "connection") = false ->
  send_header kw v s =
  if request_version (attr s) =? "HTTP/0.9" then s
  else {| attr := attr s;
          _headers_buffer := Some (app (buffered s) [kw ++ ": " ++ v ++ Py.CRLF]) |}.
Proof.
  intro H. unfold send_header. rewrite H.
  destruct (request_version (attr s) =? "HTTP/0.9"); reflexivity.
Qed.

Lemma security_end_headers_eq (s : self) :
  SecurityHeaderHandler.end_headers s =
  if request_version (attr s) =? "HTTP/0.9" then inr (s, [])
  else inr ({| attr := attr s; _headers_buffer := Some [] |},
            [Header_block (app (buffered s) [coep_line; coop_line; Py.CRLF])]).
Proof.
  unfold SecurityHeaderHandler.end_headers.
  rewrite base_end_headers_eq, !send_header_plain by reflexivity.
  destruct (request_version (attr s) =? "HTTP/0.9") eqn:E.
  - repeat (rewrite E || cbn [attr _headers_buffer buffered]). reflexivity.
  - repeat (rewrite E || cbn [attr _headers_buffer buffered]).
    rewrite <- !app_assoc. reflexivity.
Qed.

(** ** Running programs *)

Lemma run_bind {A B : Type} (eh : method) (o : os) (m : prog A) (f : A -> prog B) :
  forall w,
    run eh o (bind m f) w =
    match run eh o m w with
    | Returned a w' => run eh o (f a) w'
    | Raised e w' => Raised e w'
    end.
Proof.
  induction m; intro w; cbn [bind run]; auto.
  destruct (eh (me w)) as [e|[s ws]]; auto.
Qed.

(** With the handler of [server.py], a program never stops on an exception,
    and it only adds to what was written, read and logged. *)
Lemma security_run_returns {A : Type} (o : os) (p : prog A) :
  forall w, exists a w' out,
    run SecurityHeaderHandler.end_headers o p w = Returned a w' /\
    wfile w' = app (wfile w) out /\
    forall ls, In (Header_block ls) out ->
      exists base_lines, ls = app base_lines [coep_line; coop_line; Py.CRLF].
Proof.
  induction p as [a|k IH|a p IH|c m p IH|kw v p IH|p IH|d p IH|l p IH|k IH
                  |q k IH|q k IH|q k IH|q k IH|q k IH];
    intro w; cbn [run];
    try (match goal with
         | |- context [run _ _ (k ?x) ?w0] =>
             destruct (IH x w0) as (r & w' & out & Hr & Hw & Hb)
         | |- context [run _ _ p ?w0] =>
             destruct (IH w0) as (r & w' & out & Hr & Hw & Hb)
         end;
         exists r, w', out; cbn [wfile] in Hw; auto; fail).
  - exists a, w, []. rewrite app_nil_r. repeat split; auto. intros ls [].
  - rewrite security_end_headers_eq.
    destruct (request_version (attr (me w)) =? "HTTP/0.9");
      match goal with |- context [run _ _ p ?w0] =>
        destruct (IH w0) as (r & w' & out & Hr & Hw & Hb) end;
      cbn [wfile] in Hw.
    + exists r, w', out. rewrite app_nil_r in Hw. auto.
    + rewrite <- app_assoc in Hw.
      eexists r, w', _. repeat split; eauto.
      intros ls [Hin|Hin]; [injection Hin as <-; eauto | auto].
  - match goal with |- context [run _ _ p ?w0] =>
      destruct (IH w0) as (r & w' & out & Hr & Hw & Hb) end.
    cbn [wfile] in Hw. rewrite <- app_assoc in Hw.
    eexists r, w', _. repeat split; eauto.
    intros ls [Hin|Hin]; [discriminate|auto].
Qed.

(** The handler of [server.py] does what the base handler does, with the two
    headers in every header block. *)
Lemma run_secured {A : Type} (o : os) (p : prog A) :
  forall w a w',
    run SimpleHTTPRequestHandler_end_headers o p w = Returned a w' ->
    run SecurityHeaderHandler.end_headers o p (secured w) = Returned a (secured w').
Proof.
  induction p; intros w r w'; cbn [run]; intro Hrun;
    try (apply IHp in Hrun; exact Hrun); try (apply H in Hrun; exact Hrun).
  - injection Hrun as <- <-. reflexivity.
  - rewrite security_end_headers_eq. rewrite base_end_headers_eq in Hrun.
    cbn [secured me].
    destruct (request_version (attr (me w)) =? "HTTP/0.9").
    + apply IHp in Hrun. unfold secured in Hrun at 1. cbn in Hrun.
      rewrite map_app in Hrun. exact Hrun.
    + unfold buffered. destruct (_headers_buffer (me w)) as [b|]; [|discriminate].
      apply IHp in Hrun. unfold secured in Hrun at 1. cbn in Hrun.
      rewrite map_app in Hrun. cbn in Hrun.
      rewrite removelast_last, last_last in Hrun. exact Hrun.
  - apply IHp in Hrun. unfold secured in Hrun at 1. cbn in Hrun.
    rewrite map_app in Hrun. exact Hrun.
Qed.

(** ** The response methods on the instance *)

Lemma status_line_not_injected (c : HTTPStatus) (m : string) :
  injected (protocol_version ++ " " ++ Py.str (value c) ++ " " ++ m ++ Py.CRLF) = false.
Proof. reflexivity. Qed.

Lemma send_response_only_eq (c : HTTPStatus) (m : option string) (s : self) :
  exists line,
    injected line = false /\ names "Date" line = false /\
    send_response_only c m s =
    if request_version (attr s) =? "HTTP/0.9" then s
    else {| attr := attr s; _headers_buffer := Some (app (buffered s) [line]) |}.
Proof.
  unfold send_response_only.
  eexists. split; [|split]; cycle 2.
  - destruct (request_version (attr s) =? "HTTP/0.9"); cbn [negb]; reflexivity.
  - reflexivity.
  - reflexivity.
Qed.

Lemma send_header_eq (kw v : string) (s : self) :
  send_header kw v s =
  {| attr := connection_directive kw v (attr s);
     _headers_buffer :=
       if request_version (attr s) =? "HTTP/0.9" then _headers_buffer s
       else Some (app (buffered s) [kw ++ ": " ++ v ++ Py.CRLF]) |}.
Proof.
  unfold send_header, connection_directive. destruct s as [a b].
  cbn [attr _headers_buffer].
  destruct (Py.lower kw =? "connection");
    [destruct (Py.lower v =? "close"); [|destruct (Py.lower v =? "keep-alive")]|];
    destruct (request_version a =? "HTTP/0.9"); reflexivity.
Qed.

Lemma connection_directive_version (kw v : string) (a : attrs) :
  request_version (connection_directive kw v a) = request_version a.
Proof.
  unfold connection_directive.
  destruct (Py.lower kw =? "connection");
    [destruct (Py.lower v =? "close"); [|destruct (Py.lower v =? "keep-alive")]|];
    reflexivity.
Qed.

Lemma connection_directive_command (kw v : string) (a : attrs) :
  command (connection_directive kw v a) = command a.
Proof.
  unfold connection_directive.
  destruct (Py.lower kw =? "connection");
    [destruct (Py.lower v =? "close"); [|destruct (Py.lower v =? "keep-alive")]|];
    reflexivity.
Qed.

Lemma Forall_snoc {T : Type} (P : T -> Prop) (l : list T) (x : T) :
  Forall P l -> P x -> Forall P (app l [x]).
Proof. intros Hl Hx. apply Forall_app. auto. Qed.

Lemma filter_none {T : Type} (f : T -> bool) (l : list T) :
  Forall (fun x => f x = false) l -> filter f l = [].
Proof.
  induction 1 as [|x l Hx _ IH]; cbn; [reflexivity|]. now rewrite Hx.
Qed.

Lemma injected_false (l : string) :
  injected l = false ->
  names "Cross-Origin-Embedder-Policy" l = false /\
  names "Cross-Origin-Opener-Policy" l = false.
Proof. unfold injected. intro H. now apply orb_false_iff in H. Qed.

Lemma once_each_finished (b : list string) :
  Forall (fun l => injected l = false) b ->
  once_each (app b [coep_line; coop_line; Py.CRLF]).
Proof.
  intro H. unfold once_each. rewrite !filter_app. split.
  - rewrite filter_none; [reflexivity|].
    eapply Forall_impl; [|exact H]. intros l Hl. now apply injected_false in Hl.
  - rewrite filter_none; [reflexivity|].
    eapply Forall_impl; [|exact H]. intros l Hl. now apply injected_false in Hl.
Qed.

(** ** What a program that [obeys] does *)

Lemma obeys_weaken (root : string) {A : Type} (p : prog A) :
  forall sent (Q Q' : A -> bool -> Prop),
    (forall a s, Q a s -> Q' a s) ->
    obeys root p sent Q -> obeys root p sent Q'.
Proof.
  induction p; intros sent Q Q' HQ; cbn [obeys]; eauto;
    try (intros [H1 H2]; split; eauto).
Qed.

Lemma obeys_bind (root : string) {A B : Type} (m : prog A) (f : A -> prog B) :
  forall sent (Q : B -> bool -> Prop),
    obeys root m sent (fun a s => obeys root (f a) s Q) ->
    obeys root (bind m f) sent Q.
Proof.
  induction m; intros sent Q; cbn [obeys bind]; eauto;
    try (intros [H1 H2]; split; eauto).
Qed.

Lemma obeys_security (root : string) (o : os) {A : Type} (p : prog A) :
  forall sent (Q : A -> bool -> Prop) w,
    obeys root p sent Q -> clean root w ->
    exists a w' sent',
      run SecurityHeaderHandler.end_headers o p w = Returned a w' /\
      Q a sent' /\ clean root w'.
Proof.
  induction p as [a|k IH|a p IH|c m p IH|kw v p IH|p IH|d p IH|l p IH|k IH
                  |q k IH|q k IH|q k IH|q k IH|q k IH];
    intros sent Q w Hp (Hb & Hw & Hr); cbn [run]; cbn [obeys] in Hp;
    try (eapply IH; eauto; split; [|split]; auto; fail).
  - exists a, w, sent. split; [|split; [|split; [|split]]]; auto.
  - eapply IH; eauto. split; [|split]; auto. cbn [me].
    destruct (send_response_only_eq c m (me w)) as (line & Hl & _ & ->).
    destruct (request_version (attr (me w)) =? "HTTP/0.9"); auto.
    unfold buffered at 1. cbn [_headers_buffer]. now apply Forall_snoc.
  - destruct Hp as [Hn Hp]. eapply IH; eauto. split; [|split]; auto. cbn [me].
    rewrite send_header_eq. unfold buffered at 1. cbn [_headers_buffer].
    destruct (request_version (attr (me w)) =? "HTTP/0.9"); auto.
    now apply Forall_snoc.
  - destruct Hp as [_ Hp]. rewrite security_end_headers_eq.
    destruct (request_version (attr (me w)) =? "HTTP/0.9").
    + eapply IH; eauto. split; [|split]; auto. cbn [wfile]. now rewrite app_nil_r.
    + eapply IH; eauto. split; [|split]; cbn [me wfile reads]; auto.
      intros ls Hin. apply in_app_or in Hin. destruct Hin as [Hin|[Hin|[]]]; auto.
      injection Hin as <-. now apply once_each_finished.
  - eapply IH; eauto. split; [|split]; cbn [me wfile reads]; auto.
    intros ls Hin. apply in_app_or in Hin. destruct Hin as [Hin|[Hin|[]]]; auto.
    discriminate.
  - destruct Hp as [Hc Hp]. eapply IH; eauto. split; [|split]; cbn [me wfile reads]; auto.
    now apply Forall_snoc.
  - destruct Hp as [Hc Hp]. eapply IH; eauto. split; [|split]; cbn [me wfile reads]; auto.
    now apply Forall_snoc.
Qed.

Lemma obeys_base_returns (root : string) (o : os) {A : Type} (p : prog A) :
  forall sent (Q : A -> bool -> Prop) w,
    obeys root p sent Q -> ready sent (me w) ->
    exists a w' sent',
      run SimpleHTTPRequestHandler_end_headers o p w = Returned a w' /\
      Q a sent' /\ ready sent' (me w').
Proof.
  induction p as [a|k IH|a p IH|c m p IH|kw v p IH|p IH|d p IH|l p IH|k IH
                  |q k IH|q k IH|q k IH|q k IH|q k IH];
    intros sent Q w Hp Hr; cbn [run]; cbn [obeys] in Hp;
    try (eapply IH; eauto; fail).
  - exists a, w, sent. auto.
  - eapply IH; eauto. intro; discriminate.
  - eapply IH; eauto. intros _. cbn [me].
    destruct (send_response_only_eq c m (me w)) as (line & _ & _ & ->).
    destruct (request_version (attr (me w)) =? "HTTP/0.9") eqn:E; auto.
    right. discriminate.
  - destruct Hp as [_ Hp]. eapply IH; eauto. intros _. cbn [me].
    rewrite send_header_eq. cbn [attr _headers_buffer].
    rewrite connection_directive_version.
    destruct (request_version (attr (me w)) =? "HTTP/0.9") eqn:E; auto.
    right. discriminate.
  - destruct Hp as [-> Hp]. rewrite base_end_headers_eq.
    destruct (Hr eq_refl) as [E|E].
    + rewrite E. eapply IH; eauto; intros _; cbn [me]; auto.
    + destruct (request_version (attr (me w)) =? "HTTP/0.9") eqn:E'.
      * eapply IH; eauto; intros _; cbn [me]; auto.
      * destruct (_headers_buffer (me w)); [|congruence].
        eapply IH; eauto; intros _; cbn [me _headers_buffer]; right; discriminate.
  - destruct Hp as [_ Hp]. eapply IH; eauto.
  - destruct Hp as [_ Hp]. eapply IH; eauto.
Qed.

(** ** Programs that are [alike] *)

Lemma alike_weaken {A : Type} (p1 : prog A) :
  forall p2 (Q Q' : A -> A -> Prop),
    (forall a1 a2, Q a1 a2 -> Q' a1 a2) ->
    alike p1 p2 Q -> alike p1 p2 Q'.
Proof.
  induction p1; intros p2 Q Q' HQ; destruct p2; cbn [alike]; try tauto; eauto;
    intuition eauto.
Qed.

Lemma alike_bind {A B : Type} (m1 : prog A) :
  forall m2 (f1 f2 : A -> prog B) (Q : B -> B -> Prop),
    alike m1 m2 (fun a1 a2 => alike (f1 a1) (f2 a2) Q) ->
    alike (bind m1 f1) (bind m2 f2) Q.
Proof.
  induction m1; intros m2 f1 f2 Q; destruct m2; cbn [alike bind]; try tauto; eauto;
    intuition eauto.
Qed.

Lemma date_line_dropped (v : string) : no_date ("Date" ++ ": " ++ v ++ Py.CRLF) = false.
Proof. reflexivity. Qed.

Lemma same_buffered (s1 s2 : self) :
  same_self s1 s2 -> filter no_date (buffered s1) = filter no_date (buffered s2).
Proof.
  intros [_ H]. unfold buffered.
  destruct (_headers_buffer s1), (_headers_buffer s2); cbn in H; congruence.
Qed.

Lemma same_self_send_header (kw v1 v2 : string) (s1 s2 : self) :
  same_self s1 s2 -> v1 = v2 \/ kw = "Date" ->
  same_self (send_header kw v1 s1) (send_header kw v2 s2).
Proof.
  intros Hs Hv. pose proof (same_buffered _ _ Hs) as Hb. destruct Hs as [Ha Ho].
  rewrite !send_header_eq. unfold same_self. cbn [attr _headers_buffer].
  rewrite Ha. split.
  - destruct Hv as [->| ->]; reflexivity.
  - destruct (request_version (attr s2) =? "HTTP/0.9"); [exact Ho|].
    cbn [option_map]. rewrite !filter_app, Hb. f_equal. f_equal.
    destruct Hv as [->| ->]; [reflexivity|].
    cbn [filter]. now rewrite !date_line_dropped.
Qed.

Lemma same_self_send_response_only (c : HTTPStatus) (m : option string) (s1 s2 : self) :
  same_self s1 s2 ->
  same_self (send_response_only c m s1) (send_response_only c m s2).
Proof.
  intros Hs. pose proof (same_buffered _ _ Hs) as Hb. destruct Hs as [Ha Ho].
  unfold send_response_only. rewrite Ha.
  destruct (request_version (attr s2) =? "HTTP/0.9"); cbn [negb].
  - split; assumption.
  - split; cbn [attr _headers_buffer option_map]; [reflexivity|].
    now rewrite !filter_app, Hb.
Qed.

Lemma alike_runs (o : os) (c1 c2 : nat -> Z) {A : Type} (p1 : prog A) :
  forall p2 (Q : A -> A -> Prop) w1 w2,
    alike p1 p2 Q -> same_but_date w1 w2 ->
    exists a1 a2 w1' w2',
      run SecurityHeaderHandler.end_headers (at_times o c1) p1 w1 = Returned a1 w1' /\
      run SecurityHeaderHandler.end_headers (at_times o c2) p2 w2 = Returned a2 w2' /\
      Q a1 a2 /\ same_but_date w1' w2'.
Proof.
  induction p1 as [a|k IH|a p IH|c m p IH|kw v p IH|p IH|d p IH|l p IH|k IH
                   |q k IH|q k IH|q k IH|q k IH|q k IH];
    intros p2 Q w1 w2 Hp Hw; destruct p2; cbn [alike] in Hp; try contradiction;
    cbn [run at_times isdir isfile islink open_rb listdir clock];
    pose proof Hw as ((Ha & Hb) & Hf & Hr).
  - exists a, a0, w1, w2. auto.
  - rewrite Ha. eapply IH; eauto.
  - destruct Hp as [<- Hp]. eapply IH; eauto.
    split; [split|split]; cbn [me wfile reads attr _headers_buffer]; auto.
  - destruct Hp as (<- & <- & Hp). eapply IH; eauto.
    split; [|split]; cbn [me wfile reads]; auto.
    apply same_self_send_response_only. split; auto.
  - destruct Hp as (<- & Hv & Hp). eapply IH; eauto.
    split; [|split]; cbn [me wfile reads]; auto.
    apply same_self_send_header; [split; auto|auto].
  - rewrite !security_end_headers_eq, Ha.
    destruct (request_version (attr (me w2)) =? "HTTP/0.9").
    + eapply IH; eauto. split; [|split]; cbn [me wfile reads]; auto.
      * split; auto.
      * now rewrite !app_nil_r.
    + eapply IH; eauto. split; [|split]; cbn [me wfile reads]; auto.
      * split; cbn [attr _headers_buffer]; auto.
      * rewrite !map_app, Hf. cbn [map without_date]. rewrite !filter_app.
        now rewrite (same_buffered (me w1) (me w2)) by (split; auto).
  - destruct Hp as [<- Hp]. eapply IH; eauto.
    split; [|split]; cbn [me wfile reads]; auto.
    + split; auto.
    + now rewrite !map_app, Hf.
  - eapply IH; eauto.
  - eapply IH; eauto.
  - destruct Hp as [<- Hp]. eapply IH; eauto.
  - destruct Hp as [<- Hp]. eapply IH; eauto.
  - destruct Hp as [<- Hp]. eapply IH; eauto.
  - destruct Hp as [<- Hp]. eapply IH; eauto;
      split; [|split]; cbn [me wfile reads]; auto; try (split; auto); now rewrite Hr.
  - destruct Hp as [<- Hp]. eapply IH; eauto;
      split; [|split]; cbn [me wfile reads]; auto; try (split; auto); now rewrite Hr.
Qed.

(** ** Paths under the served directory *)

Lemma split_on_nonempty (c : ascii) (s : string) : Py.split_on c s <> [].
Proof.
  destruct s as [|x s]; cbn [Py.split_on]; [discriminate|].
  destruct (Ascii.eqb x c); [discriminate|].
  destruct (Py.split_on c s); discriminate.
Qed.

Lemma split_on_app (c : ascii) (a b : string) :
  Py.split_on c (a ++ String c b) = app (Py.split_on c a) (Py.split_on c b).
Proof.
  induction a as [|x a IH]; cbn [String.append Py.split_on].
  - now rewrite Ascii.eqb_refl.
  - destruct (Ascii.eqb x c); [now rewrite IH|].
    rewrite IH. pose proof (split_on_nonempty c a) as Hne.
    destruct (Py.split_on c a); [congruence|reflexivity].
Qed.

(** A component of a split string holds no separator. *)
Lemma split_on_component (c : ascii) (s : string) :
  forall w, In w (Py.split_on c s) -> Py.split_on c w = [w].
Proof.
  induction s as [|x s IH]; cbn [Py.split_on]; intros w Hw.
  - destruct Hw as [<-|[]]. reflexivity.
  - destruct (Ascii.eqb x c) eqn:E.
    + destruct Hw as [<-|Hw]; [reflexivity|auto].
    + destruct (Py.split_on c s) as [|w0 ws] eqn:Es.
      * destruct Hw as [<-|[]]. cbn [Py.split_on]. now rewrite E.
      * destruct Hw as [<-|Hw].
        -- cbn [Py.split_on]. rewrite E. rewrite (IH w0); [reflexivity|now left].
        -- apply IH. now right.
Qed.

Lemma no_separator_first (c : ascii) (w : string) :
  Py.split_on c w = [w] -> w <> "" -> Py.startswith w (String c "") = false.
Proof.
  destruct w as [|x w]; [congruence|]. intros H _.
  unfold Py.startswith. cbn [String.prefix]. cbn [Py.split_on] in H.
  destruct (Ascii.eqb x c) eqn:E.
  - injection H as H _. discriminate.
  - destruct (Ascii.ascii_dec c x) as [->|Hne]; [|reflexivity].
    now rewrite Ascii.eqb_refl in E.
Qed.

Lemma endswith_app (a b : string) : Py.endswith (a ++ b) b = true.
Proof.
  induction a as [|x a IH]; cbn [String.append].
  - destruct b; cbn [Py.endswith]; now rewrite String.eqb_refl.
  - cbn [Py.endswith]. rewrite IH. apply orb_true_r.
Qed.

Lemma endswith_split (s b : string) :
  Py.endswith s b = true -> exists a, s = a ++ b.
Proof.
  induction s as [|x s IH]; cbn [Py.endswith]; intro H.
  - rewrite orb_false_r in H. apply String.eqb_eq in H. now exists "".
  - apply orb_true_iff in H. destruct H as [H|H].
    + apply String.eqb_eq in H. now exists "".
    + destruct (IH H) as [a ->]. now exists (String x a).
Qed.

Lemma append_assoc (a b c : string) : (a ++ b) ++ c = a ++ (b ++ c).
Proof. induction a as [|x a IH]; cbn; [reflexivity|now rewrite IH]. Qed.

Lemma append_nil_r (a : string) : a ++ "" = a.
Proof. induction a as [|x a IH]; cbn; [reflexivity|now rewrite IH]. Qed.

Lemma append_eq_nil (a b : string) : a ++ b = "" -> a = "" /\ b = "".
Proof. destruct a; cbn; [auto|discriminate]. Qed.

Lemma startswith_app (a b p : string) :
  Py.startswith a p = true -> Py.startswith (a ++ b) p = true.
Proof.
  unfold Py.startswith. revert a. induction p as [|x p IH]; intros a H.
  - destruct (a ++ b); reflexivity.
  - destruct a as [|y a]; [discriminate|]. cbn [String.append String.prefix] in *.
    destruct (Ascii.ascii_dec x y); [auto|discriminate].
Qed.

Lemma startswith_first (c : ascii) (w : string) :
  Py.startswith (String c w) (String c "") = true.
Proof.
  unfold Py.startswith. cbn [String.prefix].
  destruct (Ascii.ascii_dec c c); [|congruence]. destruct w; reflexivity.
Qed.

(** The part after the root ends with a slash when the whole path does. *)
Lemma endswith_rest (root rest : string) :
  rest <> "" -> Py.endswith (root ++ rest) "/" = true -> Py.endswith rest "/" = true.
Proof.
  intros Hne. induction root as [|x root IH]; cbn [String.append]; [auto|].
  cbn [Py.endswith]. intro H. apply orb_true_iff in H. destruct H as [H|H]; [|auto].
  apply String.eqb_eq in H. injection H as _ H.
  apply append_eq_nil in H. tauto.
Qed.

Lemma confined_root (root : string) : confined root root.
Proof.
  exists "". rewrite append_nil_r. repeat split; auto.
  cbn. intros [H|[]]. discriminate.
Qed.

Lemma confined_slash (root p : string) : confined root p -> confined root (p ++ "/").
Proof.
  intros (rest & -> & Hb & Hn). exists (rest ++ "/"). split; [apply append_assoc|]. split.
  - destruct Hb as [->|[H|[H|H]]]; [right; right; right; apply startswith_first|auto|auto|].
    right. right. right. now apply startswith_app.
  - rewrite split_on_app. intro H. apply in_app_or in H.
    destruct H as [H|[H|[]]]; [auto|discriminate].
Qed.

Lemma confined_join (root p w : string) :
  confined root p -> Py.split_on "/" w = [w] -> w <> "" -> w <> ".." ->
  confined root (Py.path_join p w).
Proof.
  intros (rest & -> & Hb & Hn) Hw Hne Hdd. unfold Py.path_join.
  rewrite (no_separator_first "/" w Hw Hne).
  destruct ((root ++ rest =? "") || Py.endswith (root ++ rest) "/") eqn:E.
  - exists (rest ++ w). split; [apply append_assoc|].
    destruct (String.eqb_spec rest "") as [->|Hrest].
    + cbn [String.append]. rewrite append_nil_r in E. split.
      * apply orb_true_iff in E. destruct E as [E|E]; auto.
        apply String.eqb_eq in E. auto.
      * rewrite Hw. intros [H|[]]. congruence.
    + assert (Hend : Py.endswith rest "/" = true).
      { apply orb_true_iff in E. destruct E as [E|E].
        - apply String.eqb_eq in E. apply append_eq_nil in E. tauto.
        - now apply endswith_rest in E. }
      apply endswith_split in Hend. destruct Hend as [r ->]. split.
      * destruct Hb as [Hb|[Hb|[Hb|Hb]]]; [congruence|auto|auto|].
        right. right. right. now apply startswith_app.
      * rewrite append_assoc. cbn [String.append]. rewrite split_on_app, Hw.
        rewrite split_on_app in Hn. intro H. apply in_app_or in H.
        destruct H as [H|[H|[]]]; [|congruence].
        apply Hn. apply in_or_app. now left.
  - exists (rest ++ "/" ++ w). split; [apply append_assoc|]. split.
    + destruct Hb as [->|[Hb|[Hb|Hb]]]; [right; right; right; apply startswith_first|auto|auto|].
      right. right. right. now apply startswith_app.
    + cbn [String.append]. rewrite split_on_app, Hw. intro H. apply in_app_or in H.
      destruct H as [H|[H|[]]]; [auto|congruence].
Qed.

Lemma translate_path_confined (L : Library) (root path_ : string) :
  confined root (translate_path L root path_).
Proof.
  unfold translate_path.
  set (words := filter _ _).
  assert (Hwords : Forall (fun w => Py.split_on "/" w = [w] /\ w <> "") words).
  { apply Forall_forall. intros w Hw. apply filter_In in Hw. destruct Hw as [Hw Hne].
    split; [eapply split_on_component; eauto|].
    intros ->. discriminate. }
  assert (Hfold : forall start, confined root start ->
            confined root
              (fold_left
                 (fun p word =>
                    if negb (Py.dirname word =? "") || (word =? ".") || (word =? "..")
                    then p else Py.path_join p word) words start)).
  { induction Hwords as [|w ws [Hw Hne] _ IH]; intros start Hs; cbn [fold_left]; auto.
    apply IH.
    destruct (negb (Py.dirname w =? "") || (w =? ".") || (w =? "..")) eqn:E; auto.
    apply confined_join; auto. intros ->.
    rewrite orb_true_r in E. discriminate. }
  destruct (Py.endswith _ "/"); [apply confined_slash|]; apply Hfold, confined_root.
Qed.

(** ** The request handling of the base classes [obeys] *)

Section Obeys.

Variable L : Library.
Variable root : string.
Variable client : string.

Ltac unfold_small :=
  cbn [obeys bind modify ret get self_end_headers wfile_write time].

Lemma obeys_log_message (msg : string) (sent : bool) (Q : unit -> bool -> Prop) :
  Q tt sent -> obeys root (log_message L client msg) sent Q.
Proof. intro H. unfold log_message. unfold_small. auto. Qed.

Lemma obeys_send_response (c : HTTPStatus) (m : option string) (sent : bool)
    (Q : unit -> bool -> Prop) :
  Q tt true -> obeys root (send_response L client c m) sent Q.
Proof.
  intro H. unfold send_response, log_request, date_time_string.
  unfold_small. intros a. apply obeys_bind, obeys_log_message.
  unfold_small. split; [reflexivity|]. intros t. split; [reflexivity|exact H].
Qed.

Lemma obeys_send_error (c : HTTPStatus) (m e : option string) (sent : bool)
    (Q : unit -> bool -> Prop) :
  Q tt true -> obeys root (send_error L client c m e) sent Q.
Proof.
  intro H. unfold send_error, log_error.
  destruct (responses c) as [shortmsg longmsg].
  apply obeys_bind, obeys_log_message.
  apply obeys_bind, obeys_send_response.
  unfold_small. split; [reflexivity|].
  match goal with |- context [match ?b with Some _ => _ | None => _ end] =>
    destruct b as [body|] end; unfold_small.
  - split; [reflexivity|]. split; [reflexivity|]. split; [reflexivity|].
    intros a. destruct (_ && _); unfold_small; exact H.
  - split; [reflexivity|]. intros a. exact H.
Qed.

Lemma obeys_handle_expect_100 (sent : bool) (Q : bool -> bool -> Prop) :
  Q true true -> obeys root handle_expect_100 sent Q.
Proof. intro H. unfold handle_expect_100. unfold_small. auto. Qed.

Lemma obeys_parse_version (words : list string) (k : prog bool) (sent : bool)
    (Q : bool -> bool -> Prop) :
  (forall s, obeys root k s Q) -> (forall s, Q false s) ->
  obeys root (parse_version L client words k) sent Q.
Proof.
  intros Hk HQ. unfold parse_version.
  destruct (3 <=? length words)%nat; [|apply Hk].
  destruct (version_number L (last words "")) as [[[major minor] base]|].
  - apply obeys_bind.
    apply obeys_weaken with (Q := fun _ _ => True).
    + intros _ s _. destruct (tuple_ge (major, minor) (2, 0)%Z).
      * apply obeys_bind, obeys_send_error. unfold_small. apply HQ.
      * unfold_small. intros a. apply Hk.
    + destruct (_ && _); unfold_small; auto.
  - apply obeys_bind, obeys_send_error. unfold_small. apply HQ.
Qed.

Lemma obeys_parse_headers_and_directives (r : request) (sent : bool)
    (Q : bool -> bool -> Prop) :
  (forall b s, Q b s) -> obeys root (parse_headers_and_directives L client r) sent Q.
Proof.
  intros HQ. unfold parse_headers_and_directives.
  destruct (following r) as [hs| |].
  - unfold_small. intros a.
    apply obeys_bind. apply obeys_weaken with (Q := fun _ _ => True).
    + intros _ s _. unfold_small. intros a'.
      destruct (_ && _); unfold_small; [|apply HQ].
      apply obeys_bind, obeys_handle_expect_100. unfold_small. apply HQ.
    + destruct (Py.lower _ =? "close"); [|destruct (_ && _)]; unfold_small; auto.
  - apply obeys_bind, obeys_send_error. unfold_small. apply HQ.
  - apply obeys_bind, obeys_send_error. unfold_small. apply HQ.
Qed.

Lemma obeys_parse_request (r : request) (sent : bool) (Q : bool -> bool -> Prop) :
  (forall b s, Q b s) -> obeys root (parse_request L client r) sent Q.
Proof.
  intros HQ. unfold parse_request. unfold_small. intros _ _ _ _.
  destruct (length _ =? 0)%nat; [apply HQ|].
  apply obeys_parse_version; [|apply HQ]. intros s.
  destruct (negb _).
  - apply obeys_bind, obeys_send_error. unfold_small. apply HQ.
  - apply obeys_bind. apply obeys_weaken with (Q := fun _ _ => True).
    + intros _ s' _. destruct (_ && _).
      * apply obeys_bind, obeys_send_error. unfold_small. apply HQ.
      * unfold_small. intros _ _.
        apply obeys_bind. apply obeys_weaken with (Q := fun _ _ => True).
        -- intros _ s'' _. now apply obeys_parse_headers_and_directives.
        -- destruct (Py.startswith _ _); unfold_small; auto.
    + destruct (length _ =? 2)%nat; unfold_small; auto.
Qed.

Lemma obeys_listing_items (path_ : string) (names_ : list string) :
  forall (sent : bool) (Q : list string -> bool -> Prop),
    (forall items s, Q items s) -> obeys root (listing_items L path_ names_) sent Q.
Proof.
  induction names_ as [|name rest IH]; intros sent Q HQ; cbn [listing_items].
  - apply HQ.
  - unfold_small. intros d l. apply obeys_bind, IH. intros items s. apply HQ.
Qed.

Lemma obeys_list_directory (path_ : string) (sent : bool)
    (Q : option string -> bool -> Prop) :
  confined root path_ -> (forall f s, Q f s) ->
  obeys root (list_directory L client path_) sent Q.
Proof.
  intros Hc HQ. unfold list_directory. unfold_small. split; [exact Hc|].
  intros [names_|].
  - unfold_small. intros a. apply obeys_bind, obeys_listing_items. intros items s.
    apply obeys_bind, obeys_send_response. unfold_small.
    split; [reflexivity|]. split; [reflexivity|]. split; [reflexivity|]. apply HQ.
  - apply obeys_bind, obeys_send_error. apply HQ.
Qed.

Lemma obeys_send_file (path_ : string) (sent : bool)
    (Q : option string -> bool -> Prop) :
  confined root path_ -> (forall f s, Q f s) ->
  obeys root (send_file L client path_) sent Q.
Proof.
  intros Hc HQ. unfold send_file.
  destruct (Py.endswith path_ "/").
  - apply obeys_bind, obeys_send_error. apply HQ.
  - unfold_small. split; [exact Hc|]. intros [f|].
    + unfold_small. intros a. destruct (not_modified L (headers a) f).
      * apply obeys_bind, obeys_send_response. unfold_small. split; [reflexivity|apply HQ].
      * apply obeys_bind, obeys_send_response. unfold_small.
        split; [reflexivity|]. split; [reflexivity|]. split; [reflexivity|].
        split; [reflexivity|]. apply HQ.
    + apply obeys_bind, obeys_send_error. apply HQ.
Qed.

Lemma obeys_send_head (sent : bool) (Q : option string -> bool -> Prop) :
  (forall f s, Q f s) -> obeys root (send_head L root client) sent Q.
Proof.
  intros HQ. unfold send_head. unfold_small. intros a.
  pose proof (translate_path_confined L root (path a)) as Hc.
  intros [|]; [|now apply obeys_send_file].
  destruct (negb _).
  - apply obeys_bind, obeys_send_response. unfold_small.
    split; [reflexivity|]. split; [reflexivity|]. split; [reflexivity|]. apply HQ.
  - unfold_small. intros [|].
    + apply obeys_send_file; [|exact HQ]. apply confined_join; auto; discriminate.
    + intros [|].
      * apply obeys_send_file; [|exact HQ]. apply confined_join; auto; discriminate.
      * now apply obeys_list_directory.
Qed.

Lemma obeys_handle_one_request (r : request) (sent : bool) (Q : unit -> bool -> Prop) :
  (forall s, Q tt s) -> obeys root (handle_one_request L root client r) sent Q.
Proof.
  intros HQ. unfold handle_one_request.
  destruct (_ <? _)%N.
  - unfold_small. intros _ _ _. now apply obeys_send_error.
  - destruct (raw_requestline r =? ""); [unfold_small; auto|].
    apply obeys_bind, obeys_parse_request. intros ok s.
    destruct (negb ok); [apply HQ|]. unfold_small. intros a.
    destruct (command a) as [c|]; [|apply HQ].
    destruct (c =? "GET"); [|destruct (c =? "HEAD")].
    + unfold do_GET. apply obeys_bind, obeys_send_head. intros [data|] s'; [|apply HQ].
      unfold copyfile. destruct (data =? ""); unfold_small; apply HQ.
    + unfold do_HEAD. apply obeys_bind, obeys_send_head. intros f s'. apply HQ.
    + now apply obeys_send_error.
Qed.

Lemma obeys_handle_more (pending : list request) :
  forall (sent : bool) (Q : unit -> bool -> Prop),
    (forall s, Q tt s) -> obeys root (handle_more L root client pending) sent Q.
Proof.
  induction pending as [|r rest IH]; intros sent Q HQ; cbn [handle_more];
    unfold_small; intros a; destruct (close_connection a); try apply HQ.
  - now apply obeys_handle_one_request.
  - apply obeys_bind, obeys_handle_one_request. intros s. now apply IH.
Qed.

Lemma obeys_handle (pending : list request) (sent : bool) (Q : unit -> bool -> Prop) :
  (forall s, Q tt s) -> obeys root (handle L root client pending) sent Q.
Proof.
  intros HQ. unfold handle. unfold_small. intros _.
  destruct pending as [|r rest].
  - now apply obeys_handle_one_request.
  - apply obeys_bind, obeys_handle_one_request. intros s. now apply obeys_handle_more.
Qed.

End Obeys.

(** ** The request handling of the base classes is [alike] at any two times *)

Section Alike.

Variable L : Library.
Variable root : string.
Variables client1 client2 : string.

Ltac unfold_small :=
  cbn [alike bind modify ret get self_end_headers wfile_write time].

Lemma alike_log_message (msg1 msg2 : string) (Q : unit -> unit -> Prop) :
  Q tt tt -> alike (log_message L client1 msg1) (log_message L client2 msg2) Q.
Proof. intro H. unfold log_message. unfold_small. auto. Qed.

Lemma alike_send_response (c : HTTPStatus) (m : option string)
    (Q : unit -> unit -> Prop) :
  Q tt tt -> alike (send_response L client1 c m) (send_response L client2 c m) Q.
Proof.
  intro H. unfold send_response, log_request, date_time_string.
  unfold_small. intros a. apply alike_bind, alike_log_message.
  unfold_small. repeat split; auto.
Qed.

Lemma alike_send_error (c : HTTPStatus) (m e : option string)
    (Q : unit -> unit -> Prop) :
  Q tt tt -> alike (send_error L client1 c m e) (send_error L client2 c m e) Q.
Proof.
  intro H. unfold send_error, log_error.
  destruct (responses c) as [shortmsg longmsg].
  apply alike_bind, alike_log_message.
  apply alike_bind, alike_send_response.
  unfold_small. split; [reflexivity|]. split; [now left|].
  match goal with |- context [match ?b with Some _ => _ | None => _ end] =>
    destruct b as [body|] end; unfold_small.
  - repeat (split; auto). intros a. destruct (_ && _); unfold_small; auto.
  - intros a. exact H.
Qed.

Lemma alike_handle_expect_100 (Q : bool -> bool -> Prop) :
  Q true true -> alike handle_expect_100 handle_expect_100 Q.
Proof. intro H. unfold handle_expect_100. unfold_small. auto. Qed.

Lemma alike_parse_version (words : list string) (k1 k2 : prog bool)
    (Q : bool -> bool -> Prop) :
  alike k1 k2 Q -> Q false false ->
  alike (parse_version L client1 words k1) (parse_version L client2 words k2) Q.
Proof.
  intros Hk HQ. unfold parse_version.
  destruct (3 <=? length words)%nat; [|apply Hk].
  destruct (version_number L (last words "")) as [[[major minor] base]|].
  - apply alike_bind.
    apply alike_weaken with (Q := fun _ _ => True).
    + intros _ _ _. destruct (tuple_ge (major, minor) (2, 0)%Z).
      * apply alike_bind, alike_send_error. unfold_small. apply HQ.
      * unfold_small. intros a. auto.
    + destruct (_ && _); unfold_small; auto.
  - apply alike_bind, alike_send_error. unfold_small. apply HQ.
Qed.

Lemma alike_parse_headers_and_directives (r : request) (Q : bool -> bool -> Prop) :
  (forall b, Q b b) ->
  alike (parse_headers_and_directives L client1 r)
        (parse_headers_and_directives L client2 r) Q.
Proof.
  intros HQ. unfold parse_headers_and_directives.
  destruct (following r) as [hs| |].
  - unfold_small. intros a. split; [reflexivity|].
    apply alike_bind. apply alike_weaken with (Q := fun _ _ => True).
    + intros _ _ _. unfold_small. intros a'.
      destruct (_ && _); unfold_small; [|apply HQ].
      apply alike_bind, alike_handle_expect_100. unfold_small. apply HQ.
    + destruct (Py.lower _ =? "close"); [|destruct (_ && _)]; unfold_small; auto.
  - apply alike_bind, alike_send_error. unfold_small. apply HQ.
  - apply alike_bind, alike_send_error. unfold_small. apply HQ.
Qed.

Lemma alike_parse_request (r : request) (Q : bool -> bool -> Prop) :
  (forall b, Q b b) -> alike (parse_request L client1 r) (parse_request L client2 r) Q.
Proof.
  intros HQ. unfold parse_request. unfold_small.
  intros ?. split; [reflexivity|]. intros ?. split; [reflexivity|].
  intros ?. split; [reflexivity|]. intros ?. split; [reflexivity|].
  destruct (length _ =? 0)%nat; [apply HQ|].
  apply alike_parse_version; [|apply HQ].
  destruct (negb _).
  - apply alike_bind, alike_send_error. unfold_small. apply HQ.
  - apply alike_bind. apply alike_weaken with (Q := fun _ _ => True).
    + intros _ _ _. destruct (_ && _).
      * apply alike_bind, alike_send_error. unfold_small. apply HQ.
      * unfold_small. intros ?. split; [reflexivity|]. intros ?. split; [reflexivity|].
        apply alike_bind. apply alike_weaken with (Q := fun _ _ => True).
        -- intros _ _ _. now apply alike_parse_headers_and_directives.
        -- destruct (Py.startswith _ _); unfold_small; auto.
    + destruct (length _ =? 2)%nat; unfold_small; auto.
Qed.

Lemma alike_listing_items (path_ : string) (names_ : list string) :
  forall (Q : list string -> list string -> Prop),
    (forall items, Q items items) ->
    alike (listing_items L path_ names_) (listing_items L path_ names_) Q.
Proof.
  induction names_ as [|name rest IH]; intros Q HQ; cbn [listing_items].
  - apply HQ.
  - unfold_small. split; [reflexivity|]. intros d. split; [reflexivity|]. intros l.
    apply alike_bind, IH. intros items. apply HQ.
Qed.

Lemma alike_list_directory (path_ : string) (Q : option string -> option string -> Prop) :
  (forall f, Q f f) ->
  alike (list_directory L client1 path_) (list_directory L client2 path_) Q.
Proof.
  intros HQ. unfold list_directory. unfold_small. split; [reflexivity|].
  intros [names_|].
  - unfold_small. intros a. apply alike_bind, alike_listing_items. intros items.
    apply alike_bind, alike_send_response. unfold_small. repeat (split; auto).
  - apply alike_bind, alike_send_error. apply HQ.
Qed.

Lemma alike_send_file (path_ : string) (Q : option string -> option string -> Prop) :
  (forall f, Q f f) ->
  alike (send_file L client1 path_) (send_file L client2 path_) Q.
Proof.
  intros HQ. unfold send_file.
  destruct (Py.endswith path_ "/").
  - apply alike_bind, alike_send_error. apply HQ.
  - unfold_small. split; [reflexivity|]. intros [f|].
    + unfold_small. intros a. destruct (not_modified L (headers a) f).
      * apply alike_bind, alike_send_response. unfold_small. apply HQ.
      * apply alike_bind, alike_send_response. unfold_small. repeat (split; auto).
    + apply alike_bind, alike_send_error. apply HQ.
Qed.

Lemma alike_send_head (Q : option string -> option string -> Prop) :
  (forall f, Q f f) ->
  alike (send_head L root client1) (send_head L root client2) Q.
Proof.
  intros HQ. unfold send_head. unfold_small. intros a. split; [reflexivity|].
  intros [|]; [|now apply alike_send_file].
  destruct (negb _).
  - apply alike_bind, alike_send_response. unfold_small. repeat (split; auto).
  - unfold_small. split; [reflexivity|]. intros [|]; [now apply alike_send_file|].
    split; [reflexivity|]. intros [|]; [now apply alike_send_file|].
    now apply alike_list_directory.
Qed.

Lemma alike_handle_one_request (r : request) (Q : unit -> unit -> Prop) :
  Q tt tt ->
  alike (handle_one_request L root client1 r) (handle_one_request L root client2 r) Q.
Proof.
  intros HQ. unfold handle_one_request.
  destruct (_ <? _)%N.
  - unfold_small. intros ?. split; [reflexivity|]. intros ?. split; [reflexivity|].
    intros ?. split; [reflexivity|]. now apply alike_send_error.
  - destruct (raw_requestline r =? ""); [unfold_small; auto|].
    apply alike_bind, alike_parse_request. intros ok.
    destruct (negb ok); [apply HQ|]. unfold_small. intros a.
    destruct (command a) as [c|]; [|apply HQ].
    destruct (c =? "GET"); [|destruct (c =? "HEAD")].
    + unfold do_GET. apply alike_bind, alike_send_head. intros [data|]; [|apply HQ].
      unfold copyfile. destruct (data =? ""); unfold_small; auto.
    + unfold do_HEAD. apply alike_bind, alike_send_head. intros f. apply HQ.
    + now apply alike_send_error.
Qed.

End Alike.

(** ** The server as a whole *)

Lemma new_world_clean (root : string) (log : list string) (t : nat) :
  clean root (new_world log t).
Proof.
  split; [|split]; cbn; auto. intros ls [].
Qed.

Lemma secured_new_world (log : list string) (t : nat) :
  secured (new_world log t) = new_world log t.
Proof. reflexivity. Qed.

(** What serving one connection leaves of the process, under the handler of
    [server.py]. *)
Lemma finish_request_security (m : machine) (client : string) (pending : list request)
    (p : process) :
  exists w,
    run SecurityHeaderHandler.end_headers (system m)
      (handle (library m) (getcwd m) client pending)
      (new_world (errors p) (time_calls p)) = Returned tt w /\
    clean (getcwd m) w /\ headers_injected_last (wfile w) /\
    finish_request m SecurityHeaderHandler.end_headers client pending p =
    {| stdout := stdout p; errors := stderr w; syscalls := syscalls p;
       replies := app (replies p) [(client, wfile w)];
       time_calls := ticks w; state := state p |}.
Proof.
  destruct (obeys_security (getcwd m) (system m)
              (handle (library m) (getcwd m) client pending) false
              (fun _ _ => True) (new_world (errors p) (time_calls p)))
    as ([] & w & _ & Hrun & _ & Hclean).
  { apply obeys_handle. auto. }
  { apply new_world_clean. }
  exists w. split; [exact Hrun|]. split; [exact Hclean|]. split.
  - destruct (security_run_returns (system m)
                (handle (library m) (getcwd m) client pending)
                (new_world (errors p) (time_calls p)))
      as (a & w' & out & Hrun' & Hout & Hblocks).
    rewrite Hrun in Hrun'. injection Hrun' as _ <-. cbn in Hout. subst out.
    exact Hblocks.
  - unfold finish_request. now rewrite Hrun.
Qed.

(** What the serve loop keeps, and what holds of every reply. *)
Lemma serve_forever_security (m : machine) (P : list write -> Prop) :
  (forall client pending p w,
      run SecurityHeaderHandler.end_headers (system m)
        (handle (library m) (getcwd m) client pending)
        (new_world (errors p) (time_calls p)) = Returned tt w ->
      clean (getcwd m) w -> headers_injected_last (wfile w) -> P (wfile w)) ->
  forall incoming p,
    Forall (fun reply => P (snd reply)) (replies p) ->
    exists p',
      (serve_forever m SecurityHeaderHandler.end_headers incoming p =
         (if forallb is_connection incoming then inr p'
          else inl (KeyboardInterrupt, p'))) /\
      stdout p' = stdout p /\ syscalls p' = syscalls p /\ state p' = state p /\
      Forall (fun reply => P (snd reply)) (replies p') /\
      (forallb is_connection incoming = true ->
       length (replies p') = length (replies p) + length incoming).
Proof.
  intros HP. induction incoming as [|[client pending|] rest IH]; intros p Hp;
    cbn [serve_forever forallb is_connection andb].
  - exists p. repeat split; auto.
  - destruct (finish_request_security m client pending p) as (w & Hrun & Hc & Hl & ->).
    match goal with |- context [serve_forever _ _ _ ?q] =>
      destruct (IH q) as (p' & Heq & Hout & Hsys & Hst & Hrep & Hlen) end.
    { cbn [replies]. apply Forall_app. split; [exact Hp|].
      constructor; [|constructor]. cbn [snd]. eapply HP; eauto. }
    exists p'. cbn [stdout syscalls state replies] in *. repeat split; auto.
    intros Hall. rewrite (Hlen Hall), length_app. cbn [length]. lia.
  - exists p. repeat split; auto. discriminate.
Qed.

Lemma body_of_app (a b : list write) : body_of (app a b) = body_of a ++ body_of b.
Proof.
  unfold body_of. rewrite flat_map_app.
  induction (flat_map _ a) as [|x l IH]; cbn [app String.concat].
  - reflexivity.
  - destruct l as [|y l].
    + cbn [app]. destruct (flat_map _ b); cbn [String.concat];
        [now rewrite append_nil_r|reflexivity].
    + cbn [app] in *. rewrite IH. now rewrite !append_assoc.
Qed.

Lemma body_of_without_date (out : list write) :
  body_of (map without_date out) = body_of out.
Proof.
  unfold body_of. f_equal.
  induction out as [|[ls|d] out IH]; cbn; [reflexivity|exact IH|now rewrite IH].
Qed.

(** ** A GET request for a file *)

Section Get_file.

Variable L : Library.
Variables root client : string.
Variable o : os.
Variable eh : method.

Ltac unfold_small :=
  cbn [run bind modify ret get self_end_headers wfile_write time me attr wfile stderr
       ticks reads _headers_buffer].

(** A request line of three words with an accepted version is parsed into
    the attributes of the instance; nothing is written. *)
Lemma run_parse_request (r : request) (w : world) (c p v : string)
    (major minor : Z) (base : string) (hs : list (string * string)) :
  Py.split_ws (Py.rstrip_crlf (raw_requestline r)) = [c; p; v] ->
  version_number L v = Some (major, minor, base) ->
  tuple_ge (major, minor) (2, 0)%Z = false ->
  following r = Parsed hs ->
  run eh o (parse_request L client r) w =
  Returned true
    {| me := {| attr := {| command := Some c; path := stored_path p;
                           request_version := v;
                           requestline := Py.rstrip_crlf (raw_requestline r);
                           headers := hs; close_connection := true |};
                _headers_buffer := _headers_buffer (me w) |};
       wfile := wfile w; stderr := stderr w; ticks := ticks w; reads := reads w |}.
Proof.
  intros Hwords Hv Hlt Hhs.
  unfold parse_request. rewrite Hwords. unfold_small.
  cbn [length Nat.eqb Nat.leb negb andb nth].
  unfold parse_version. cbn [length Nat.leb last]. rewrite Hv, Hlt.
  change (Py.ge protocol_version "HTTP/1.1") with false.
  rewrite andb_false_r. unfold_small.
  unfold parse_headers_and_directives. rewrite Hhs.
  unfold stored_path.
  destruct (Py.startswith p "//"); unfold_small;
    rewrite !andb_false_r;
    destruct (Py.lower (header_get "Connection" "" hs) =? "close"); unfold_small;
    reflexivity.
Qed.

Lemma run_send_response (c : HTTPStatus) (message : option string) (w : world) :
  run eh o (send_response L client c message) w =
  Returned tt
    {| me :=
         send_header "Date" (formatdate L (clock o (S (ticks w))))
           (send_header "Server" (version_string L)
              (send_response_only c message (me w)));
       wfile := wfile w;
       stderr :=
         app (stderr w)
           [client ++ " - - [" ++ log_date L (clock o (ticks w)) ++ "] " ++
            escape_control L
              (Py.dquote ++ requestline (attr (me w)) ++ Py.dquote ++ " " ++
               Py.str (value c) ++ " -") ++ Py.LF];
       ticks := S (S (ticks w)); reads := reads w |}.
Proof. reflexivity. Qed.

End Get_file.

(** * The claims *)

(** C10. For every request, the handler of [server.py] answers as the base
    handler [SimpleHTTPRequestHandler] does, with the same status line, the
    same headers of the base handler, the same body, the same log and the
    same instance afterwards, except that the two security headers stand in
    every header block before its last, blank line: its reply is the base
    handler's reply [secured].  The base handler returns on every request, so
    nothing of it is lost. *)
Theorem security_handler_refines_base_handler :
  forall (L : Library) (root client : string) (o : os) (r : request)
         (log : list string) (t : nat),
  exists wb,
    serve_one SimpleHTTPRequestHandler_end_headers L root client o r log t =
      Returned tt wb /\
    serve_one SecurityHeaderHandler.end_headers L root client o r log t =
      Returned tt (secured wb).
Proof.
  intros L root client o r log t. unfold serve_one.
  destruct (obeys_base_returns root o (handle_one_request L root client r) false
              (fun _ _ => True) (new_world log t))
    as ([] & wb & _ & Hrun & _).
  - apply obeys_handle_one_request. auto.
  - intro H. discriminate.
  - exists wb. split; [exact Hrun|].
    rewrite <- (secured_new_world log t). now apply run_secured.
Qed.

(** C1, as amended.  Every header block the server writes, in the reply to
    any request on any machine, whatever its status, holds exactly one header
    line named [Cross-Origin-Embedder-Policy], which is
    [Cross-Origin-Embedder-Policy: require-corp], and exactly one named
    [Cross-Origin-Opener-Policy], which is
    [Cross-Origin-Opener-Policy: same-origin]. *)
Theorem both_headers_once_in_every_header_block :
  (forall (L : Library) (root client : string) (o : os) (r : request)
          (log : list string) (t : nat),
     exists w,
       serve_one SecurityHeaderHandler.end_headers L root client o r log t =
         Returned tt w /\
       headers_once_each (wfile w)) /\
  (forall m : machine,
     Forall (fun reply => headers_once_each (snd reply)) (replies (main m))).
Proof.
  split.
  - intros L root client o r log t. unfold serve_one.
    destruct (obeys_security root o (handle_one_request L root client r) false
                (fun _ _ => True) (new_world log t))
      as ([] & w & _ & Hrun & _ & _ & Hw & _).
    + apply obeys_handle_one_request. auto.
    + apply new_world_clean.
    + exists w. auto.
  - intro m. unfold main.
    destruct (HTTPServer m ("localhost", port) _) as [[e p]|p] eqn:Hs.
    + unfold HTTPServer in Hs. cbn in Hs.
      destruct (bind_error m _ _); [|discriminate].
      injection Hs as <- <-. cbn. constructor.
    + unfold HTTPServer in Hs. cbn in Hs.
      destruct (bind_error m _ _); [discriminate|]. injection Hs as <-.
      match goal with |- context [serve_forever _ _ _ ?q] =>
        destruct (serve_forever_security m headers_once_each
                    (fun _ _ _ w _ Hc _ => proj1 (proj2 Hc)) (arrivals m) q)
          as (p' & -> & _ & _ & _ & Hrep & _) end.
      { cbn. constructor. }
      destruct (forallb is_connection (arrivals m)); exact Hrep.
Qed.

(** C1 as stated does not hold: a request line without a version word is
    answered in the HTTP/0.9 form, the error page for a path that does not
    exist and nothing else, so the reply has no header at all. *)
Lemma reply_without_version_has_no_header :
  header_lines_of (written (Sample.reply_to "GET /missing")) = [] /\
  body_of (written (Sample.reply_to "GET /missing")) =
    Py.utf8 (error_message 404 "File not found" "Nothing matches the given URI") /\
  ~ once_each (header_lines_of (written (Sample.reply_to "GET /missing"))).
Proof.
  split; [vm_compute; reflexivity|]. split; [vm_compute; reflexivity|].
  intros [H _]. vm_compute in H. discriminate.
Qed.

(** C2. Whenever the server finishes a header block, the two headers are
    added to the buffered lines right before the blank line that ends the
    block, and the block goes out in the one write that follows: the lines
    the base classes buffered for this response (status line, [Server],
    [Date], [Content-Type], ...) are still unsent when the two headers are
    added, and are sent together with them.  In the HTTP/0.9 form there is no
    header block and nothing is written. *)
Theorem headers_injected_right_before_blank_line :
  (forall s : self,
     SecurityHeaderHandler.end_headers s =
     if request_version (attr s) =? "HTTP/0.9" then inr (s, [])
     else inr ({| attr := attr s; _headers_buffer := Some [] |},
               [Header_block (app (buffered s) [coep_line; coop_line; Py.CRLF])])) /\
  (forall (L : Library) (root client : string) (o : os) (r : request)
          (log : list string) (t : nat),
     exists w,
       serve_one SecurityHeaderHandler.end_headers L root client o r log t =
         Returned tt w /\
       headers_injected_last (wfile w)) /\
  (forall m : machine,
     Forall (fun reply => headers_injected_last (snd reply)) (replies (main m))).
Proof.
  split; [exact security_end_headers_eq|]. split.
  - intros L root client o r log t. unfold serve_one.
    destruct (security_run_returns o (handle_one_request L root client r)
                (new_world log t)) as ([] & w & out & Hrun & Hout & Hblocks).
    exists w. split; [exact Hrun|]. cbn in Hout. now subst out.
  - intro m. unfold main.
    destruct (HTTPServer m ("localhost", port) _) as [[e p]|p] eqn:Hs.
    + unfold HTTPServer in Hs. cbn in Hs.
      destruct (bind_error m _ _); [|discriminate].
      injection Hs as <- <-. cbn. constructor.
    + unfold HTTPServer in Hs. cbn in Hs.
      destruct (bind_error m _ _); [discriminate|]. injection Hs as <-.
      match goal with |- context [serve_forever _ _ _ ?q] =>
        destruct (serve_forever_security m headers_injected_last
                    (fun _ _ _ w _ _ Hl => Hl) (arrivals m) q)
          as (p' & -> & _ & _ & _ & Hrep & _) end.
      { cbn. constructor. }
      destruct (forallb is_connection (arrivals m)); exact Hrep.
Qed.

(** C3 as stated does not hold: [/index.html] is a regular file under the
    served directory, and a HEAD request for it is answered with the header
    block of the file and no body. *)
Lemma head_request_has_no_body :
  open_rb Sample.example_os
    (translate_path Sample.example_library "/srv/www" "/index.html") =
    Some Sample.index_html /\
  hd "" (header_lines_of (written (Sample.reply_to "HEAD /index.html HTTP/1.1"))) =
    "HTTP/1.0 200 OK" ++ Py.CRLF /\
  body_of (written (Sample.reply_to "HEAD /index.html HTTP/1.1")) = "" /\
  body_of (written (Sample.reply_to "HEAD /index.html HTTP/1.1")) <>
    contents Sample.index_html.
Proof.
  split; [vm_compute; reflexivity|]. split; [vm_compute; reflexivity|].
  split; [vm_compute; reflexivity|]. vm_compute. discriminate.
Qed.

(** C4 as stated does not hold: a path that climbs out of the served
    directory, escaped or not, is answered with status 200: the parent
    segments are dropped and the file of that name under the served directory
    is sent. *)
Lemma traversal_request_answered_200 :
  hd "" (header_lines_of
           (written (Sample.reply_to "GET /%2e%2e/index.html HTTP/1.1"))) =
    "HTTP/1.0 200 OK" ++ Py.CRLF /\
  body_of (written (Sample.reply_to "GET /%2e%2e/index.html HTTP/1.1")) =
    contents Sample.index_html /\
  hd "" (header_lines_of
           (written (Sample.reply_to "GET /../../index.html HTTP/1.1"))) =
    "HTTP/1.0 200 OK" ++ Py.CRLF.
Proof.
  split; [vm_compute; reflexivity|]. split; vm_compute; reflexivity.
Qed.

(** C4, as amended.  Whatever the path of a request, the file name it is
    translated to lies under the served directory, and so does every path
    the server opens or lists while it answers: no content from outside the
    served directory reaches a reply. *)
Theorem reads_stay_under_served_directory :
  (forall (L : Library) (root path_ : string),
     confined root (translate_path L root path_)) /\
  (forall (L : Library) (root client : string) (o : os) (r : request)
          (log : list string) (t : nat),
     exists w,
       serve_one SecurityHeaderHandler.end_headers L root client o r log t =
         Returned tt w /\
       Forall (confined root) (reads w)).
Proof.
  split; [exact translate_path_confined|].
  intros L root client o r log t. unfold serve_one.
  destruct (obeys_security root o (handle_one_request L root client r) false
              (fun _ _ => True) (new_world log t))
    as ([] & w & _ & Hrun & _ & _ & _ & Hr).
  - apply obeys_handle_one_request. auto.
  - apply new_world_clean.
  - exists w. auto.
Qed.

(** C8. The same request answered at two different times, by instances that
    see the same file system, gives the same body and, [Date] header lines
    apart, the same header blocks. *)
Theorem replies_differ_in_date_only :
  forall (L : Library) (root client1 client2 : string) (o : os)
         (clock1 clock2 : nat -> Z) (r : request) (log1 log2 : list string)
         (t1 t2 : nat),
  exists w1 w2,
    serve_one SecurityHeaderHandler.end_headers L root client1
      (at_times o clock1) r log1 t1 = Returned tt w1 /\
    serve_one SecurityHeaderHandler.end_headers L root client2
      (at_times o clock2) r log2 t2 = Returned tt w2 /\
    body_of (wfile w1) = body_of (wfile w2) /\
    map without_date (wfile w1) = map without_date (wfile w2).
Proof.
  intros L root client1 client2 o clock1 clock2 r log1 log2 t1 t2. unfold serve_one.
  destruct (alike_runs o clock1 clock2
              (handle_one_request L root client1 r)
              (handle_one_request L root client2 r)
              (fun _ _ => True) (new_world log1 t1) (new_world log2 t2))
    as ([] & [] & w1 & w2 & H1 & H2 & _ & _ & Hw & _).
  - apply alike_handle_one_request. auto.
  - repeat split.
  - exists w1, w2. repeat split; auto.
    rewrite <- (body_of_without_date (wfile w1)), Hw. apply body_of_without_date.
Qed.

(** ** The process *)

(** The script, by what binding raises. *)
Lemma main_cases (m : machine) :
  exists p',
    let address := gethostbyname m "localhost" in
    let p0 := sys [Sys_socket; Sys_setsockopt_reuseaddr; Sys_bind address port]
                (print banner started) in
    match bind_error m address port with
    | Some e => main m = uncaught m e (sys [Sys_close] p0)
    | None =>
        stdout p' = stdout p0 /\
        syscalls p' = app (syscalls p0) [Sys_listen 5] /\
        state p' = Serving /\
        (forallb is_connection (arrivals m) = true ->
         length (replies p') = length (arrivals m)) /\
        main m = if forallb is_connection (arrivals m) then p'
                 else uncaught m KeyboardInterrupt p'
    end.
Proof.
  unfold main, HTTPServer. cbn zeta.
  change (Py.str port) with "3000". fold banner.
  destruct (bind_error m (gethostbyname m "localhost") port) as [e|].
  - exists started. reflexivity.
  - match goal with |- context [serve_forever _ _ _ ?q] =>
      destruct (serve_forever_security m (fun _ => True)
                  (fun _ _ _ _ _ _ _ => I) (arrivals m) q)
        as (p' & Heq & Hout & Hsys & Hst & _ & Hlen) end.
    { cbn. constructor. }
    exists p'. rewrite Heq. cbn in Hout, Hsys, Hst, Hlen.
    repeat split; auto.
    destruct (forallb is_connection (arrivals m)); reflexivity.
Qed.

Lemma serve_forever_with_arguments (m : machine) (args : list string)
    (env : list (string * string)) (eh : method) (incoming : list arrival) :
  forall p,
    serve_forever (with_arguments m args env) eh incoming p =
    serve_forever m eh incoming p.
Proof.
  induction incoming as [|[client pending|] rest IH]; intro p; cbn [serve_forever];
    [reflexivity| |reflexivity].
  rewrite IH. reflexivity.
Qed.

(** C5. When binding the port raises, as it does when the port is bound
    already, the process ends at once with the error reported and a status
    other than 0: the socket is bound once and closed, nothing is served. *)
Theorem bind_failure_is_fatal :
  forall (m : machine) (e : exn),
    bind_error m (gethostbyname m "localhost") port = Some e ->
    exists code,
      state (main m) = Exited code /\ code <> 0%Z /\
      syscalls (main m) =
        [Sys_socket; Sys_setsockopt_reuseaddr;
         Sys_bind (gethostbyname m "localhost") port; Sys_close] /\
      errors (main m) = [traceback m e] /\
      replies (main m) = [].
Proof.
  intros m e He. destruct (main_cases m) as (p' & H). cbn zeta in H.
  rewrite He in H. rewrite H.
  exists (match e with KeyboardInterrupt => 130 | _ => 1 end)%Z.
  repeat split. destruct e; discriminate.
Qed.

Lemma bind_failure_is_fatal_witness :
  bind_error Sample.machine_port_taken
    (gethostbyname Sample.machine_port_taken "localhost") port = Some OSError /\
  exists code,
    state (main Sample.machine_port_taken) = Exited code /\ code <> 0%Z /\
    syscalls (main Sample.machine_port_taken) =
      [Sys_socket; Sys_setsockopt_reuseaddr;
       Sys_bind (gethostbyname Sample.machine_port_taken "localhost") port;
       Sys_close] /\
    errors (main Sample.machine_port_taken) =
      [traceback Sample.machine_port_taken OSError] /\
    replies (main Sample.machine_port_taken) = [].
Proof.
  split; [reflexivity|].
  apply (bind_failure_is_fatal Sample.machine_port_taken OSError). reflexivity.
Defined.

(** C6 as stated does not hold: the script names the host [localhost], and
    on a machine whose resolver gives that name another address the server
    is not bound to 127.0.0.1. *)
Lemma not_bound_to_127_0_0_1 :
  ~ In (Sys_bind "127.0.0.1" 3000) (syscalls (main Sample.machine_other_loopback)) /\
  In (Sys_bind "127.0.1.1" 3000) (syscalls (main Sample.machine_other_loopback)).
Proof.
  split.
  - vm_compute. intros [H|[H|[H|[H|[]]]]]; discriminate.
  - vm_compute. auto.
Qed.

(** C6, as amended.  When the process starts it binds one socket, to the
    address the resolver gives for the host name [localhost] and to port
    3000, and listens on it; host name and port are constants of the script,
    and neither the arguments nor the environment of the process change what
    it does. *)
Theorem binds_localhost_port_3000 :
  forall m : machine,
    syscalls (main m) =
      [Sys_socket; Sys_setsockopt_reuseaddr;
       Sys_bind (gethostbyname m "localhost") 3000;
       match bind_error m (gethostbyname m "localhost") 3000 with
       | Some _ => Sys_close
       | None => Sys_listen 5
       end] /\
    forall (args : list string) (env : list (string * string)),
      main (with_arguments m args env) = main m.
Proof.
  intro m. split.
  2:{ intros args env. unfold main.
      change (HTTPServer (with_arguments m args env)) with (HTTPServer m).
      destruct (HTTPServer m ("localhost", port) _) as [[e p]|p]; [reflexivity|].
      rewrite serve_forever_with_arguments. reflexivity. }
  destruct (main_cases m) as (p' & H). cbn zeta in H. unfold port in H.
  destruct (bind_error m (gethostbyname m "localhost") 3000) as [e|].
  - rewrite H. reflexivity.
  - destruct H as (_ & Hsys & _ & _ & ->).
    destruct (forallb is_connection (arrivals m)); cbn [uncaught syscalls];
      rewrite Hsys; reflexivity.
Qed.

(** C7 as stated does not hold: the server logs every request on standard
    error; here the two lines for one request of a path that does not
    exist. *)
Lemma requests_are_logged :
  errors (main (Sample.machine_with
                  [Connection "127.0.0.1"
                     [Sample.request_of "GET /missing HTTP/1.1"]])) =
  ["127.0.0.1 - - [09/Sep/2001 01:46:40] code 404, message File not found" ++ Py.LF;
   "127.0.0.1 - - [09/Sep/2001 01:46:41] " ++ Py.dquote ++ "GET /missing HTTP/1.1" ++
   Py.dquote ++ " 404 -" ++ Py.LF].
Proof. vm_compute. reflexivity. Qed.

(** C7, as amended.  On every machine, whether or not the port can be bound,
    standard output receives the banner line and nothing else; it is printed
    first, before the socket is made.  Requests are logged, on standard
    error: [send_response] writes one line there for every status line. *)
Theorem banner_alone_on_stdout_and_log_on_stderr :
  (forall m : machine, stdout (main m) = [banner ++ Py.LF]) /\
  (forall (eh : method) (L : Library) (client : string) (o : os) (c : HTTPStatus)
          (message : option string) (w : world),
     exists w' line,
       run eh o (send_response L client c message) w = Returned tt w' /\
       stderr w' = app (stderr w) [line] /\ wfile w' = wfile w).
Proof.
  split.
  - intro m. destruct (main_cases m) as (p' & H). cbn zeta in H.
    destruct (bind_error m (gethostbyname m "localhost") port) as [e|].
    + rewrite H. reflexivity.
    + destruct H as (Hout & _ & _ & _ & ->).
      destruct (forallb is_connection (arrivals m)); cbn [uncaught stdout];
        rewrite Hout; reflexivity.
  - intros eh L client o c message w. eexists _, _. split; [reflexivity|].
    cbn. auto.
Qed.

(** C9 as stated does not hold: nothing in the script handles the
    interrupt, so the process ends by the uncaught [KeyboardInterrupt], not
    with status 0, and no call closes the listening socket. *)
Lemma interrupt_is_not_a_graceful_exit :
  state (main (Sample.machine_with
                 [Connection "127.0.0.1" [Sample.request_of "GET / HTTP/1.1"];
                  Interrupt])) = Exited 130 /\
  ~ In Sys_close
      (syscalls (main (Sample.machine_with
                         [Connection "127.0.0.1" [Sample.request_of "GET / HTTP/1.1"];
                          Interrupt]))).
Proof.
  split; [vm_compute; reflexivity|].
  vm_compute. intros [H|[H|[H|[H|[]]]]]; discriminate.
Qed.

(** C9, as amended.  The process never ends with status 0.  When the port
    cannot be bound it ends with another status.  Otherwise it serves one
    connection after the other and is still serving when all that arrived was
    connections; an interrupt ends it, by the uncaught [KeyboardInterrupt],
    with a status other than 0 and without a call that closes the listening
    socket. *)
Theorem serves_until_killed_and_never_exits_0 :
  forall m : machine,
    state (main m) <> Exited 0 /\
    match bind_error m (gethostbyname m "localhost") port with
    | Some _ => exists code, state (main m) = Exited code /\ code <> 0%Z
    | None =>
        if forallb is_connection (arrivals m)
        then state (main m) = Serving /\
             length (replies (main m)) = length (arrivals m)
        else state (main m) = Exited 130 /\ ~ In Sys_close (syscalls (main m))
    end.
Proof.
  intro m. destruct (main_cases m) as (p' & H). cbn zeta in H.
  destruct (bind_error m (gethostbyname m "localhost") port) as [e|].
  - rewrite H. split.
    + destruct e; discriminate.
    + eexists. split; [reflexivity|]. destruct e; discriminate.
  - destruct H as (_ & Hsys & Hst & Hlen & ->).
    destruct (forallb is_connection (arrivals m)).
    + rewrite Hst. repeat split; auto. discriminate.
    + cbn [uncaught state syscalls]. repeat split; try discriminate.
      rewrite Hsys. cbn. intros [H|[H|[H|[H|[]]]]]; discriminate.
Qed.

(** C3, as amended.  A GET request with a version word other than
    [HTTP/0.9], whose path is translated to the name of a file that can be
    opened (not of a directory, and without a slash at its end), and that
    does not ask for a copy it has already ([If-Modified-Since]), is answered
    with status 200, the two security headers in the header block, and a body
    equal to the contents of the file. *)
Theorem get_of_file_is_answered_with_its_contents :
  forall (L : Library) (root client : string) (o : os) (r : request)
         (log : list string) (t : nat) (p v : string) (major minor : Z)
         (base : string) (hs : list (string * string)) (f : file),
    Py.split_ws (Py.rstrip_crlf (raw_requestline r)) = ["GET"; p; v] ->
    (N.of_nat (String.length (raw_requestline r)) <= 65536)%N ->
    version_number L v = Some (major, minor, base) ->
    tuple_ge (major, minor) (2, 0)%Z = false ->
    v <> "HTTP/0.9" ->
    following r = Parsed hs ->
    isdir o (translate_path L root (stored_path p)) = false ->
    Py.endswith (translate_path L root (stored_path p)) "/" = false ->
    open_rb o (translate_path L root (stored_path p)) = Some f ->
    not_modified L hs f = false ->
    exists w,
      serve_one SecurityHeaderHandler.end_headers L root client o r log t =
        Returned tt w /\
      header_lines_of (wfile w) =
        ["HTTP/1.0 200 OK" ++ Py.CRLF;
         "Server: " ++ version_string L ++ Py.CRLF;
         "Date: " ++ formatdate L (clock o (S t)) ++ Py.CRLF;
         "Content-type: " ++ guess_type L (translate_path L root (stored_path p)) ++
           Py.CRLF;
         "Content-Length: " ++ Py.str (st_size f) ++ Py.CRLF;
         "Last-Modified: " ++ formatdate L (st_mtime f) ++ Py.CRLF;
         coep_line; coop_line; Py.CRLF] /\
      body_of (wfile w) = contents f.
Proof.
  intros L root client o r log t p v major minor base hs f
         Hwords Hlen Hv Hlt H09 Hhs Hdir Hslash Hopen Hmod.
  unfold serve_one, handle_one_request.
  apply N.ltb_ge in Hlen. rewrite Hlen.
  destruct (raw_requestline r =? "") eqn:Hraw.
  { apply String.eqb_eq in Hraw. rewrite Hraw in Hwords. discriminate. }
  rewrite run_bind.
  rewrite (run_parse_request L client o _ r _ "GET" p v major minor base hs)
    by assumption.
  cbn [negb run bind get me attr command]. cbn [String.eqb Ascii.eqb Bool.eqb].
  unfold do_GET, send_head.
  cbn [run bind get me attr path]. rewrite Hdir.
  unfold send_file. rewrite Hslash. cbn [run bind get me attr headers]. rewrite Hopen.
  cbn [run bind get me attr headers]. rewrite Hmod.
  rewrite !run_bind, run_send_response.
  cbn [run bind self_end_headers ret me wfile stderr ticks reads].
  rewrite security_end_headers_eq.
  rewrite !send_header_eq. cbn [attr _headers_buffer].
  rewrite !connection_directive_version.
  unfold send_response_only. cbn [attr request_version _headers_buffer new_world me new_self].
  apply eqb_false_of_neq in H09. rewrite H09.
  cbn [negb attr request_version _headers_buffer buffered app].
  rewrite H09.
  unfold copyfile. destruct (contents f =? "") eqn:Hempty.
  - eexists. split; [reflexivity|]. split; [reflexivity|].
    apply String.eqb_eq in Hempty. now rewrite Hempty.
  - eexists. split; [reflexivity|]. split; [reflexivity|].
    cbn. reflexivity.
Qed.

Lemma get_of_file_is_answered_with_its_contents_witness :
  Py.split_ws (Py.rstrip_crlf
                 (raw_requestline (Sample.request_of "GET /index.html HTTP/1.1"))) =
    ["GET"; "/index.html"; "HTTP/1.1"] /\
  open_rb Sample.example_os
    (translate_path Sample.example_library "/srv/www" (stored_path "/index.html")) =
    Some Sample.index_html /\
  exists w,
    serve_one SecurityHeaderHandler.end_headers Sample.example_library "/srv/www"
      "127.0.0.1" Sample.example_os (Sample.request_of "GET /index.html HTTP/1.1")
      [] 0 = Returned tt w /\
    header_lines_of (wfile w) =
      ["HTTP/1.0 200 OK" ++ Py.CRLF;
       "Server: " ++ version_string Sample.example_library ++ Py.CRLF;
       "Date: " ++ formatdate Sample.example_library
                     (clock Sample.example_os 1) ++ Py.CRLF;
       "Content-type: " ++
         guess_type Sample.example_library
           (translate_path Sample.example_library "/srv/www"
              (stored_path "/index.html")) ++ Py.CRLF;
       "Content-Length: " ++ Py.str (st_size Sample.index_html) ++ Py.CRLF;
       "Last-Modified: " ++
         formatdate Sample.example_library (st_mtime Sample.index_html) ++ Py.CRLF;
       coep_line; coop_line; Py.CRLF] /\
    body_of (wfile w) = contents Sample.index_html.
Proof.
  split; [reflexivity|]. split; [reflexivity|].
  apply (get_of_file_is_answered_with_its_contents Sample.example_library
           "/srv/www" "127.0.0.1" Sample.example_os
           (Sample.request_of "GET /index.html HTTP/1.1") [] 0
           "/index.html" "HTTP/1.1" 1%Z 1%Z "1.1" [("Host", "localhost:3000")]
           Sample.index_html).
  - reflexivity.
  - vm_compute. discriminate.
  - reflexivity.
  - reflexivity.
  - discriminate.
  - reflexivity.
  - reflexivity.
  - reflexivity.
  - reflexivity.
  - reflexivity.
Defined.

(** * Further properties of [server.py] *)

(** ** [end_headers] on its own *)

(** X1. On an instance that has no header buffer yet (no status line and no
    header was sent) and whose request is not in the HTTP/0.9 form,
    [end_headers] of the base class raises [AttributeError]; the method of
    [server.py] does not: it writes a header block of the two headers and
    the blank line. *)
Theorem end_headers_without_buffer :
  forall s : self,
    _headers_buffer s = None ->
    (request_version (attr s) =? "HTTP/0.9") = false ->
    SimpleHTTPRequestHandler_end_headers s = inl AttributeError /\
    SecurityHeaderHandler.end_headers s =
      inr ({| attr := attr s; _headers_buffer := Some [] |},
           [Header_block [coep_line; coop_line; Py.CRLF]]).
Proof.
  intros s Hb Hv.
  rewrite base_end_headers_eq, security_end_headers_eq, Hv, Hb.
  unfold buffered. rewrite Hb. split; reflexivity.
Qed.

Lemma end_headers_without_buffer_witness :
  SimpleHTTPRequestHandler_end_headers new_self = inl AttributeError /\
  SecurityHeaderHandler.end_headers new_self =
    inr ({| attr := attr new_self; _headers_buffer := Some [] |},
         [Header_block [coep_line; coop_line; Py.CRLF]]).
Proof.
  apply (end_headers_without_buffer new_self); reflexivity.
Defined.

(** X2. [end_headers] does not replace a header of the same name that was
    sent before it: after [send_header] with the name
    [Cross-Origin-Embedder-Policy] or [Cross-Origin-Opener-Policy] and any
    value, the block holds that line and, after it, the line of
    [server.py]. *)
Theorem end_headers_keeps_header_of_same_name :
  forall (s : self) (name v : string),
    (request_version (attr s) =? "HTTP/0.9") = false ->
    name = "Cross-Origin-Embedder-Policy" \/ name = "Cross-Origin-Opener-Policy" ->
    SecurityHeaderHandler.end_headers (send_header name v s) =
      inr ({| attr := attr s; _headers_buffer := Some [] |},
           [Header_block
              (app (buffered s)
                 [name ++ ": " ++ v ++ Py.CRLF; coep_line; coop_line; Py.CRLF])]).
Proof.
  intros s name v Hv Hname.
  rewrite security_end_headers_eq, send_header_eq.
  cbn [attr _headers_buffer]. rewrite connection_directive_version, Hv.
  unfold buffered at 1. cbn [_headers_buffer]. rewrite <- app_assoc.
  destruct Hname as [-> | ->]; reflexivity.
Qed.

Lemma end_headers_keeps_header_of_same_name_witness :
  SecurityHeaderHandler.end_headers
    (send_header "Cross-Origin-Opener-Policy" "unsafe-none" new_self) =
    inr ({| attr := attr new_self; _headers_buffer := Some [] |},
         [Header_block
            (app (buffered new_self)
               ["Cross-Origin-Opener-Policy" ++ ": " ++ "unsafe-none" ++ Py.CRLF;
                coep_line; coop_line; Py.CRLF])]).
Proof.
  apply (end_headers_keeps_header_of_same_name new_self
           "Cross-Origin-Opener-Policy" "unsafe-none").
  - reflexivity.
  - right. reflexivity.
Defined.

(** ** One request for each connection, one reply for each request *)

Lemma orderly_weaken {A : Type} (p : prog A) :
  forall st (Q Q' : A -> progress -> Prop),
    (forall a s, Q a s -> Q' a s) ->
    orderly p st Q -> orderly p st Q'.
Proof.
  induction p; intros st Q Q' HQ; cbn [orderly]; eauto;
    try (intros [H1 H2]; split; eauto).
Qed.

Lemma orderly_bind {A B : Type} (m : prog A) (f : A -> prog B) :
  forall st (Q : B -> progress -> Prop),
    orderly m st (fun a s => orderly (f a) s Q) ->
    orderly (bind m f) st Q.
Proof.
  induction m; intros st Q; cbn [orderly bind]; eauto;
    try (intros [H1 H2]; split; eauto).
Qed.

Lemma connection_directive_closes (kw v : string) (a : attrs) :
  (Py.lower kw =? "connection") && (Py.lower v =? "keep-alive") = false ->
  close_connection a = true ->
  close_connection (connection_directive kw v a) = true.
Proof.
  unfold connection_directive.
  destruct (Py.lower kw =? "connection"); [|auto].
  destruct (Py.lower v =? "close"); [reflexivity|].
  destruct (Py.lower v =? "keep-alive"); [discriminate|auto].
Qed.

Lemma send_response_only_attr (c : HTTPStatus) (m : option string) (s : self) :
  attr (send_response_only c m s) = attr s.
Proof.
  unfold send_response_only.
  destruct (request_version (attr s) =? "HTTP/0.9"); reflexivity.
Qed.

(** Under the handler of [server.py], a program that is [orderly] returns
    with [close_connection] set and with what it wrote in order. *)
Lemma orderly_security (o : os) {A : Type} (p : prog A) :
  forall st (Q : A -> progress -> Prop) w,
    orderly p st Q ->
    close_connection (attr (me w)) = true ->
    written_so_far st (wfile w) ->
    exists a w' st',
      run SecurityHeaderHandler.end_headers o p w = Returned a w' /\
      Q a st' /\
      close_connection (attr (me w')) = true /\
      written_so_far st' (wfile w').
Proof.
  induction p as [a|k IH|a p IH|c m p IH|kw v p IH|p IH|d p IH|l p IH|k IH
                  |q k IH|q k IH|q k IH|q k IH|q k IH];
    intros st Q w Hp Hc Hw; cbn [run]; cbn [orderly] in Hp;
    try (eapply IH; eauto; fail).
  - exists a, w, st. auto.
  - destruct Hp as [Ha Hp]. eapply IH; eauto.
  - eapply IH; eauto. cbn [me]. now rewrite send_response_only_attr.
  - destruct Hp as [Hkw Hp]. eapply IH; eauto. cbn [me].
    rewrite send_header_eq. cbn [attr]. now apply connection_directive_closes.
  - destruct Hp as [-> Hp]. cbn [written_so_far] in Hw.
    rewrite security_end_headers_eq.
    destruct (request_version (attr (me w)) =? "HTTP/0.9").
    + eapply IH; eauto. cbn [wfile written_so_far]. rewrite Hw. now left.
    + eapply IH; eauto. cbn [wfile written_so_far]. rewrite Hw.
      right. eexists. reflexivity.
  - destruct Hp as [-> Hp]. cbn [written_so_far] in Hw.
    eapply IH; eauto. cbn [wfile written_so_far].
    destruct Hw as [-> | [ls ->]]; [left|right]; repeat eexists; reflexivity.
Qed.

Section Orderly.

Variable L : Library.
Variable root : string.
Variable client : string.

Ltac unfold_small :=
  cbn [orderly bind modify ret get self_end_headers wfile_write time].

Ltac no_keep_alive :=
  change (Py.ge protocol_version "HTTP/1.1") with false;
  rewrite ?andb_false_r; cbn [andb].

Lemma orderly_log_message (msg : string) (st : progress)
    (Q : unit -> progress -> Prop) :
  Q tt st -> orderly (log_message L client msg) st Q.
Proof. intro H. unfold log_message. unfold_small. auto. Qed.

Lemma orderly_send_response (c : HTTPStatus) (m : option string) (st : progress)
    (Q : unit -> progress -> Prop) :
  Q tt st -> orderly (send_response L client c m) st Q.
Proof.
  intro H. unfold send_response, log_request, date_time_string.
  unfold_small. intros a Ha. apply orderly_bind, orderly_log_message.
  unfold_small. split; [reflexivity|]. intros t. split; [reflexivity|exact H].
Qed.

Lemma orderly_send_error (c : HTTPStatus) (m e : option string)
    (Q : unit -> progress -> Prop) :
  Q tt Headers_ended -> Q tt Body_written ->
  orderly (send_error L client c m e) Nothing_sent Q.
Proof.
  intros H1 H2. unfold send_error, log_error.
  destruct (responses c) as [shortmsg longmsg].
  apply orderly_bind, orderly_log_message.
  apply orderly_bind, orderly_send_response.
  unfold_small. split; [reflexivity|].
  match goal with |- context [match ?b with Some _ => _ | None => _ end] =>
    destruct b as [body|] end; unfold_small.
  - split; [reflexivity|]. split; [reflexivity|]. split; [reflexivity|].
    intros a Ha. destruct (_ && _); unfold_small; auto.
  - split; [reflexivity|]. intros a Ha. exact H1.
Qed.

Lemma orderly_parse_version (words : list string) (k : prog bool)
    (Q : bool -> progress -> Prop) :
  orderly k Nothing_sent Q -> (forall st, Q false st) ->
  orderly (parse_version L client words k) Nothing_sent Q.
Proof.
  intros Hk HQ. unfold parse_version.
  destruct (3 <=? length words)%nat; [|apply Hk].
  destruct (version_number L (last words "")) as [[[major minor] base]|].
  - no_keep_alive. unfold_small.
    destruct (tuple_ge (major, minor) (2, 0)%Z).
    + apply orderly_bind, orderly_send_error; unfold_small; apply HQ.
    + unfold_small. intros a Ha. split; [exact Ha|exact Hk].
  - apply orderly_bind, orderly_send_error; unfold_small; apply HQ.
Qed.

Lemma orderly_parse_headers_and_directives (r : request)
    (Q : bool -> progress -> Prop) :
  Q true Nothing_sent -> (forall st, Q false st) ->
  orderly (parse_headers_and_directives L client r) Nothing_sent Q.
Proof.
  intros Ht HQ. unfold parse_headers_and_directives.
  destruct (following r) as [hs| |].
  - no_keep_alive. unfold_small. intros a Ha. split; [exact Ha|].
    destruct (Py.lower _ =? "close"); unfold_small.
    + intros a' Ha'. split; [reflexivity|]. intros a'' Ha''. exact Ht.
    + intros a' Ha'. exact Ht.
  - apply orderly_bind, orderly_send_error; unfold_small; apply HQ.
  - apply orderly_bind, orderly_send_error; unfold_small; apply HQ.
Qed.

Lemma orderly_parse_request (r : request) (Q : bool -> progress -> Prop) :
  Q true Nothing_sent -> (forall st, Q false st) ->
  orderly (parse_request L client r) Nothing_sent Q.
Proof.
  intros Ht HQ. unfold parse_request. unfold_small.
  intros a1 H1. split; [exact H1|]. intros a2 H2. split; [exact H2|].
  intros a3 H3. split; [reflexivity|]. intros a4 H4. split; [exact H4|].
  destruct (length _ =? 0)%nat; [apply HQ|].
  apply orderly_parse_version; [|apply HQ].
  destruct (negb _).
  - apply orderly_bind, orderly_send_error; unfold_small; apply HQ.
  - apply orderly_bind. apply orderly_weaken with (Q := fun _ st => st = Nothing_sent).
    + intros _ st ->. destruct (_ && _).
      * apply orderly_bind, orderly_send_error; unfold_small; apply HQ.
      * unfold_small. intros a5 H5. split; [exact H5|].
        intros a6 H6. split; [exact H6|].
        apply orderly_bind.
        apply orderly_weaken with (Q := fun _ st => st = Nothing_sent).
        -- intros _ st ->. now apply orderly_parse_headers_and_directives.
        -- destruct (Py.startswith _ _); unfold_small; auto.
    + destruct (length _ =? 2)%nat; unfold_small; auto.
Qed.

Lemma orderly_listing_items (path_ : string) (names_ : list string) :
  forall (st : progress) (Q : list string -> progress -> Prop),
    (forall items, Q items st) -> orderly (listing_items L path_ names_) st Q.
Proof.
  induction names_ as [|name rest IH]; intros st Q HQ; cbn [listing_items].
  - apply HQ.
  - unfold_small. intros d l. apply orderly_bind, IH. intros items. apply HQ.
Qed.

Lemma orderly_list_directory (path_ : string) (Q : option string -> progress -> Prop) :
  (forall data, Q (Some data) Headers_ended) -> (forall st, Q None st) ->
  orderly (list_directory L client path_) Nothing_sent Q.
Proof.
  intros Hs HQ. unfold list_directory. unfold_small. intros [names_|].
  - unfold_small. intros a Ha. apply orderly_bind, orderly_listing_items. intros items.
    apply orderly_bind, orderly_send_response. unfold_small.
    split; [reflexivity|]. split; [reflexivity|]. split; [reflexivity|]. apply Hs.
  - apply orderly_bind, orderly_send_error; apply HQ.
Qed.

Lemma orderly_send_file (path_ : string) (Q : option string -> progress -> Prop) :
  (forall data, Q (Some data) Headers_ended) -> (forall st, Q None st) ->
  orderly (send_file L client path_) Nothing_sent Q.
Proof.
  intros Hs HQ. unfold send_file.
  destruct (Py.endswith path_ "/").
  - apply orderly_bind, orderly_send_error; apply HQ.
  - unfold_small. intros [f|].
    + unfold_small. intros a Ha. destruct (not_modified L (headers a) f).
      * apply orderly_bind, orderly_send_response. unfold_small.
        split; [reflexivity|apply HQ].
      * apply orderly_bind, orderly_send_response. unfold_small.
        split; [reflexivity|]. split; [reflexivity|]. split; [reflexivity|].
        split; [reflexivity|]. apply Hs.
    + apply orderly_bind, orderly_send_error; apply HQ.
Qed.

Lemma orderly_send_head (Q : option string -> progress -> Prop) :
  (forall data, Q (Some data) Headers_ended) -> (forall st, Q None st) ->
  orderly (send_head L root client) Nothing_sent Q.
Proof.
  intros Hs HQ. unfold send_head. unfold_small. intros a Ha.
  intros [|]; [|now apply orderly_send_file].
  destruct (negb _).
  - apply orderly_bind, orderly_send_response. unfold_small.
    split; [reflexivity|]. split; [reflexivity|]. split; [reflexivity|]. apply HQ.
  - unfold_small. intros [|]; [now apply orderly_send_file|].
    intros [|]; [now apply orderly_send_file|now apply orderly_list_directory].
Qed.

Lemma orderly_handle_one_request (r : request) (Q : unit -> progress -> Prop) :
  (forall st, Q tt st) -> orderly (handle_one_request L root client r) Nothing_sent Q.
Proof.
  intros HQ. unfold handle_one_request.
  destruct (_ <? _)%N.
  - unfold_small. intros a1 H1. split; [exact H1|]. intros a2 H2. split; [exact H2|].
    intros a3 H3. split; [exact H3|]. now apply orderly_send_error.
  - destruct (raw_requestline r =? ""); [unfold_small; auto|].
    apply orderly_bind, orderly_parse_request.
    + cbn [negb]. unfold_small. intros a Ha.
      destruct (command a) as [c|]; [|apply HQ].
      destruct (c =? "GET"); [|destruct (c =? "HEAD")].
      * unfold do_GET. apply orderly_bind, orderly_send_head.
        -- intros data. unfold copyfile. destruct (data =? ""); unfold_small; auto.
        -- intros st. apply HQ.
      * unfold do_HEAD. apply orderly_bind, orderly_send_head; intros; apply HQ.
      * now apply orderly_send_error.
    + intros st. apply HQ.
Qed.

End Orderly.

Lemma written_so_far_framed (st : progress) (out : list write) :
  written_so_far st out -> framed out = true.
Proof.
  destruct st; cbn [written_so_far].
  - intros ->. reflexivity.
  - intros [-> | [ls ->]]; reflexivity.
  - intros [[d ->] | (ls & d & ->)]; reflexivity.
Qed.

(** What a new instance makes of one request. *)
Lemma serve_one_orderly (L : Library) (root client : string) (o : os) (r : request)
    (log : list string) (t : nat) :
  exists w,
    serve_one SecurityHeaderHandler.end_headers L root client o r log t =
      Returned tt w /\
    close_connection (attr (me w)) = true /\
    framed (wfile w) = true.
Proof.
  unfold serve_one.
  destruct (orderly_security o (handle_one_request L root client r) Nothing_sent
              (fun _ _ => True) (new_world log t))
    as ([] & w & st & Hrun & _ & Hc & Hw).
  - apply orderly_handle_one_request. auto.
  - reflexivity.
  - reflexivity.
  - exists w. split; [exact Hrun|]. split; [exact Hc|].
    eapply written_so_far_framed; eauto.
Qed.

Lemma run_handle_more_closed (L : Library) (root client : string) (o : os)
    (eh : method) (pending : list request) (w : world) :
  close_connection (attr (me w)) = true ->
  run eh o (handle_more L root client pending) w = Returned tt w.
Proof.
  intro Hc. destruct pending; cbn [handle_more bind get run]; rewrite Hc; reflexivity.
Qed.

Lemma run_handle_start (o : os) (eh : method) (log : list string) (t : nat) :
  run eh o (modify (set_close_connection true)) (new_world log t) =
  Returned tt (new_world log t).
Proof. reflexivity. Qed.

(** [handle] on a new instance answers the first request, and that one
    only. *)
Lemma run_handle (L : Library) (root client : string) (o : os)
    (pending : list request) (log : list string) (t : nat) :
  run SecurityHeaderHandler.end_headers o (handle L root client pending)
    (new_world log t) =
  serve_one SecurityHeaderHandler.end_headers L root client o
    (first_request pending) log t.
Proof.
  unfold handle. rewrite run_bind, run_handle_start.
  destruct pending as [|r rest]; [reflexivity|].
  cbn [first_request]. rewrite run_bind.
  destruct (serve_one_orderly L root client o r log t) as (w & Hrun & Hc & _).
  rewrite Hrun. unfold serve_one in Hrun. rewrite Hrun.
  now apply run_handle_more_closed.
Qed.

Lemma at_times_same (o : os) : at_times o (clock o) = o.
Proof. destruct o; reflexivity. Qed.

(** What was logged and how often the clock was read before does not show
    in a reply, [Date] header lines apart. *)
Lemma serve_one_any_time (L : Library) (root client : string) (o : os) (r : request)
    (log1 log2 : list string) (t1 t2 : nat) :
  undated (written (serve_one SecurityHeaderHandler.end_headers L root client o r
                      log1 t1)) =
  undated (written (serve_one SecurityHeaderHandler.end_headers L root client o r
                      log2 t2)).
Proof.
  unfold serve_one.
  destruct (alike_runs o (clock o) (clock o)
              (handle_one_request L root client r)
              (handle_one_request L root client r)
              (fun _ _ => True) (new_world log1 t1) (new_world log2 t2))
    as ([] & [] & w1 & w2 & H1 & H2 & _ & _ & Hw & _).
  - apply alike_handle_one_request. auto.
  - repeat split.
  - rewrite at_times_same in H1, H2. rewrite H1, H2. exact Hw.
Qed.

Lemma serve_forever_replies (m : machine) :
  forall incoming p,
  exists p',
    (serve_forever m SecurityHeaderHandler.end_headers incoming p = inr p' \/
     serve_forever m SecurityHeaderHandler.end_headers incoming p =
       inl (KeyboardInterrupt, p')) /\
    map undated_reply (replies p') =
    app (map undated_reply (replies p)) (map (reply_alone m) (served incoming)).
Proof.
  induction incoming as [|[client pending|] rest IH]; intro p;
    cbn [serve_forever served map].
  - exists p. rewrite app_nil_r. auto.
  - destruct (finish_request_security m client pending p) as (w & Hrun & _ & _ & ->).
    match goal with |- context [serve_forever _ _ _ ?q] =>
      destruct (IH q) as (p' & Hp' & Hrep) end.
    exists p'. split; [exact Hp'|]. rewrite Hrep. cbn [replies].
    rewrite map_app, <- app_assoc. f_equal. cbn [map app]. f_equal.
    unfold undated_reply, reply_alone. cbn [fst snd]. f_equal.
    rewrite run_handle in Hrun.
    rewrite <- (serve_one_any_time (library m) (getcwd m) client (system m)
                  (first_request pending) (errors p) [] (time_calls p) 0).
    now rewrite Hrun.
  - exists p. rewrite app_nil_r. auto.
Qed.

(** X3. One connection, one request: on a new connection the handler of
    [server.py] answers the first request as [handle_one_request] alone does
    and then returns with [close_connection] set; requests that follow on
    the same connection are not read, and leave no trace in the reply, the
    log or the instance. *)
Theorem connection_is_answered_once :
  forall (L : Library) (root client : string) (o : os) (pending : list request)
         (log : list string) (t : nat),
  exists w,
    run SecurityHeaderHandler.end_headers o (handle L root client pending)
      (new_world log t) = Returned tt w /\
    serve_one SecurityHeaderHandler.end_headers L root client o
      (first_request pending) log t = Returned tt w /\
    close_connection (attr (me w)) = true.
Proof.
  intros L root client o pending log t.
  destruct (serve_one_orderly L root client o (first_request pending) log t)
    as (w & Hrun & Hc & _).
  exists w. rewrite run_handle. auto.
Qed.


(** X5. When the port can be bound, the server answers the connections that
    arrive before the first interrupt, each once, in the order they arrive,
    and none after it.  Nothing passes from one connection to the next but
    the log and the clock: [Date] header lines apart, each reply is what a
    server just started gives to the first request of that connection. *)
Theorem connections_are_answered_in_order_each_on_its_own :
  forall m : machine,
    bind_error m (gethostbyname m "localhost") port = None ->
    map undated_reply (replies (main m)) = map (reply_alone m) (served (arrivals m)).
Proof.
  intros m Hbind. unfold main, HTTPServer. cbn zeta. rewrite Hbind.
  match goal with |- context [serve_forever _ _ _ ?q] =>
    destruct (serve_forever_replies m (arrivals m) q) as (p' & [-> | ->] & Hrep) end;
    cbn [uncaught replies]; rewrite Hrep; reflexivity.
Qed.

Lemma connections_are_answered_in_order_each_on_its_own_witness :
  bind_error three_connections (gethostbyname three_connections "localhost") port =
    None /\
  map fst (served (arrivals three_connections)) = ["127.0.0.1"; "127.0.0.2"] /\
  map undated_reply (replies (main three_connections)) =
    map (reply_alone three_connections) (served (arrivals three_connections)).
Proof.
  split; [reflexivity|]. split; [reflexivity|].
  apply (connections_are_answered_in_order_each_on_its_own three_connections).
  reflexivity.
Defined.

(** ** The answers of the handler, one by one *)

Lemma endswith_slash_app (a b : string) :
  b <> "" -> Py.endswith (a ++ b) "/" = Py.endswith b "/".
Proof.
  intro Hb. induction a as [|x a IH]; cbn [String.append]; [reflexivity|].
  cbn [Py.endswith]. rewrite IH.
  destruct (String.eqb_spec (String x (a ++ b)) "/") as [E|_]; [|reflexivity].
  injection E as _ E. apply append_eq_nil in E. tauto.
Qed.

Lemma index_has_no_slash (p : string) :
  Py.endswith (Py.path_join p "index.html") "/" = false.
Proof.
  unfold Py.path_join. change (Py.startswith "index.html" "/") with false.
  cbv iota. destruct ((p =? "") || Py.endswith p "/").
  - rewrite endswith_slash_app by discriminate. reflexivity.
  - rewrite (endswith_slash_app p ("/" ++ "index.html")) by discriminate. reflexivity.
Qed.

Section Answers.

Variable L : Library.
Variables root client : string.
Variable o : os.

Lemma run_ret {A : Type} (eh : method) (a : A) (w : world) :
  run eh o (ret a) w = Returned a w.
Proof. reflexivity. Qed.

Lemma run_Ret {A : Type} (eh : method) (a : A) (w : world) :
  run eh o (Ret a) w = Returned a w.
Proof. reflexivity. Qed.

Lemma run_get (eh : method) (w : world) :
  run eh o get w = Returned (attr (me w)) w.
Proof. reflexivity. Qed.

Lemma run_modify (eh : method) (f : attrs -> attrs) (w : world) :
  run eh o (modify f) w =
  Returned tt
    {| me := {| attr := f (attr (me w)); _headers_buffer := _headers_buffer (me w) |};
       wfile := wfile w; stderr := stderr w; ticks := ticks w; reads := reads w |}.
Proof. reflexivity. Qed.

Lemma run_Send_header {A : Type} (eh : method) (kw v : string) (k : prog A)
    (w : world) :
  run eh o (Send_header kw v k) w =
  run eh o k {| me := send_header kw v (me w); wfile := wfile w; stderr := stderr w;
                ticks := ticks w; reads := reads w |}.
Proof. reflexivity. Qed.

Lemma run_Isdir {A : Type} (eh : method) (p : string) (k : bool -> prog A)
    (w : world) :
  run eh o (Isdir p k) w = run eh o (k (isdir o p)) w.
Proof. reflexivity. Qed.

Lemma run_Isfile {A : Type} (eh : method) (p : string) (k : bool -> prog A)
    (w : world) :
  run eh o (Isfile p k) w = run eh o (k (isfile o p)) w.
Proof. reflexivity. Qed.

Lemma run_Open {A : Type} (eh : method) (p : string) (k : option file -> prog A)
    (w : world) :
  run eh o (Open p k) w =
  run eh o (k (open_rb o p))
    {| me := me w; wfile := wfile w; stderr := stderr w; ticks := ticks w;
       reads := app (reads w) [p] |}.
Proof. reflexivity. Qed.

Lemma run_wfile_write (eh : method) (d : string) (w : world) :
  run eh o (wfile_write d) w =
  Returned tt {| me := me w; wfile := app (wfile w) [Body d]; stderr := stderr w;
                 ticks := ticks w; reads := reads w |}.
Proof. reflexivity. Qed.

Lemma run_log_message (eh : method) (msg : string) (w : world) :
  run eh o (log_message L client msg) w =
  Returned tt
    {| me := me w; wfile := wfile w;
       stderr := app (stderr w)
                   [client ++ " - - [" ++ log_date L (clock o (ticks w)) ++ "] " ++
                    escape_control L msg ++ Py.LF];
       ticks := S (ticks w); reads := reads w |}.
Proof. reflexivity. Qed.

Lemma send_header_attr (kw v : string) (s : self) :
  attr (send_header kw v s) = connection_directive kw v (attr s).
Proof. rewrite send_header_eq. reflexivity. Qed.

Lemma send_header_buffered (kw v : string) (s : self) :
  (request_version (attr s) =? "HTTP/0.9") = false ->
  buffered (send_header kw v s) = app (buffered s) [kw ++ ": " ++ v ++ Py.CRLF].
Proof.
  intro H. rewrite send_header_eq. unfold buffered at 1. cbn [_headers_buffer].
  now rewrite H.
Qed.

Lemma send_response_only_buffered (c : HTTPStatus) (m : option string) (s : self) :
  (request_version (attr s) =? "HTTP/0.9") = false ->
  buffered (send_response_only c m s) =
  app (buffered s)
    [protocol_version ++ " " ++ Py.str (value c) ++ " " ++
     match m with Some m => m | None => fst (responses c) end ++ Py.CRLF].
Proof. intro H. unfold send_response_only. rewrite H. reflexivity. Qed.

(** [end_headers] of [server.py] in a program. *)
Lemma run_end_headers (w : world) :
  (request_version (attr (me w)) =? "HTTP/0.9") = false ->
  run SecurityHeaderHandler.end_headers o self_end_headers w =
  Returned tt
    {| me := {| attr := attr (me w); _headers_buffer := Some [] |};
       wfile := app (wfile w)
                  [Header_block (app (buffered (me w)) [coep_line; coop_line; Py.CRLF])];
       stderr := stderr w; ticks := ticks w; reads := reads w |}.
Proof.
  intro H. unfold self_end_headers. cbn [run].
  rewrite security_end_headers_eq, H. reflexivity.
Qed.

Lemma run_end_headers_plain (w : world) :
  (request_version (attr (me w)) =? "HTTP/0.9") = true ->
  run SecurityHeaderHandler.end_headers o self_end_headers w = Returned tt w.
Proof.
  intro H. unfold self_end_headers. cbn [run].
  rewrite security_end_headers_eq, H. destruct w. cbn [run wfile me stderr ticks reads].
  now rewrite app_nil_r.
Qed.

Lemma error_page_nonempty (code : nat) (m e : string) :
  (Py.utf8 (error_message code m e) =? "") = false.
Proof. reflexivity. Qed.

Ltac versions :=
  cbn [me attr];
  rewrite ?send_header_attr, ?connection_directive_version, ?send_response_only_attr;
  assumption.

Ltac fields := cbn [me wfile stderr ticks reads].

(** The lines of a header block, one after the other. *)
Ltac header_block :=
  fields;
  rewrite ?send_header_buffered by versions;
  rewrite ?send_response_only_buffered by versions;
  rewrite <- ?app_assoc;
  unfold error_content_type, protocol_version;
  cbn [app String.append value responses fst snd].

(** [send_error] with a page, for a request that is not in the HTTP/0.9
    form: the header block, and the page unless the command is HEAD. *)
Lemma run_send_error (c : HTTPStatus) (m : string) (w : world) :
  ((200 <=? value c)%nat &&
   negb (is_status c NO_CONTENT || is_status c RESET_CONTENT ||
         is_status c NOT_MODIFIED)) = true ->
  (request_version (attr (me w)) =? "HTTP/0.9") = false ->
  exists w',
    run SecurityHeaderHandler.end_headers o (send_error L client c (Some m) None) w =
      Returned tt w' /\
    wfile w' =
      app (wfile w)
        (Header_block
           (app (buffered (me w))
              ["HTTP/1.0 " ++ Py.str (value c) ++ " " ++ m ++ Py.CRLF;
               "Server: " ++ version_string L ++ Py.CRLF;
               "Date: " ++ formatdate L (clock o (S (S (ticks w)))) ++ Py.CRLF;
               "Connection: close" ++ Py.CRLF;
               "Content-Type: text/html;charset=utf-8" ++ Py.CRLF;
               "Content-Length: " ++
                 Py.str (String.length
                           (error_page (value c) m (snd (responses c)))) ++ Py.CRLF;
               coep_line; coop_line; Py.CRLF]) ::
         (if match command (attr (me w)) with
             | Some c => c =? "HEAD"
             | None => false
             end
          then []
          else [Body (error_page (value c) m (snd (responses c)))])) /\
    reads w' = reads w.
Proof.
  intros Hpage Hv. unfold send_error, log_error, error_page.
  destruct (responses c) as [shortmsg longmsg]. cbn [snd].
  rewrite Hpage.
  rewrite run_bind, run_log_message. cbv iota beta.
  rewrite run_bind, run_send_response. cbv iota beta. fields.
  rewrite run_Send_header. fields.
  rewrite run_bind, !run_Send_header, run_Ret. cbv iota beta. fields.
  rewrite run_bind, run_end_headers by versions. cbv iota beta. fields.
  rewrite run_bind, run_get. cbv iota beta. cbn [me attr].
  rewrite !send_header_attr, send_response_only_attr.
  rewrite !connection_directive_command.
  rewrite error_page_nonempty, andb_true_r.
  destruct (match command (attr (me w)) with Some c0 => c0 =? "HEAD" | None => false end);
    cbn [negb].
  - rewrite run_ret. eexists. split; [reflexivity|]. split; [|reflexivity].
    header_block. reflexivity.
  - rewrite run_wfile_write. eexists. split; [reflexivity|]. split; [|reflexivity].
    header_block. reflexivity.
Qed.

(** The same while the request is in the HTTP/0.9 form: the page and no
    header block. *)
Lemma run_send_error_plain (c : HTTPStatus) (m : string) (w : world) :
  ((200 <=? value c)%nat &&
   negb (is_status c NO_CONTENT || is_status c RESET_CONTENT ||
         is_status c NOT_MODIFIED)) = true ->
  (request_version (attr (me w)) =? "HTTP/0.9") = true ->
  exists w',
    run SecurityHeaderHandler.end_headers o (send_error L client c (Some m) None) w =
      Returned tt w' /\
    wfile w' =
      app (wfile w)
        (if match command (attr (me w)) with
            | Some c => c =? "HEAD"
            | None => false
            end
         then []
         else [Body (error_page (value c) m (snd (responses c)))]) /\
    reads w' = reads w.
Proof.
  intros Hpage Hv. unfold send_error, log_error, error_page.
  destruct (responses c) as [shortmsg longmsg]. cbn [snd].
  rewrite Hpage.
  rewrite run_bind, run_log_message. cbv iota beta.
  rewrite run_bind, run_send_response. cbv iota beta. fields.
  rewrite run_Send_header. fields.
  rewrite run_bind, !run_Send_header, run_Ret. cbv iota beta. fields.
  rewrite run_bind, run_end_headers_plain by versions. cbv iota beta.
  rewrite run_bind, run_get. cbv iota beta. cbn [me attr].
  rewrite !send_header_attr, send_response_only_attr.
  rewrite !connection_directive_command.
  rewrite error_page_nonempty, andb_true_r.
  destruct (match command (attr (me w)) with Some c0 => c0 =? "HEAD" | None => false end);
    cbn [negb].
  - rewrite run_ret. eexists. split; [reflexivity|]. split; [|reflexivity].
    cbn [wfile]. now rewrite app_nil_r.
  - rewrite run_wfile_write. eexists. split; [reflexivity|]. split; reflexivity.
Qed.




(** The same for a file that can be opened: 304 or 200. *)
Lemma run_send_file (path_ : string) (w : world) (f : file) :
  (request_version (attr (me w)) =? "HTTP/0.9") = false ->
  Py.endswith path_ "/" = false ->
  open_rb o path_ = Some f ->
  exists w',
    run SecurityHeaderHandler.end_headers o (send_file L client path_) w =
      Returned (if not_modified L (headers (attr (me w))) f then None
                else Some (contents f)) w' /\
    wfile w' =
      app (wfile w)
        [Header_block
           (app (buffered (me w))
              (if not_modified L (headers (attr (me w))) f then
                 ["HTTP/1.0 304 Not Modified" ++ Py.CRLF;
                  "Server: " ++ version_string L ++ Py.CRLF;
                  "Date: " ++ formatdate L (clock o (S (ticks w))) ++ Py.CRLF;
                  coep_line; coop_line; Py.CRLF]
               else
                 ["HTTP/1.0 200 OK" ++ Py.CRLF;
                  "Server: " ++ version_string L ++ Py.CRLF;
                  "Date: " ++ formatdate L (clock o (S (ticks w))) ++ Py.CRLF;
                  "Content-type: " ++ guess_type L path_ ++ Py.CRLF;
                  "Content-Length: " ++ Py.str (st_size f) ++ Py.CRLF;
                  "Last-Modified: " ++ formatdate L (st_mtime f) ++ Py.CRLF;
                  coep_line; coop_line; Py.CRLF]))] /\
    reads w' = app (reads w) [path_].
Proof.
  intros Hv Hslash Hopen. unfold send_file.
  rewrite Hslash, run_Open, Hopen. rewrite run_bind, run_get. cbv iota beta.
  cbn [me attr].
  destruct (not_modified L (headers (attr (me w))) f).
  - rewrite run_bind, run_send_response. cbv iota beta.
    rewrite run_bind, run_end_headers by versions. cbv iota beta. rewrite run_ret.
    eexists. split; [reflexivity|]. split; [|reflexivity].
    header_block. reflexivity.
  - rewrite run_bind, run_send_response. cbv iota beta.
    rewrite !run_Send_header. fields.
    rewrite run_bind, run_end_headers by versions. cbv iota beta. rewrite run_ret.
    eexists. split; [reflexivity|]. split; [|reflexivity].
    header_block. reflexivity.
Qed.

(** The same for a request in the HTTP/0.9 form: nothing is written before
    the contents. *)
Lemma run_send_file_plain (path_ : string) (w : world) (f : file) :
  (request_version (attr (me w)) =? "HTTP/0.9") = true ->
  Py.endswith path_ "/" = false ->
  open_rb o path_ = Some f ->
  exists w',
    run SecurityHeaderHandler.end_headers o (send_file L client path_) w =
      Returned (if not_modified L (headers (attr (me w))) f then None
                else Some (contents f)) w' /\
    wfile w' = wfile w /\
    reads w' = app (reads w) [path_].
Proof.
  intros Hv Hslash Hopen. unfold send_file.
  rewrite Hslash, run_Open, Hopen. rewrite run_bind, run_get. cbv iota beta.
  cbn [me attr].
  destruct (not_modified L (headers (attr (me w))) f).
  - rewrite run_bind, run_send_response. cbv iota beta.
    rewrite run_bind, run_end_headers_plain by versions. cbv iota beta. rewrite run_ret.
    eexists. split; [reflexivity|]. split; reflexivity.
  - rewrite run_bind, run_send_response. cbv iota beta.
    rewrite !run_Send_header. fields.
    rewrite run_bind, run_end_headers_plain by versions. cbv iota beta. rewrite run_ret.
    eexists. split; [reflexivity|]. split; reflexivity.
Qed.

(** [send_head] for a name that is not a directory. *)
Lemma run_send_head_not_directory (eh : method) (w : world) :
  isdir o (translate_path L root (path (attr (me w)))) = false ->
  run eh o (send_head L root client) w =
  run eh o (send_file L client (translate_path L root (path (attr (me w))))) w.
Proof.
  intro Hdir. unfold send_head.
  rewrite run_bind, run_get. cbv iota beta zeta. now rewrite run_Isdir, Hdir.
Qed.

(** [send_head] for a directory that holds [index.html]. *)
Lemma run_send_head_index (eh : method) (w : world) :
  isdir o (translate_path L root (path (attr (me w)))) = true ->
  Py.endswith (upath (urlsplit L (path (attr (me w))))) "/" = true ->
  isfile o (Py.path_join (translate_path L root (path (attr (me w)))) "index.html") =
    true ->
  run eh o (send_head L root client) w =
  run eh o
    (send_file L client
       (Py.path_join (translate_path L root (path (attr (me w)))) "index.html")) w.
Proof.
  intros Hdir Hslash Hindex. unfold send_head.
  rewrite run_bind, run_get. cbv iota beta zeta. rewrite run_Isdir, Hdir, Hslash.
  cbn [negb]. now rewrite run_Isfile, Hindex.
Qed.

(** [send_head] for a directory whose path in the request has no slash at
    its end: the redirect. *)
Lemma run_send_head_moved (w : world) :
  (request_version (attr (me w)) =? "HTTP/0.9") = false ->
  isdir o (translate_path L root (path (attr (me w)))) = true ->
  Py.endswith (upath (urlsplit L (path (attr (me w))))) "/" = false ->
  exists w',
    run SecurityHeaderHandler.end_headers o (send_head L root client) w =
      Returned None w' /\
    wfile w' =
      app (wfile w)
        [Header_block
           (app (buffered (me w))
              ["HTTP/1.0 301 Moved Permanently" ++ Py.CRLF;
               "Server: " ++ version_string L ++ Py.CRLF;
               "Date: " ++ formatdate L (clock o (S (ticks w))) ++ Py.CRLF;
               "Location: " ++
                 urlunsplit L
                   {| scheme := scheme (urlsplit L (path (attr (me w))));
                      netloc := netloc (urlsplit L (path (attr (me w))));
                      upath := upath (urlsplit L (path (attr (me w)))) ++ "/";
                      query := query (urlsplit L (path (attr (me w))));
                      fragment := fragment (urlsplit L (path (attr (me w)))) |} ++
                 Py.CRLF;
               "Content-Length: 0" ++ Py.CRLF;
               coep_line; coop_line; Py.CRLF])] /\
    reads w' = reads w.
Proof.
  intros Hv Hdir Hslash. unfold send_head.
  rewrite run_bind, run_get. cbv iota beta zeta. rewrite run_Isdir, Hdir, Hslash.
  cbn [negb].
  rewrite run_bind, run_send_response. cbv iota beta.
  rewrite !run_Send_header. fields.
  rewrite run_bind, run_end_headers by versions. cbv iota beta. rewrite run_ret.
  eexists. split; [reflexivity|]. split; [|reflexivity].
  header_block. reflexivity.
Qed.

(** A request line of two words, the first of them GET, is parsed into a
    request in the HTTP/0.9 form. *)
Lemma run_parse_request_plain (eh : method) (r : request) (w : world) (p : string)
    (hs : list (string * string)) :
  Py.split_ws (Py.rstrip_crlf (raw_requestline r)) = ["GET"; p] ->
  following r = Parsed hs ->
  run eh o (parse_request L client r) w =
  Returned true
    {| me := {| attr := {| command := Some "GET"; path := stored_path p;
                           request_version := "HTTP/0.9";
                           requestline := Py.rstrip_crlf (raw_requestline r);
                           headers := hs; close_connection := true |};
                _headers_buffer := _headers_buffer (me w) |};
       wfile := wfile w; stderr := stderr w; ticks := ticks w; reads := reads w |}.
Proof.
  intros Hwords Hhs.
  unfold parse_request. rewrite Hwords.
  cbn [run bind modify ret get me attr wfile stderr ticks reads _headers_buffer].
  cbn [length Nat.eqb Nat.leb negb andb nth]. unfold parse_version.
  cbn [length Nat.leb]. cbn [String.eqb Ascii.eqb Bool.eqb negb andb].
  cbn [run bind modify ret get me attr wfile stderr ticks reads _headers_buffer].
  unfold parse_headers_and_directives. rewrite Hhs.
  unfold stored_path.
  change (Py.ge protocol_version "HTTP/1.1") with false.
  destruct (Py.startswith p "//");
    cbn [run bind modify ret get me attr wfile stderr ticks reads _headers_buffer];
    rewrite !andb_false_r;
    destruct (Py.lower (header_get "Connection" "" hs) =? "close");
    cbn [run bind modify ret get me attr wfile stderr ticks reads _headers_buffer];
    reflexivity.
Qed.

(** A request line whose version word is not accepted is answered before
    the version is taken over: in the HTTP/0.9 form. *)
Lemma run_parse_request_version_error (r : request) (w : world) (code : HTTPStatus)
    (msg : string) :
  (3 <= length (Py.split_ws (Py.rstrip_crlf (raw_requestline r))))%nat ->
  version_error L (last (Py.split_ws (Py.rstrip_crlf (raw_requestline r))) "") =
    Some (code, msg) ->
  exists w',
    run SecurityHeaderHandler.end_headers o (parse_request L client r) w =
      Returned false w' /\
    wfile w' =
      app (wfile w) [Body (error_page (value code) msg (snd (responses code)))] /\
    reads w' = reads w.
Proof.
  intros Hlen Herr. unfold parse_request.
  rewrite run_bind, run_modify. cbv iota beta.
  rewrite run_bind, run_modify. cbv iota beta.
  rewrite run_bind, run_modify. cbv iota beta.
  rewrite run_bind, run_modify. cbv iota beta.
  cbn [me attr wfile stderr ticks reads _headers_buffer].
  cbv zeta.
  destruct (length (Py.split_ws (Py.rstrip_crlf (raw_requestline r))) =? 0)%nat eqn:H0.
  { apply Nat.eqb_eq in H0. lia. }
  unfold parse_version. apply Nat.leb_le in Hlen. rewrite Hlen.
  unfold version_error in Herr.
  destruct (version_number L
              (last (Py.split_ws (Py.rstrip_crlf (raw_requestline r))) ""))
    as [[[major minor] base]|].
  - destruct (tuple_ge (major, minor) (2, 0)%Z); [|discriminate].
    injection Herr as <- <-.
    change (Py.ge protocol_version "HTTP/1.1") with false. rewrite andb_false_r.
    rewrite run_bind, run_ret. cbv iota beta.
    match goal with |- context [run _ _ _ ?w1] =>
      destruct (run_send_error_plain HTTP_VERSION_NOT_SUPPORTED
                  ("Invalid HTTP version (" ++ base ++ ")") w1)
        as (w' & Hrun & Hw & Hr); [reflexivity|reflexivity|] end.
    rewrite run_bind, Hrun. cbv iota beta. rewrite run_ret.
    exists w'. split; [reflexivity|]. split; [exact Hw|exact Hr].
  - injection Herr as <- <-.
    match goal with |- context [run _ _ _ ?w1] =>
      destruct (run_send_error_plain BAD_REQUEST
                  ("Bad request version (" ++
                   repr L (last (Py.split_ws (Py.rstrip_crlf (raw_requestline r))) "") ++
                   ")") w1)
        as (w' & Hrun & Hw & Hr); [reflexivity|reflexivity|] end.
    rewrite run_bind, Hrun. cbv iota beta. rewrite run_ret.
    exists w'. split; [reflexivity|]. split; [exact Hw|exact Hr].
Qed.

End Answers.

(** A request line of three words with an accepted version, read by a new
    instance: the request is parsed and handed to the method of its
    command. *)
Ltac accepted Hwords Hlen :=
  unfold serve_one, handle_one_request;
  apply N.ltb_ge in Hlen; rewrite Hlen;
  let Hraw := fresh "Hraw" in
  destruct (raw_requestline _ =? "") eqn:Hraw;
  [apply String.eqb_eq in Hraw; rewrite Hraw in Hwords; discriminate|];
  rewrite run_bind;
  erewrite run_parse_request by eassumption;
  cbv iota beta; cbn [negb]; rewrite run_bind, run_get; cbv iota beta;
  cbn [me attr command].

Ltac at_new_world H :=
  cbn [me attr path headers command buffered _headers_buffer new_world new_self wfile
       ticks reads app] in H.



(** X7. A request with a command other than GET and HEAD (POST, PUT,
    DELETE, ...) is answered 501 with the two security headers and the error
    page; nothing is opened or listed for it. *)
Theorem other_methods_are_refused :
  forall (L : Library) (root client : string) (o : os) (r : request)
         (log : list string) (t : nat) (c p v : string) (major minor : Z)
         (base : string) (hs : list (string * string)),
    Py.split_ws (Py.rstrip_crlf (raw_requestline r)) = [c; p; v] ->
    (N.of_nat (String.length (raw_requestline r)) <= 65536)%N ->
    version_number L v = Some (major, minor, base) ->
    tuple_ge (major, minor) (2, 0)%Z = false ->
    v <> "HTTP/0.9" ->
    following r = Parsed hs ->
    c <> "GET" -> c <> "HEAD" ->
    exists w,
      serve_one SecurityHeaderHandler.end_headers L root client o r log t =
        Returned tt w /\
      wfile w =
        [Header_block
           ["HTTP/1.0 501 " ++ ("Unsupported method (" ++ repr L c ++ ")") ++ Py.CRLF;
            "Server: " ++ version_string L ++ Py.CRLF;
            "Date: " ++ formatdate L (clock o (S (S t))) ++ Py.CRLF;
            "Connection: close" ++ Py.CRLF;
            "Content-Type: text/html;charset=utf-8" ++ Py.CRLF;
            "Content-Length: " ++
              Py.str (String.length
                        (error_page 501 ("Unsupported method (" ++ repr L c ++ ")")
                           "Server does not support this operation")) ++ Py.CRLF;
            coep_line; coop_line; Py.CRLF];
         Body (error_page 501 ("Unsupported method (" ++ repr L c ++ ")")
                 "Server does not support this operation")] /\
      reads w = [].
Proof.
  intros L root client o r log t c p v major minor base hs
         Hwords Hlen Hv Hlt H09 Hhs Hget Hhead.
  apply eqb_false_of_neq in H09, Hget, Hhead.
  accepted Hwords Hlen. rewrite Hget, Hhead.
  match goal with |- context [run _ _ _ ?w0] =>
    destruct (run_send_error L client o NOT_IMPLEMENTED
                ("Unsupported method (" ++ repr L c ++ ")") w0)
      as (w & Hrun & Hw & Hr); [reflexivity|exact H09|] end.
  at_new_world Hw. at_new_world Hr. cbn [value responses snd] in Hw.
  rewrite Hhead in Hw.
  exists w. split; [exact Hrun|]. split; [|exact Hr].
  rewrite Hw. change (Py.str 501) with "501". cbn [String.append]. reflexivity.
Qed.

Lemma other_methods_are_refused_witness :
  exists w,
    serve_one SecurityHeaderHandler.end_headers Sample.example_library "/srv/www"
      "127.0.0.1" Sample.example_os (Sample.request_of "POST /index.html HTTP/1.1")
      [] 0 = Returned tt w /\
    wfile w =
      [Header_block
         ["HTTP/1.0 501 " ++
            ("Unsupported method (" ++ repr Sample.example_library "POST" ++ ")") ++
            Py.CRLF;
          "Server: " ++ version_string Sample.example_library ++ Py.CRLF;
          "Date: " ++ formatdate Sample.example_library
                        (clock Sample.example_os 2) ++ Py.CRLF;
          "Connection: close" ++ Py.CRLF;
          "Content-Type: text/html;charset=utf-8" ++ Py.CRLF;
          "Content-Length: " ++
            Py.str (String.length
                      (error_page 501
                         ("Unsupported method (" ++
                          repr Sample.example_library "POST" ++ ")")
                         "Server does not support this operation")) ++ Py.CRLF;
          coep_line; coop_line; Py.CRLF];
       Body (error_page 501
               ("Unsupported method (" ++ repr Sample.example_library "POST" ++ ")")
               "Server does not support this operation")] /\
    reads w = [].
Proof.
  apply (other_methods_are_refused Sample.example_library
           "/srv/www" "127.0.0.1" Sample.example_os
           (Sample.request_of "POST /index.html HTTP/1.1") [] 0
           "POST" "/index.html" "HTTP/1.1" 1%Z 1%Z "1.1" [("Host", "localhost:3000")]).
  - reflexivity.
  - vm_compute. discriminate.
  - reflexivity.
  - reflexivity.
  - discriminate.
  - reflexivity.
  - discriminate.
  - discriminate.
Defined.

(** X8. A GET or HEAD request for a directory whose path has no slash at
    its end is redirected: status 301, [Location] with the slash added,
    [Content-Length: 0], the two security headers; no body, and nothing is
    opened or listed. *)
Theorem directory_without_slash_is_redirected :
  forall (L : Library) (root client : string) (o : os) (r : request)
         (log : list string) (t : nat) (c p v : string) (major minor : Z)
         (base : string) (hs : list (string * string)),
    Py.split_ws (Py.rstrip_crlf (raw_requestline r)) = [c; p; v] ->
    (N.of_nat (String.length (raw_requestline r)) <= 65536)%N ->
    version_number L v = Some (major, minor, base) ->
    tuple_ge (major, minor) (2, 0)%Z = false ->
    v <> "HTTP/0.9" ->
    following r = Parsed hs ->
    c = "GET" \/ c = "HEAD" ->
    isdir o (translate_path L root (stored_path p)) = true ->
    Py.endswith (upath (urlsplit L (stored_path p))) "/" = false ->
    exists w,
      serve_one SecurityHeaderHandler.end_headers L root client o r log t =
        Returned tt w /\
      wfile w =
        [Header_block
           ["HTTP/1.0 301 Moved Permanently" ++ Py.CRLF;
            "Server: " ++ version_string L ++ Py.CRLF;
            "Date: " ++ formatdate L (clock o (S t)) ++ Py.CRLF;
            "Location: " ++
              urlunsplit L
                {| scheme := scheme (urlsplit L (stored_path p));
                   netloc := netloc (urlsplit L (stored_path p));
                   upath := upath (urlsplit L (stored_path p)) ++ "/";
                   query := query (urlsplit L (stored_path p));
                   fragment := fragment (urlsplit L (stored_path p)) |} ++ Py.CRLF;
            "Content-Length: 0" ++ Py.CRLF;
            coep_line; coop_line; Py.CRLF]] /\
      reads w = [].
Proof.
  intros L root client o r log t c p v major minor base hs
         Hwords Hlen Hv Hlt H09 Hhs Hc Hdir Hslash.
  apply eqb_false_of_neq in H09.
  accepted Hwords Hlen.
  match goal with |- context [run _ _ _ ?w0] =>
    destruct (run_send_head_moved L root client o w0) as (w & Hrun & Hw & Hr);
      [exact H09|exact Hdir|exact Hslash|] end.
  at_new_world Hw. at_new_world Hr.
  destruct Hc as [-> | ->]; cbn [String.eqb Ascii.eqb Bool.eqb] in *;
    unfold do_GET, do_HEAD; rewrite run_bind, Hrun; cbv iota beta; rewrite run_ret;
    exists w; (split; [reflexivity|]); split; assumption.
Qed.

Lemma directory_without_slash_is_redirected_witness :
  isdir Sample.example_os
    (translate_path Sample.example_library "/srv/www" (stored_path "/static")) = true /\
  exists w,
    serve_one SecurityHeaderHandler.end_headers Sample.example_library "/srv/www"
      "127.0.0.1" Sample.example_os (Sample.request_of "GET /static HTTP/1.1")
      [] 0 = Returned tt w /\
    wfile w =
      [Header_block
         ["HTTP/1.0 301 Moved Permanently" ++ Py.CRLF;
          "Server: " ++ version_string Sample.example_library ++ Py.CRLF;
          "Date: " ++ formatdate Sample.example_library
                        (clock Sample.example_os 1) ++ Py.CRLF;
          "Location: " ++
            urlunsplit Sample.example_library
              {| scheme := scheme (urlsplit Sample.example_library
                                     (stored_path "/static"));
                 netloc := netloc (urlsplit Sample.example_library
                                     (stored_path "/static"));
                 upath := upath (urlsplit Sample.example_library
                                   (stored_path "/static")) ++ "/";
                 query := query (urlsplit Sample.example_library
                                   (stored_path "/static"));
                 fragment := fragment (urlsplit Sample.example_library
                                         (stored_path "/static")) |} ++ Py.CRLF;
          "Content-Length: 0" ++ Py.CRLF;
          coep_line; coop_line; Py.CRLF]] /\
    reads w = [].
Proof.
  split; [reflexivity|].
  apply (directory_without_slash_is_redirected Sample.example_library
           "/srv/www" "127.0.0.1" Sample.example_os
           (Sample.request_of "GET /static HTTP/1.1") [] 0
           "GET" "/static" "HTTP/1.1" 1%Z 1%Z "1.1" [("Host", "localhost:3000")]).
  - reflexivity.
  - vm_compute. discriminate.
  - reflexivity.
  - reflexivity.
  - discriminate.
  - reflexivity.
  - left. reflexivity.
  - reflexivity.
  - reflexivity.
Defined.

(** X9. A HEAD request for a file that can be opened is answered with the
    header block a GET request gets (status 200, type, length and date of
    the file, the two security headers) and nothing after it. *)
Theorem head_of_file_is_answered_without_body :
  forall (L : Library) (root client : string) (o : os) (r : request)
         (log : list string) (t : nat) (p v : string) (major minor : Z)
         (base : string) (hs : list (string * string)) (f : file),
    Py.split_ws (Py.rstrip_crlf (raw_requestline r)) = ["HEAD"; p; v] ->
    (N.of_nat (String.length (raw_requestline r)) <= 65536)%N ->
    version_number L v = Some (major, minor, base) ->
    tuple_ge (major, minor) (2, 0)%Z = false ->
    v <> "HTTP/0.9" ->
    following r = Parsed hs ->
    isdir o (translate_path L root (stored_path p)) = false ->
    Py.endswith (translate_path L root (stored_path p)) "/" = false ->
    open_rb o (translate_path L root (stored_path p)) = Some f ->
    not_modified L hs f = false ->
    exists w,
      serve_one SecurityHeaderHandler.end_headers L root client o r log t =
        Returned tt w /\
      wfile w =
        [Header_block
           ["HTTP/1.0 200 OK" ++ Py.CRLF;
            "Server: " ++ version_string L ++ Py.CRLF;
            "Date: " ++ formatdate L (clock o (S t)) ++ Py.CRLF;
            "Content-type: " ++
              guess_type L (translate_path L root (stored_path p)) ++ Py.CRLF;
            "Content-Length: " ++ Py.str (st_size f) ++ Py.CRLF;
            "Last-Modified: " ++ formatdate L (st_mtime f) ++ Py.CRLF;
            coep_line; coop_line; Py.CRLF]].
Proof.
  intros L root client o r log t p v major minor base hs f
         Hwords Hlen Hv Hlt H09 Hhs Hdir Hslash Hopen Hmod.
  apply eqb_false_of_neq in H09.
  accepted Hwords Hlen.
  match goal with |- context [run _ _ _ ?w0] =>
    destruct (run_send_file L client o (translate_path L root (stored_path p)) w0 f)
      as (w & Hrun & Hw & _); [exact H09|exact Hslash|exact Hopen|];
    rewrite <- (run_send_head_not_directory L root client o _ w0 Hdir) in Hrun end.
  at_new_world Hw. rewrite Hmod in Hw.
  cbn [String.eqb Ascii.eqb Bool.eqb].
  unfold do_HEAD. rewrite run_bind, Hrun. cbv iota beta. rewrite run_ret.
  exists w. split; [reflexivity|exact Hw].
Qed.

Lemma head_of_file_is_answered_without_body_witness :
  open_rb Sample.example_os
    (translate_path Sample.example_library "/srv/www" (stored_path "/index.html")) =
    Some Sample.index_html /\
  exists w,
    serve_one SecurityHeaderHandler.end_headers Sample.example_library "/srv/www"
      "127.0.0.1" Sample.example_os (Sample.request_of "HEAD /index.html HTTP/1.1")
      [] 0 = Returned tt w /\
    wfile w =
      [Header_block
         ["HTTP/1.0 200 OK" ++ Py.CRLF;
          "Server: " ++ version_string Sample.example_library ++ Py.CRLF;
          "Date: " ++ formatdate Sample.example_library
                        (clock Sample.example_os 1) ++ Py.CRLF;
          "Content-type: " ++
            guess_type Sample.example_library
              (translate_path Sample.example_library "/srv/www"
                 (stored_path "/index.html")) ++ Py.CRLF;
          "Content-Length: " ++ Py.str (st_size Sample.index_html) ++ Py.CRLF;
          "Last-Modified: " ++
            formatdate Sample.example_library (st_mtime Sample.index_html) ++ Py.CRLF;
          coep_line; coop_line; Py.CRLF]].
Proof.
  split; [reflexivity|].
  apply (head_of_file_is_answered_without_body Sample.example_library
           "/srv/www" "127.0.0.1" Sample.example_os
           (Sample.request_of "HEAD /index.html HTTP/1.1") [] 0
           "/index.html" "HTTP/1.1" 1%Z 1%Z "1.1" [("Host", "localhost:3000")]
           Sample.index_html).
  - reflexivity.
  - vm_compute. discriminate.
  - reflexivity.
  - reflexivity.
  - discriminate.
  - reflexivity.
  - reflexivity.
  - reflexivity.
  - reflexivity.
  - reflexivity.
Defined.

(** X10. A GET or HEAD request with [If-Modified-Since] for a file that
    was not modified since is answered 304: a header block of the status
    line, [Server], [Date] and the two security headers, and no body. *)
Theorem unchanged_file_is_answered_304 :
  forall (L : Library) (root client : string) (o : os) (r : request)
         (log : list string) (t : nat) (c p v : string) (major minor : Z)
         (base : string) (hs : list (string * string)) (f : file),
    Py.split_ws (Py.rstrip_crlf (raw_requestline r)) = [c; p; v] ->
    (N.of_nat (String.length (raw_requestline r)) <= 65536)%N ->
    version_number L v = Some (major, minor, base) ->
    tuple_ge (major, minor) (2, 0)%Z = false ->
    v <> "HTTP/0.9" ->
    following r = Parsed hs ->
    c = "GET" \/ c = "HEAD" ->
    isdir o (translate_path L root (stored_path p)) = false ->
    Py.endswith (translate_path L root (stored_path p)) "/" = false ->
    open_rb o (translate_path L root (stored_path p)) = Some f ->
    not_modified L hs f = true ->
    exists w,
      serve_one SecurityHeaderHandler.end_headers L root client o r log t =
        Returned tt w /\
      wfile w =
        [Header_block
           ["HTTP/1.0 304 Not Modified" ++ Py.CRLF;
            "Server: " ++ version_string L ++ Py.CRLF;
            "Date: " ++ formatdate L (clock o (S t)) ++ Py.CRLF;
            coep_line; coop_line; Py.CRLF]].
Proof.
  intros L root client o r log t c p v major minor base hs f
         Hwords Hlen Hv Hlt H09 Hhs Hc Hdir Hslash Hopen Hmod.
  apply eqb_false_of_neq in H09.
  accepted Hwords Hlen.
  match goal with |- context [run _ _ _ ?w0] =>
    destruct (run_send_file L client o (translate_path L root (stored_path p)) w0 f)
      as (w & Hrun & Hw & _); [exact H09|exact Hslash|exact Hopen|];
    rewrite <- (run_send_head_not_directory L root client o _ w0 Hdir) in Hrun end.
  at_new_world Hw. rewrite Hmod in Hw.
  destruct Hc as [-> | ->]; cbn [String.eqb Ascii.eqb Bool.eqb] in *;
    unfold do_GET, do_HEAD; rewrite run_bind, Hrun; cbn [me attr headers];
    rewrite ?Hmod; cbv iota beta; rewrite run_ret;
    exists w; (split; [reflexivity|exact Hw]).
Qed.

Lemma unchanged_file_is_answered_304_witness :
  not_modified library_with_dates
    [("Host", "localhost:3000");
     ("If-Modified-Since", "Fri, 02 Jan 1970 00:00:00 GMT")] Sample.index_html = true /\
  exists w,
    serve_one SecurityHeaderHandler.end_headers library_with_dates "/srv/www"
      "127.0.0.1" Sample.example_os conditional_request [] 0 = Returned tt w /\
    wfile w =
      [Header_block
         ["HTTP/1.0 304 Not Modified" ++ Py.CRLF;
          "Server: " ++ version_string library_with_dates ++ Py.CRLF;
          "Date: " ++ formatdate library_with_dates
                        (clock Sample.example_os 1) ++ Py.CRLF;
          coep_line; coop_line; Py.CRLF]].
Proof.
  split; [reflexivity|].
  apply (unchanged_file_is_answered_304 library_with_dates
           "/srv/www" "127.0.0.1" Sample.example_os conditional_request [] 0
           "GET" "/index.html" "HTTP/1.1" 1%Z 1%Z "1.1"
           [("Host", "localhost:3000");
            ("If-Modified-Since", "Fri, 02 Jan 1970 00:00:00 GMT")]
           Sample.index_html).
  - reflexivity.
  - vm_compute. discriminate.
  - reflexivity.
  - reflexivity.
  - discriminate.
  - reflexivity.
  - left. reflexivity.
  - reflexivity.
  - reflexivity.
  - reflexivity.
  - reflexivity.
Defined.

(** X11. A GET request for a directory, with the slash at the end of its
    path, is answered with the file [index.html] of that directory when
    there is one: status 200, the headers of that file, the two security
    headers, and its contents. *)
Theorem directory_is_answered_with_its_index :
  forall (L : Library) (root client : string) (o : os) (r : request)
         (log : list string) (t : nat) (p v : string) (major minor : Z)
         (base : string) (hs : list (string * string)) (f : file),
    Py.split_ws (Py.rstrip_crlf (raw_requestline r)) = ["GET"; p; v] ->
    (N.of_nat (String.length (raw_requestline r)) <= 65536)%N ->
    version_number L v = Some (major, minor, base) ->
    tuple_ge (major, minor) (2, 0)%Z = false ->
    v <> "HTTP/0.9" ->
    following r = Parsed hs ->
    isdir o (translate_path L root (stored_path p)) = true ->
    Py.endswith (upath (urlsplit L (stored_path p))) "/" = true ->
    isfile o (Py.path_join (translate_path L root (stored_path p)) "index.html") =
      true ->
    open_rb o (Py.path_join (translate_path L root (stored_path p)) "index.html") =
      Some f ->
    not_modified L hs f = false ->
    contents f <> "" ->
    exists w,
      serve_one SecurityHeaderHandler.end_headers L root client o r log t =
        Returned tt w /\
      wfile w =
        [Header_block
           ["HTTP/1.0 200 OK" ++ Py.CRLF;
            "Server: " ++ version_string L ++ Py.CRLF;
            "Date: " ++ formatdate L (clock o (S t)) ++ Py.CRLF;
            "Content-type: " ++
              guess_type L
                (Py.path_join (translate_path L root (stored_path p)) "index.html") ++
              Py.CRLF;
            "Content-Length: " ++ Py.str (st_size f) ++ Py.CRLF;
            "Last-Modified: " ++ formatdate L (st_mtime f) ++ Py.CRLF;
            coep_line; coop_line; Py.CRLF];
         Body (contents f)] /\
      reads w = [Py.path_join (translate_path L root (stored_path p)) "index.html"].
Proof.
  intros L root client o r log t p v major minor base hs f
         Hwords Hlen Hv Hlt H09 Hhs Hdir Hslash Hindex Hopen Hmod Hdata.
  apply eqb_false_of_neq in H09, Hdata.
  accepted Hwords Hlen.
  match goal with |- context [run _ _ _ ?w0] =>
    destruct (run_send_file L client o
                (Py.path_join (translate_path L root (stored_path p)) "index.html")
                w0 f)
      as (w & Hrun & Hw & Hr);
      [exact H09|apply index_has_no_slash|exact Hopen|];
    rewrite <- (run_send_head_index L root client o _ w0 Hdir Hslash Hindex) in Hrun
  end.
  at_new_world Hw. at_new_world Hr. rewrite Hmod in Hw.
  cbn [String.eqb Ascii.eqb Bool.eqb].
  unfold do_GET. rewrite run_bind, Hrun. cbn [me attr headers]. rewrite Hmod.
  cbv iota beta. unfold copyfile. rewrite Hdata, run_wfile_write.
  eexists. split; [reflexivity|]. cbn [wfile reads]. rewrite Hw, Hr.
  split; reflexivity.
Qed.

Lemma directory_is_answered_with_its_index_witness :
  isdir Sample.example_os
    (translate_path Sample.example_library "/srv/www" (stored_path "/")) = true /\
  exists w,
    serve_one SecurityHeaderHandler.end_headers Sample.example_library "/srv/www"
      "127.0.0.1" Sample.example_os (Sample.request_of "GET / HTTP/1.1")
      [] 0 = Returned tt w /\
    wfile w =
      [Header_block
         ["HTTP/1.0 200 OK" ++ Py.CRLF;
          "Server: " ++ version_string Sample.example_library ++ Py.CRLF;
          "Date: " ++ formatdate Sample.example_library
                        (clock Sample.example_os 1) ++ Py.CRLF;
          "Content-type: " ++
            guess_type Sample.example_library
              (Py.path_join
                 (translate_path Sample.example_library "/srv/www" (stored_path "/"))
                 "index.html") ++ Py.CRLF;
          "Content-Length: " ++ Py.str (st_size Sample.index_html) ++ Py.CRLF;
          "Last-Modified: " ++
            formatdate Sample.example_library (st_mtime Sample.index_html) ++ Py.CRLF;
          coep_line; coop_line; Py.CRLF];
       Body (contents Sample.index_html)] /\
    reads w =
      [Py.path_join
         (translate_path Sample.example_library "/srv/www" (stored_path "/"))
         "index.html"].
Proof.
  split; [reflexivity|].
  apply (directory_is_answered_with_its_index Sample.example_library
           "/srv/www" "127.0.0.1" Sample.example_os
           (Sample.request_of "GET / HTTP/1.1") [] 0
           "/" "HTTP/1.1" 1%Z 1%Z "1.1" [("Host", "localhost:3000")]
           Sample.index_html).
  - reflexivity.
  - vm_compute. discriminate.
  - reflexivity.
  - reflexivity.
  - discriminate.
  - reflexivity.
  - reflexivity.
  - reflexivity.
  - reflexivity.
  - reflexivity.
  - reflexivity.
  - discriminate.
Defined.

(** X12. A request line of the two words [GET] and a path, without a
    version word, is answered in the HTTP/0.9 form: for a file that can be
    opened the reply is the contents of the file and nothing else, without
    status line and without any header, the two security headers
    included. *)
Theorem request_without_version_is_answered_without_headers :
  forall (L : Library) (root client : string) (o : os) (r : request)
         (log : list string) (t : nat) (p : string)
         (hs : list (string * string)) (f : file),
    Py.split_ws (Py.rstrip_crlf (raw_requestline r)) = ["GET"; p] ->
    (N.of_nat (String.length (raw_requestline r)) <= 65536)%N ->
    following r = Parsed hs ->
    isdir o (translate_path L root (stored_path p)) = false ->
    Py.endswith (translate_path L root (stored_path p)) "/" = false ->
    open_rb o (translate_path L root (stored_path p)) = Some f ->
    not_modified L hs f = false ->
    contents f <> "" ->
    exists w,
      serve_one SecurityHeaderHandler.end_headers L root client o r log t =
        Returned tt w /\
      wfile w = [Body (contents f)].
Proof.
  intros L root client o r log t p hs f
         Hwords Hlen Hhs Hdir Hslash Hopen Hmod Hdata.
  unfold serve_one, handle_one_request.
  apply N.ltb_ge in Hlen. rewrite Hlen.
  destruct (raw_requestline r =? "") eqn:Hraw.
  { apply String.eqb_eq in Hraw. rewrite Hraw in Hwords. discriminate. }
  rewrite run_bind.
  rewrite (run_parse_request_plain L client o _ r _ p hs) by assumption.
  cbv iota beta. cbn [negb]. rewrite run_bind, run_get. cbv iota beta.
  cbn [me attr command]. cbn [String.eqb Ascii.eqb Bool.eqb].
  match goal with |- context [run _ _ _ ?w0] =>
    destruct (run_send_file_plain L client o (translate_path L root (stored_path p))
                w0 f)
      as (w & Hrun & Hw & _); [reflexivity|exact Hslash|exact Hopen|];
    rewrite <- (run_send_head_not_directory L root client o _ w0 Hdir) in Hrun end.
  cbn [me new_world wfile] in Hw.
  unfold do_GET. rewrite run_bind, Hrun. cbn [me attr headers]. rewrite Hmod.
  cbv iota beta.
  unfold copyfile. apply eqb_false_of_neq in Hdata. rewrite Hdata.
  rewrite run_wfile_write. eexists. split; [reflexivity|].
  cbn [wfile]. rewrite Hw. reflexivity.
Qed.

Lemma request_without_version_is_answered_without_headers_witness :
  open_rb Sample.example_os
    (translate_path Sample.example_library "/srv/www" (stored_path "/index.html")) =
    Some Sample.index_html /\
  exists w,
    serve_one SecurityHeaderHandler.end_headers Sample.example_library "/srv/www"
      "127.0.0.1" Sample.example_os (Sample.request_of "GET /index.html")
      [] 0 = Returned tt w /\
    wfile w = [Body (contents Sample.index_html)].
Proof.
  split; [reflexivity|].
  apply (request_without_version_is_answered_without_headers Sample.example_library
           "/srv/www" "127.0.0.1" Sample.example_os
           (Sample.request_of "GET /index.html") [] 0
           "/index.html" [("Host", "localhost:3000")] Sample.index_html).
  - reflexivity.
  - vm_compute. discriminate.
  - reflexivity.
  - reflexivity.
  - reflexivity.
  - reflexivity.
  - reflexivity.
  - discriminate.
Defined.

(** X13. A request line of three words or more whose version word is not
    accepted (it is not of the form [HTTP/x.y], or its major version is 2 or
    more) is answered in the HTTP/0.9 form: the reply is the page of the
    error 400 or 505 and nothing else, without status line and without the
    two security headers; nothing is opened or listed. *)
Theorem unaccepted_version_is_answered_without_headers :
  forall (L : Library) (root client : string) (o : os) (r : request)
         (log : list string) (t : nat) (code : HTTPStatus) (msg : string),
    (3 <= length (Py.split_ws (Py.rstrip_crlf (raw_requestline r))))%nat ->
    (N.of_nat (String.length (raw_requestline r)) <= 65536)%N ->
    version_error L (last (Py.split_ws (Py.rstrip_crlf (raw_requestline r))) "") =
      Some (code, msg) ->
    exists w,
      serve_one SecurityHeaderHandler.end_headers L root client o r log t =
        Returned tt w /\
      wfile w = [Body (error_page (value code) msg (snd (responses code)))] /\
      reads w = [].
Proof.
  intros L root client o r log t code msg Hwords Hlen Herr.
  unfold serve_one, handle_one_request.
  apply N.ltb_ge in Hlen. rewrite Hlen.
  destruct (raw_requestline r =? "") eqn:Hraw.
  { apply String.eqb_eq in Hraw. rewrite Hraw in Hwords. cbn in Hwords. lia. }
  destruct (run_parse_request_version_error L client o r (new_world log t) code msg)
    as (w & Hrun & Hw & Hr); [exact Hwords|exact Herr|].
  rewrite run_bind, Hrun. cbv iota beta. cbn [negb]. rewrite run_ret.
  exists w. split; [reflexivity|]. split; assumption.
Qed.

Lemma unaccepted_version_is_answered_without_headers_witness :
  version_error Sample.example_library "HTTP/2.0" =
    Some (HTTP_VERSION_NOT_SUPPORTED, "Invalid HTTP version (2.0)") /\
  exists w,
    serve_one SecurityHeaderHandler.end_headers Sample.example_library "/srv/www"
      "127.0.0.1" Sample.example_os (Sample.request_of "GET /index.html HTTP/2.0")
      [] 0 = Returned tt w /\
    wfile w =
      [Body (error_page (value HTTP_VERSION_NOT_SUPPORTED) "Invalid HTTP version (2.0)"
               (snd (responses HTTP_VERSION_NOT_SUPPORTED)))] /\
    reads w = [].
Proof.
  split; [reflexivity|].
  apply (unaccepted_version_is_answered_without_headers Sample.example_library
           "/srv/www" "127.0.0.1" Sample.example_os
           (Sample.request_of "GET /index.html HTTP/2.0") [] 0
           HTTP_VERSION_NOT_SUPPORTED "Invalid HTTP version (2.0)").
  - vm_compute. lia.
  - vm_compute. discriminate.
  - reflexivity.
Defined.

(** ** The bytes of a header block *)

Lemma concat_app (a b : list string) :
  String.concat "" (app a b) = String.concat "" a ++ String.concat "" b.
Proof.
  induction a as [|x a IH]; cbn [app String.concat]; [reflexivity|].
  destruct a as [|y a].
  - cbn [app String.concat]. destruct b; cbn [String.concat];
      [now rewrite append_nil_r|reflexivity].
  - cbn [app] in *. rewrite IH. now rewrite !append_assoc.
Qed.

Lemma injected_last_bytes (out : list write) :
  headers_injected_last out -> blocks_end_with_security_headers out.
Proof.
  intros H ls Hin. destruct (H ls Hin) as [base ->].
  cbn [bytes_of]. rewrite concat_app.
  change (String.concat "" [coep_line; coop_line; Py.CRLF])
    with (coep_line ++ coop_line ++ Py.CRLF).
  apply endswith_app.
Qed.

(** X14. On the wire, every header block the server sends ends with the
    bytes of [Cross-Origin-Embedder-Policy: require-corp], of
    [Cross-Origin-Opener-Policy: same-origin] and of the blank line, each
    ended by CR LF: [flush_headers] joins the buffered lines unchanged. *)
Theorem header_block_bytes_end_with_security_headers :
  (forall s : self,
     (request_version (attr s) =? "HTTP/0.9") = false ->
     exists s' block,
       SecurityHeaderHandler.end_headers s = inr (s', [block]) /\
       bytes_of block =
         String.concat "" (buffered s) ++
         "Cross-Origin-Embedder-Policy: require-corp" ++ Py.CRLF ++
         "Cross-Origin-Opener-Policy: same-origin" ++ Py.CRLF ++ Py.CRLF) /\
  (forall m : machine,
     Forall (fun reply => blocks_end_with_security_headers (snd reply))
       (replies (main m))).
Proof.
  split.
  - intros s Hv. rewrite security_end_headers_eq, Hv.
    eexists _, _. split; [reflexivity|].
    cbn [bytes_of]. rewrite concat_app. reflexivity.
  - intro m. unfold main.
    destruct (HTTPServer m ("localhost", port) _) as [[e p]|p] eqn:Hs.
    + unfold HTTPServer in Hs. cbn in Hs.
      destruct (bind_error m _ _); [|discriminate].
      injection Hs as <- <-. cbn. constructor.
    + unfold HTTPServer in Hs. cbn in Hs.
      destruct (bind_error m _ _); [discriminate|]. injection Hs as <-.
      match goal with |- context [serve_forever _ _ _ ?q] =>
        destruct (serve_forever_security m blocks_end_with_security_headers
                    (fun _ _ _ w _ _ Hl => injected_last_bytes (wfile w) Hl)
                    (arrivals m) q)
          as (p' & -> & _ & _ & _ & Hrep & _) end.
      { cbn. constructor. }
      destruct (forallb is_connection (arrivals m)); exact Hrep.
Qed.

Lemma header_block_bytes_end_with_security_headers_witness :
  exists s' block,
    SecurityHeaderHandler.end_headers
      (send_response_only OK None
         {| attr := set_request_version "HTTP/1.1" (attr new_self);
            _headers_buffer := None |}) = inr (s', [block]) /\
    bytes_of block =
      String.concat ""
        (buffered
           (send_response_only OK None
              {| attr := set_request_version "HTTP/1.1" (attr new_self);
                 _headers_buffer := None |})) ++
      "Cross-Origin-Embedder-Policy: require-corp" ++ Py.CRLF ++
      "Cross-Origin-Opener-Policy: same-origin" ++ Py.CRLF ++ Py.CRLF.
Proof.
  apply (proj1 header_block_bytes_end_with_security_headers
           (send_response_only OK None
              {| attr := set_request_version "HTTP/1.1" (attr new_self);
                 _headers_buffer := None |})).
  reflexivity.
Defined.

(** ** The log of a request, and the path of a request *)

(** What [send_head] logs for a file that it sends, and how often it reads
    the clock. *)
Lemma run_send_file_log (L : Library) (client : string) (o : os) (path_ : string)
    (w : world) (f : file) :
  (request_version (attr (me w)) =? "HTTP/0.9") = false ->
  Py.endswith path_ "/" = false ->
  open_rb o path_ = Some f ->
  not_modified L (headers (attr (me w))) f = false ->
  exists w',
    run SecurityHeaderHandler.end_headers o (send_file L client path_) w =
      Returned (Some (contents f)) w' /\
    stderr w' =
      app (stderr w)
        [client ++ " - - [" ++ log_date L (clock o (ticks w)) ++ "] " ++
         escape_control L
           (Py.dquote ++ requestline (attr (me w)) ++ Py.dquote ++ " 200 -") ++ Py.LF] /\
    ticks w' = S (S (ticks w)).
Proof.
  intros Hv Hslash Hopen Hmod. unfold send_file.
  rewrite Hslash, run_Open, Hopen. rewrite run_bind, run_get. cbv iota beta.
  cbn [me attr]. rewrite Hmod.
  rewrite run_bind, run_send_response. cbv iota beta.
  rewrite !run_Send_header. cbn [me wfile stderr ticks reads].
  rewrite run_bind, run_end_headers; cycle 1.
  { cbn [me attr].
    rewrite ?send_header_attr, ?connection_directive_version, ?send_response_only_attr.
    exact Hv. }
  cbv iota beta. rewrite run_ret.
  eexists. split; [reflexivity|]. cbn [stderr ticks me attr]. split; reflexivity.
Qed.

(** X15. A GET or HEAD request for a file that is sent leaves one line in
    the log: the address of the client, the time, the request line in
    quotes, and the status 200.  The clock is read twice, once for that line
    and once for the [Date] header. *)
Theorem served_file_is_logged_once :
  forall (L : Library) (root client : string) (o : os) (r : request)
         (log : list string) (t : nat) (c p v : string) (major minor : Z)
         (base : string) (hs : list (string * string)) (f : file),
    Py.split_ws (Py.rstrip_crlf (raw_requestline r)) = [c; p; v] ->
    (N.of_nat (String.length (raw_requestline r)) <= 65536)%N ->
    version_number L v = Some (major, minor, base) ->
    tuple_ge (major, minor) (2, 0)%Z = false ->
    v <> "HTTP/0.9" ->
    following r = Parsed hs ->
    c = "GET" \/ c = "HEAD" ->
    isdir o (translate_path L root (stored_path p)) = false ->
    Py.endswith (translate_path L root (stored_path p)) "/" = false ->
    open_rb o (translate_path L root (stored_path p)) = Some f ->
    not_modified L hs f = false ->
    exists w,
      serve_one SecurityHeaderHandler.end_headers L root client o r log t =
        Returned tt w /\
      stderr w =
        app log
          [client ++ " - - [" ++ log_date L (clock o t) ++ "] " ++
           escape_control L
             (Py.dquote ++ Py.rstrip_crlf (raw_requestline r) ++ Py.dquote ++
              " 200 -") ++ Py.LF] /\
      ticks w = S (S t).
Proof.
  intros L root client o r log t c p v major minor base hs f
         Hwords Hlen Hv Hlt H09 Hhs Hc Hdir Hslash Hopen Hmod.
  apply eqb_false_of_neq in H09.
  accepted Hwords Hlen.
  match goal with |- context [run _ _ _ ?w0] =>
    destruct (run_send_file_log L client o (translate_path L root (stored_path p))
                w0 f)
      as (w & Hrun & Hw & Ht); [exact H09|exact Hslash|exact Hopen|exact Hmod|];
    rewrite <- (run_send_head_not_directory L root client o _ w0 Hdir) in Hrun end.
  cbn [me attr requestline new_world stderr ticks] in Hw, Ht.
  destruct Hc as [-> | ->]; cbn [String.eqb Ascii.eqb Bool.eqb] in *;
    unfold do_GET, do_HEAD; rewrite run_bind, Hrun; cbv iota beta.
  - unfold copyfile. destruct (contents f =? "").
    + rewrite run_ret. exists w. auto.
    + rewrite run_wfile_write. eexists. split; [reflexivity|].
      cbn [stderr ticks]. auto.
  - rewrite run_ret. exists w. auto.
Qed.

Lemma served_file_is_logged_once_witness :
  exists w,
    serve_one SecurityHeaderHandler.end_headers Sample.example_library "/srv/www"
      "127.0.0.1" Sample.example_os (Sample.request_of "GET /index.html HTTP/1.1")
      [] 0 = Returned tt w /\
    stderr w =
      app []
        ["127.0.0.1" ++ " - - [" ++
         log_date Sample.example_library (clock Sample.example_os 0) ++ "] " ++
         escape_control Sample.example_library
           (Py.dquote ++
            Py.rstrip_crlf
              (raw_requestline (Sample.request_of "GET /index.html HTTP/1.1")) ++
            Py.dquote ++ " 200 -") ++ Py.LF] /\
    ticks w = 2.
Proof.
  apply (served_file_is_logged_once Sample.example_library
           "/srv/www" "127.0.0.1" Sample.example_os
           (Sample.request_of "GET /index.html HTTP/1.1") [] 0
           "GET" "/index.html" "HTTP/1.1" 1%Z 1%Z "1.1" [("Host", "localhost:3000")]
           Sample.index_html).
  - reflexivity.
  - vm_compute. discriminate.
  - reflexivity.
  - reflexivity.
  - discriminate.
  - reflexivity.
  - left. reflexivity.
  - reflexivity.
  - reflexivity.
  - reflexivity.
  - reflexivity.
Defined.

Lemma before_twice (c : ascii) (s : string) :
  Py.before c (Py.before c s) = Py.before c s.
Proof.
  induction s as [|x s IH]; cbn [Py.before]; [reflexivity|].
  destruct (Ascii.eqb x c) eqn:E; [reflexivity|].
  cbn [Py.before]. now rewrite E, IH.
Qed.

Lemma before_of_prefix (c d : ascii) (s : string) :
  Py.before c s = s -> Py.before c (Py.before d s) = Py.before d s.
Proof.
  induction s as [|x s IH]; cbn [Py.before]; [reflexivity|].
  destruct (Ascii.eqb x c) eqn:E; [discriminate|]. intro H. injection H as H.
  destruct (Ascii.eqb x d); [reflexivity|].
  cbn [Py.before]. now rewrite E, IH.
Qed.

(** X16. The file a request is answered from does not depend on the query
    and the fragment of its path: [translate_path] gives the same name for a
    path and for its part before the first [?] and [#]. *)
Theorem query_and_fragment_are_ignored :
  forall (L : Library) (root path_ : string),
    translate_path L root path_ =
    translate_path L root (Py.before "#" (Py.before "?" path_)).
Proof.
  intros L root path_. unfold translate_path.
  rewrite (before_of_prefix "?" "#" (Py.before "?" path_)) by apply before_twice.
  now rewrite before_twice.
Qed.
